(** * Tutorial pipeline: validators, batch accumulation and document assembly

    A shallow embedding of [nodes.py] and [flow.py].  Python text is modelled
    by [string], one character for one code point; white space and digits are
    the ASCII ones, and what the interpreter's Unicode tables say of a text
    ([str.isalnum], [str.lower], [str.capitalize]) is a parameter, the class
    [Unicode].  Python integers are modelled by [Z], lists by [list], sets of
    integers by [gset Z], and exceptions by an explicit [result] type.  The
    two external collaborators, the text generator [call_llm] and the YAML
    reader [yaml.safe_load], are fields of an environment [Env] over which
    every stage is parameterised. *)

From stdpp Require Import base numbers list strings gmap sorting.
From Stdlib Require Import Ascii ZArith Lia DecimalString DecimalNat DecimalZ.

Local Open Scope Z_scope.
Set Warnings "-register-all".

(** ** Python string primitives *)

Module PyStr.

(** [c.isspace()] on ASCII: TAB, LF, VT, FF, CR, FS, GS, RS, US and SPACE. *)
Definition isspace (c : ascii) : bool :=
  let n := N_of_ascii c in
  ((9 <=? n)%N && (n <=? 13)%N) || ((28 <=? n)%N && (n <=? 32)%N).

Definition isdigit (c : ascii) : bool :=
  let n := N_of_ascii c in (48 <=? n)%N && (n <=? 57)%N.

(** ["".join(f(c) for c in s)] for an [f] that gives one character. *)
Fixpoint map_chars (f : ascii → ascii) (s : string) : string :=
  match s with
  | EmptyString => EmptyString
  | String c s' => String (f c) (map_chars f s')
  end.

(** [s.lstrip()], [s.rstrip()], [s.strip()] *)
Fixpoint lstrip (s : string) : string :=
  match s with
  | EmptyString => EmptyString
  | String c s' => if isspace c then lstrip s' else s
  end.

Fixpoint rstrip (s : string) : string :=
  match s with
  | EmptyString => EmptyString
  | String c s' =>
      match rstrip s' with
      | EmptyString => if isspace c then EmptyString else String c EmptyString
      | t => String c t
      end
  end.

Definition strip (s : string) : string := rstrip (lstrip s).

(** [s.startswith(p)] *)
Definition startswith (s p : string) : bool := String.prefix p s.

(** [s.endswith(p)] *)
Definition endswith (s p : string) : bool :=
  let n := String.length s in
  let k := String.length p in
  (k <=? n)%nat && String.eqb (String.substring (n - k) k s) p.

(** [sub in s] *)
Fixpoint contains (sub s : string) : bool :=
  String.prefix sub s ||
  match s with
  | EmptyString => false
  | String _ s' => contains sub s'
  end.

(** [s.split(sep)] for a non-empty separator.  [skip] counts the characters
    of a separator occurrence that are still to be consumed. *)
Fixpoint split_aux (sep : string) (skip : nat) (s : string) : list string :=
  match s with
  | EmptyString => [EmptyString]
  | String c s' =>
      match skip with
      | S k => split_aux sep k s'
      | O =>
          if String.prefix sep s
          then EmptyString :: split_aux sep (String.length sep - 1) s'
          else match split_aux sep 0 s' with
               | p :: ps => String c p :: ps
               | [] => [String c EmptyString]
               end
      end
  end.

Definition split (sep s : string) : list string := split_aux sep 0 s.

(** [s.replace(old, new)] for a non-empty [old]. *)
Fixpoint replace_aux (old new : string) (skip : nat) (s : string) : string :=
  match s with
  | EmptyString => EmptyString
  | String c s' =>
      match skip with
      | S k => replace_aux old new k s'
      | O =>
          if String.prefix old s
          then new +:+ replace_aux old new (String.length old - 1) s'
          else String c (replace_aux old new 0 s')
      end
  end.

Definition replace (old new s : string) : string := replace_aux old new 0 s.

(** [sep.join(l)] *)
Definition join (sep : string) (l : list string) : string := String.concat sep l.

(** [s[:n]] for [0 <= n] *)
Definition slice_to (n : nat) (s : string) : string := String.substring 0 n s.

(** [str(n)] for a natural number. *)
Definition str_of_nat (n : nat) : string := NilZero.string_of_uint (Nat.to_uint n).

(** [str(z)] for an integer. *)
Definition str_of_Z (z : Z) : string := NilZero.string_of_int (Z.to_int z).

(** The format specification [02d] applied to a natural number: decimal
    digits, padded with zeros on the left to a width of at least two. *)
Definition format_02d (n : nat) : string :=
  let s := str_of_nat n in
  if (String.length s <? 2)%nat then "0" +:+ s else s.

Definition digit_of (c : ascii) : option Z :=
  if isdigit c then Some (Z.of_N (N_of_ascii c) - 48) else None.

(** Digits of an integer literal; single underscores may separate digits. *)
Fixpoint int_digits (acc : Z) (after_digit : bool) (s : string) : option Z :=
  match s with
  | EmptyString => if after_digit then Some acc else None
  | String c s' =>
      match digit_of c with
      | Some d => int_digits (10 * acc + d) true s'
      | None =>
          if Ascii.eqb c "_" && after_digit then
            match s' with
            | EmptyString => None
            | _ => int_digits acc false s'
            end
          else None
      end
  end.

(** [int(s)] in base ten: surrounding whitespace, an optional sign, digits.
    [None] stands for the [ValueError] that [int] raises. *)
Definition int (s : string) : option Z :=
  match strip s with
  | String "-" d => Z.opp <$> int_digits 0 false d
  | String "+" d => int_digits 0 false d
  | d => int_digits 0 false d
  end.

End PyStr.

(** ** The interpreter's Unicode tables

    What [c.isalnum()], [s.lower()] and [s.capitalize()] give depends on the
    Unicode database of the interpreter, which is no part of [nodes.py]: the
    stages that call them take the tables as a parameter.  [s.lower()] and
    [s.capitalize()] act on a whole text, whose length they may change. *)
Class Unicode : Type := {
  str_isalnum : ascii → bool;
  str_lower : string → string;
  str_capitalize : string → string
}.

(** ** Values, exceptions and effects *)

(** The values [yaml.safe_load] can return.  A mapping is kept as the list of
    its string-keyed fields, looked up from the left. *)
Inductive yaml : Type :=
| YNull
| YBool (b : bool)
| YInt (z : Z)
| YFloat (repr : string)
| YStr (s : string)
| YList (l : list yaml)
| YDict (d : list (string * yaml)).

(** The text of the [ValueError]s the validators raise, one constructor per
    message template with the interpolated values as arguments. *)
Inductive message : Type :=
| LLM_output_is_not_a_list
| Missing_keys_in_abstraction_item (item : yaml)
| Name_is_not_a_string (item : yaml)
| Description_is_not_a_string (item : yaml)
| File_indices_is_not_a_list (item : yaml)
| Invalid_file_index (idx : Z) (name : string) (max_index : Z)
| Could_not_parse_index_from_entry (entry : yaml) (name : string)
| LLM_output_is_not_a_dict_or_missing_keys
| Summary_is_not_a_string
| Relationships_is_not_a_list
| Missing_keys_in_relationship_item (rel : yaml)
| Relationship_label_is_not_a_string (rel : yaml)
| Invalid_index_in_relationship (from_idx to_idx max_index : Z)
| Could_not_parse_indices_from_relationship (rel : yaml)
| Invalid_index_in_ordered_list (idx max_index : Z)
| Duplicate_index_in_ordered_list (idx : Z)
| Could_not_parse_index_from_ordered_list_entry (entry : yaml)
| Ordered_list_length_mismatch (len : nat) (n : nat) (missing : gset Z)
| Invalid_literal_for_int (text : string).

(** The exceptions that occur; [NameError] also stands for its subclass
    [UnboundLocalError]. *)
Inductive exn : Type :=
| ValueError (m : message)
| TypeError
| IndexError
| KeyError
| NameError (name : string)
| YAMLError
| OtherException (text : string).

Inductive result (A : Type) : Type :=
| Ok (a : A)
| Raise (e : exn).
Arguments Ok {A} a.
Arguments Raise {A} e.

#[global] Instance result_ret : MRet result := λ A a, Ok a.
#[global] Instance result_bind : MBind result :=
  λ A B f r, match r with Ok a => f a | Raise e => Raise e end.
#[global] Instance result_fmap : FMap result :=
  λ A B f r, match r with Ok a => Ok (f a) | Raise e => Raise e end.

(** [try: body / except (ValueError, TypeError): handler] *)
Definition except_ValueError_TypeError {A} (body handler : result A) : result A :=
  match body with
  | Raise (ValueError _) | Raise TypeError => handler
  | r => r
  end.

(** The prompt sent to the generator: the template that is filled in and the
    values interpolated into it. *)
Record chapter_prompt : Type := {
  cp_project_name : string;
  cp_abstraction_name : string;
  cp_chapter_num : nat;
  cp_abstraction_description : string;
  cp_full_chapter_listing : string;
  cp_previous_chapters_summary : string;
  cp_file_context_str : string;
  cp_api_calls_for_chapter : list (string * list yaml);
  cp_language : string
}.

Inductive prompt : Type :=
| IdentifyAbstractionsPrompt
    (project_name context language : string) (max_abstraction_num : nat)
    (file_listing_for_prompt : string)
| AnalyzeRelationshipsPrompt
    (project_name abstraction_listing context language : string)
| OrderChaptersPrompt
    (project_name list_lang_note abstraction_listing context : string)
| AnalyzeAPICallsPrompt (project_name file_path file_content language : string)
| AnalyzeFastAPIEndpointsPrompt
    (project_name file_path file_content language : string)
| WriteChaptersPrompt (p : chapter_prompt).

(** One call [call_llm(prompt, use_cache=...)]. *)
Record llm_call : Type := { call_prompt : prompt; call_use_cache : bool }.

(** The collaborators that are not part of [nodes.py].  The generator returns
    text or fails, and what it does may depend on every call made before; its
    failures are told apart as far as the stages tell them apart: an instance
    of [yaml.YAMLError], for which the analyses have an [except] clause of its
    own, or any other exception.  The YAML reader returns a value, rejects its
    input with [yaml.YAMLError], or fails in some other way. *)
Inductive generated : Type :=
| Generated (text : string)
| GenerationFailed (what : string)
| GenerationFailedAsYAMLError (what : string).

Inductive loaded : Type :=
| Loaded (value : yaml)
| NotYAML
| LoadFailed (what : string).

Record Env : Type := {
  generator : list llm_call → llm_call → generated;
  yaml_reader : string → loaded
}.

(** [yaml.safe_load(s)] *)
Definition safe_load (E : Env) (s : string) : result yaml :=
  match yaml_reader E s with
  | Loaded value => Ok value
  | NotYAML => Raise YAMLError
  | LoadFailed what => Raise (OtherException what)
  end.

(** What the stages mutate: the record of generator calls and the instance
    attribute [self.chapters_written_so_far] of [WriteChapters]. *)
Record world : Type := {
  llm_log : list llm_call;
  chapters_written_so_far : list string
}.

Definition M (A : Type) : Type := world → world * result A.

#[global] Instance M_ret : MRet M := λ A a w, (w, Ok a).
#[global] Instance M_bind : MBind M :=
  λ A B f m w, match m w with
               | (w', Ok a) => f a w'
               | (w', Raise e) => (w', Raise e)
               end.

Definition lift {A} (r : result A) : M A := λ w, (w, r).

Definition call_llm (E : Env) (p : prompt) (use_cache : bool) : M string :=
  λ w, let c := {| call_prompt := p; call_use_cache := use_cache |} in
       ({| llm_log := llm_log w ++ [c];
           chapters_written_so_far := chapters_written_so_far w |},
        match generator E (llm_log w) c with
        | Generated text => Ok text
        | GenerationFailed what => Raise (OtherException what)
        | GenerationFailedAsYAMLError _ => Raise YAMLError
        end).

(** ** Shared pieces of the validators *)

Definition NL : string := String "010" EmptyString.
Definition DQUOTE : string := String "034" EmptyString.

(** [response.strip().split("```yaml")[1].split("```")[0].strip()] *)
Definition fenced_yaml (response : string) : result string :=
  match PyStr.split "```yaml" (PyStr.strip response) !! 1%nat with
  | None => Raise IndexError
  | Some after =>
      match PyStr.split "```" after !! 0%nat with
      | None => Raise IndexError
      | Some body => Ok (PyStr.strip body)
      end
  end.

Definition int_or_raise (s : string) : result Z :=
  match PyStr.int s with
  | Some z => Ok z
  | None => Raise (ValueError (Invalid_literal_for_int s))
  end.

(** The three-way parse of an index entry: an [int] (of which [bool] is a
    subclass, [True] being 1) is taken as it is; a string containing a hash
    sign gives [int(entry.split("#")[0].strip())]; anything else gives
    [int(str(entry).strip())], where [str] of [None], of a float, of a list
    or of a mapping is never an integer literal. *)
Definition parse_index_entry (entry : yaml) : result Z :=
  match entry with
  | YInt z => Ok z
  | YBool b => Ok (if b then 1 else 0)
  | YStr s =>
      if PyStr.contains "#" s
      then match PyStr.split "#" s !! 0%nat with
           | Some before => int_or_raise (PyStr.strip before)
           | None => Raise IndexError
           end
      else int_or_raise (PyStr.strip s)
  | YNull => Raise (ValueError (Invalid_literal_for_int "None"))
  | YFloat repr => Raise (ValueError (Invalid_literal_for_int repr))
  | YList _ => Raise (ValueError (Invalid_literal_for_int "[...]"))
  | YDict _ => Raise (ValueError (Invalid_literal_for_int "{...}"))
  end.

Definition in_range (idx : Z) (n : nat) : bool :=
  (0 <=? idx) && (idx <? Z.of_nat n).

Fixpoint dict_get (d : list (string * yaml)) (k : string) : option yaml :=
  match d with
  | [] => None
  | (k', v) :: d' => if String.eqb k' k then Some v else dict_get d' k
  end.

Definition has_keys (d : list (string * yaml)) (ks : list string) : bool :=
  forallb (λ k, bool_decide (is_Some (dict_get d k))) ks.

(** ** IdentifyAbstractions *)

Record abstraction : Type := {
  name : string;
  description : string;
  files : list Z
}.

(** The body of the loop over [item["file_indices"]]. *)
Definition validate_file_index (file_count : nat) (item_name : string)
    (idx_entry : yaml) : result Z :=
  except_ValueError_TypeError
    (idx ← parse_index_entry idx_entry;
     if negb (in_range idx file_count)
     then Raise (ValueError
                   (Invalid_file_index idx item_name (Z.of_nat file_count - 1)))
     else Ok idx)
    (Raise (ValueError (Could_not_parse_index_from_entry idx_entry item_name))).

Fixpoint validate_file_indices (file_count : nat) (item_name : string)
    (entries : list yaml) (validated_indices : list Z) : result (list Z) :=
  match entries with
  | [] => Ok validated_indices
  | idx_entry :: rest =>
      idx ← validate_file_index file_count item_name idx_entry;
      validate_file_indices file_count item_name rest (validated_indices ++ [idx])
  end.

(** [sorted(list(set(l)))] *)
Definition sorted_set (l : list Z) : list Z :=
  merge_sort Z.le (elements (list_to_set l : gset Z)).

Definition validate_abstraction (file_count : nat) (item : yaml)
    : result abstraction :=
  match item with
  | YDict d =>
      if negb (has_keys d ["name"; "description"; "file_indices"])
      then Raise (ValueError (Missing_keys_in_abstraction_item item))
      else
        match dict_get d "name", dict_get d "description",
              dict_get d "file_indices" with
        | Some (YStr nm), Some (YStr descr), Some (YList entries) =>
            validated_indices ← validate_file_indices file_count nm entries [];
            Ok {| name := nm; description := descr;
                  files := sorted_set validated_indices |}
        | Some (YStr _), Some (YStr _), _ =>
            Raise (ValueError (File_indices_is_not_a_list item))
        | Some (YStr _), _, _ =>
            Raise (ValueError (Description_is_not_a_string item))
        | _, _, _ => Raise (ValueError (Name_is_not_a_string item))
        end
  | _ => Raise (ValueError (Missing_keys_in_abstraction_item item))
  end.

Fixpoint validate_abstractions (file_count : nat) (items : list yaml)
    (validated_abstractions : list abstraction) : result (list abstraction) :=
  match items with
  | [] => Ok validated_abstractions
  | item :: rest =>
      a ← validate_abstraction file_count item;
      validate_abstractions file_count rest (validated_abstractions ++ [a])
  end.

(** Everything after the generator call in [IdentifyAbstractions.exec]. *)
Definition IdentifyAbstractions_validate (E : Env) (file_count : nat)
    (response : string) : result (list abstraction) :=
  yaml_str ← fenced_yaml response;
  abstractions ← safe_load E yaml_str;
  match abstractions with
  | YList items => validate_abstractions file_count items []
  | _ => Raise (ValueError LLM_output_is_not_a_list)
  end.

Record identify_prep_res : Type := {
  ia_context : string;
  ia_file_listing_for_prompt : string;
  ia_file_count : nat;
  ia_project_name : string;
  ia_language : string;
  ia_use_cache : bool;
  ia_max_abstraction_num : nat
}.

Definition IdentifyAbstractions_exec (E : Env) (cur_retry : nat)
    (prep_res : identify_prep_res) : M (list abstraction) :=
  response ← call_llm E
    (IdentifyAbstractionsPrompt (ia_project_name prep_res) (ia_context prep_res)
       (ia_language prep_res) (ia_max_abstraction_num prep_res)
       (ia_file_listing_for_prompt prep_res))
    (ia_use_cache prep_res && (cur_retry =? 0)%nat);
  lift (IdentifyAbstractions_validate E (ia_file_count prep_res) response).

(** ** AnalyzeRelationships *)

Record relationship : Type := {
  rel_from : Z;
  rel_to : Z;
  rel_label : string
}.

Record relationships_data : Type := {
  summary : string;
  details : list relationship
}.

(** [str(v)] for the values an index field of a relationship is read from;
    the other kinds of value print as text that is not an integer literal. *)
Definition str_of_index_field (v : yaml) : string :=
  match v with
  | YInt z => PyStr.str_of_Z z
  | YBool b => if b then "True" else "False"
  | YStr s => s
  | YNull => "None"
  | YFloat repr => repr
  | YList _ => "[...]"
  | YDict _ => "{...}"
  end.

(** [int(str(v).split("#")[0].strip())] *)
Definition parse_relationship_index (v : yaml) : result Z :=
  match PyStr.split "#" (str_of_index_field v) !! 0%nat with
  | Some before => int_or_raise (PyStr.strip before)
  | None => Raise IndexError
  end.

Definition validate_relationship (num_abstractions : nat) (rel : yaml)
    : result relationship :=
  match rel with
  | YDict d =>
      if negb (has_keys d ["from_abstraction"; "to_abstraction"; "label"])
      then Raise (ValueError (Missing_keys_in_relationship_item rel))
      else
        match dict_get d "label", dict_get d "from_abstraction",
              dict_get d "to_abstraction" with
        | Some (YStr label), Some from_v, Some to_v =>
            except_ValueError_TypeError
              (from_idx ← parse_relationship_index from_v;
               to_idx ← parse_relationship_index to_v;
               if negb (in_range from_idx num_abstractions
                        && in_range to_idx num_abstractions)
               then Raise (ValueError
                             (Invalid_index_in_relationship from_idx to_idx
                                (Z.of_nat num_abstractions - 1)))
               else Ok {| rel_from := from_idx; rel_to := to_idx;
                          rel_label := label |})
              (Raise (ValueError (Could_not_parse_indices_from_relationship rel)))
        | _, _, _ => Raise (ValueError (Relationship_label_is_not_a_string rel))
        end
  | _ => Raise (ValueError (Missing_keys_in_relationship_item rel))
  end.

Fixpoint validate_relationships (num_abstractions : nat) (rels : list yaml)
    (validated_relationships : list relationship) : result (list relationship) :=
  match rels with
  | [] => Ok validated_relationships
  | rel :: rest =>
      r ← validate_relationship num_abstractions rel;
      validate_relationships num_abstractions rest (validated_relationships ++ [r])
  end.

Definition AnalyzeRelationships_validate (E : Env) (num_abstractions : nat)
    (response : string) : result relationships_data :=
  yaml_str ← fenced_yaml response;
  data ← safe_load E yaml_str;
  match data with
  | YDict d =>
      if negb (has_keys d ["summary"; "relationships"])
      then Raise (ValueError LLM_output_is_not_a_dict_or_missing_keys)
      else
        match dict_get d "summary", dict_get d "relationships" with
        | Some (YStr s), Some (YList rels) =>
            validated ← validate_relationships num_abstractions rels [];
            Ok {| summary := s; details := validated |}
        | Some (YStr _), _ => Raise (ValueError Relationships_is_not_a_list)
        | _, _ => Raise (ValueError Summary_is_not_a_string)
        end
  | _ => Raise (ValueError LLM_output_is_not_a_dict_or_missing_keys)
  end.

Record relationships_prep_res : Type := {
  ar_context : string;
  ar_abstraction_listing : string;
  ar_num_abstractions : nat;
  ar_project_name : string;
  ar_language : string;
  ar_use_cache : bool
}.

Definition AnalyzeRelationships_exec (E : Env) (cur_retry : nat)
    (prep_res : relationships_prep_res) : M relationships_data :=
  response ← call_llm E
    (AnalyzeRelationshipsPrompt (ar_project_name prep_res)
       (ar_abstraction_listing prep_res) (ar_context prep_res)
       (ar_language prep_res))
    (ar_use_cache prep_res && (cur_retry =? 0)%nat);
  lift (AnalyzeRelationships_validate E (ar_num_abstractions prep_res) response).

(** ** OrderChapters *)

(** The body of the [try] block of the loop over the raw entries, with the
    [except] clause that wraps it. *)
Definition validate_order_entry (num_abstractions : nat) (seen_indices : gset Z)
    (entry : yaml) : result Z :=
  except_ValueError_TypeError
    (idx ← parse_index_entry entry;
     if negb (in_range idx num_abstractions)
     then Raise (ValueError
                   (Invalid_index_in_ordered_list idx
                      (Z.of_nat num_abstractions - 1)))
     else if bool_decide (idx ∈ seen_indices)
     then Raise (ValueError (Duplicate_index_in_ordered_list idx))
     else Ok idx)
    (Raise (ValueError (Could_not_parse_index_from_ordered_list_entry entry))).

Fixpoint order_loop (num_abstractions : nat) (entries : list yaml)
    (ordered_indices : list Z) (seen_indices : gset Z)
    : result (list Z * gset Z) :=
  match entries with
  | [] => Ok (ordered_indices, seen_indices)
  | entry :: rest =>
      idx ← validate_order_entry num_abstractions seen_indices entry;
      order_loop num_abstractions rest (ordered_indices ++ [idx])
        ({[idx]} ∪ seen_indices)
  end.

(** [set(range(num_abstractions)) - seen_indices] *)
Definition missing_indices (num_abstractions : nat) (seen_indices : gset Z)
    : gset Z :=
  list_to_set (seqZ 0 (Z.of_nat num_abstractions)) ∖ seen_indices.

Definition OrderChapters_validate (E : Env) (num_abstractions : nat)
    (response : string) : result (list Z) :=
  yaml_str ← fenced_yaml response;
  ordered_indices_raw ← safe_load E yaml_str;
  match ordered_indices_raw with
  | YList entries =>
      looped ← order_loop num_abstractions entries [] ∅;
      let ordered_indices := looped.1 in
      let seen_indices := looped.2 in
      if negb (length ordered_indices =? num_abstractions)%nat
      then Raise (ValueError
                    (Ordered_list_length_mismatch (length ordered_indices)
                       num_abstractions
                       (missing_indices num_abstractions seen_indices)))
      else Ok ordered_indices
  | _ => Raise (ValueError LLM_output_is_not_a_list)
  end.

Record order_prep_res : Type := {
  oc_abstraction_listing : string;
  oc_context : string;
  oc_num_abstractions : nat;
  oc_project_name : string;
  oc_list_lang_note : string;
  oc_use_cache : bool
}.

Definition OrderChapters_exec (E : Env) (cur_retry : nat)
    (prep_res : order_prep_res) : M (list Z) :=
  response ← call_llm E
    (OrderChaptersPrompt (oc_project_name prep_res) (oc_list_lang_note prep_res)
       (oc_abstraction_listing prep_res) (oc_context prep_res))
    (oc_use_cache prep_res && (cur_retry =? 0)%nat);
  lift (OrderChapters_validate E (oc_num_abstractions prep_res) response).

(** ** AnalyzeAPICalls and AnalyzeFastAPIEndpoints *)

Record file_info : Type := { fi_path : string; fi_content : string }.

Record analysis_prep_res : Type := {
  an_files : list file_info;
  an_project_name : string;
  an_language : string;
  an_use_cache : bool
}.

(** One entry of the returned list: [{"file_path": ..., "api_calls": ...}]
    (or ["endpoints"] for the FastAPI analysis). *)
Record analysis_entry : Type := {
  ae_file_path : string;
  ae_parsed : list yaml
}.

(** The block that takes the fenced part out of a stripped reply. *)
Definition fenced_or_whole (response : string) : result string :=
  let yaml_str := PyStr.strip response in
  if PyStr.contains "```yaml" yaml_str then
    match PyStr.split "```yaml" yaml_str !! 1%nat with
    | None => Raise IndexError
    | Some after =>
        match PyStr.split "```" after !! 0%nat with
        | None => Raise IndexError
        | Some body => Ok (PyStr.strip body)
        end
    end
  else if PyStr.contains "```" yaml_str then
    match PyStr.split "```" yaml_str !! 1%nat with
    | None => Raise IndexError
    | Some body => Ok (PyStr.strip body)
    end
  else Ok yaml_str.

(** The statements of the [try] block that follow the generator call. *)
Definition parse_file_reply (E : Env) (file_path response : string)
    (all_info : list analysis_entry) : result (list analysis_entry) :=
  yaml_str ← fenced_or_whole response;
  in_file ← (if String.eqb yaml_str "" then Ok (YList []) else safe_load E yaml_str);
  let in_file := match in_file with YList l => l | _ => [] end in
  match in_file with
  | [] => Ok all_info
  | _ => Ok (all_info ++ [{| ae_file_path := file_path; ae_parsed := in_file |}])
  end.

(** The [try] statement in the body of either loop; the two differ in the
    prompt [p] and in the text they print.  [response] is the local variable
    of [exec]: it is unbound ([None]) until a call of this [exec] has
    returned, and keeps the reply of an earlier file afterwards.

    [except yaml.YAMLError] prints [response] as it is, which raises
    [UnboundLocalError] (a [NameError]) when the variable is unbound;
    [except Exception] prints it only if ['response' in locals()].  Apart
    from that the clauses leave the list as it was. *)
Definition analysis_try (E : Env) (p : prompt) (use_cache : bool)
    (file_path : string) (all_info : list analysis_entry)
    (response : option string) : M (list analysis_entry * option string) :=
  λ w,
    match call_llm E p use_cache w with
    | (w', Ok new_response) =>
        (w', match parse_file_reply E file_path new_response all_info with
             | Ok all_info' => Ok (all_info', Some new_response)
             | Raise _ => Ok (all_info, Some new_response)
             end)
    | (w', Raise YAMLError) =>
        (w', match response with
             | Some _ => Ok (all_info, response)
             | None => Raise (NameError "response")
             end)
    | (w', Raise _) => (w', Ok (all_info, response))
    end.

(** The body of the loop over the frontend files. *)
Definition AnalyzeAPICalls_file (E : Env) (cur_retry : nat)
    (project_name language : string) (use_cache : bool) (f : file_info)
    (all_api_calls_info : list analysis_entry) (response : option string)
    : M (list analysis_entry * option string) :=
  analysis_try E
    (AnalyzeAPICallsPrompt project_name (fi_path f) (fi_content f) language)
    (use_cache && (cur_retry =? 0)%nat) (fi_path f) all_api_calls_info response.

Fixpoint AnalyzeAPICalls_loop (E : Env) (cur_retry : nat)
    (project_name language : string) (use_cache : bool)
    (frontend_files : list file_info) (all_api_calls_info : list analysis_entry)
    (response : option string) : M (list analysis_entry) :=
  match frontend_files with
  | [] => mret all_api_calls_info
  | f :: rest =>
      locals ←
        AnalyzeAPICalls_file E cur_retry project_name language use_cache f
          all_api_calls_info response;
      AnalyzeAPICalls_loop E cur_retry project_name language use_cache rest
        locals.1 locals.2
  end.

Definition AnalyzeAPICalls_exec (E : Env) (cur_retry : nat)
    (prep_res : option analysis_prep_res) : M (list analysis_entry) :=
  match prep_res with
  | None => mret []
  | Some p =>
      AnalyzeAPICalls_loop E cur_retry (an_project_name p) (an_language p)
        (an_use_cache p) (an_files p) [] None
  end.

(** The body of the loop over the Python files. *)
Definition AnalyzeFastAPIEndpoints_file (E : Env) (cur_retry : nat)
    (project_name language : string) (use_cache : bool) (f : file_info)
    (all_endpoints_info : list analysis_entry) (response : option string)
    : M (list analysis_entry * option string) :=
  analysis_try E
    (AnalyzeFastAPIEndpointsPrompt project_name (fi_path f) (fi_content f)
       language)
    (use_cache && (cur_retry =? 0)%nat) (fi_path f) all_endpoints_info response.

Fixpoint AnalyzeFastAPIEndpoints_loop (E : Env) (cur_retry : nat)
    (project_name language : string) (use_cache : bool)
    (python_files : list file_info) (all_endpoints_info : list analysis_entry)
    (response : option string) : M (list analysis_entry) :=
  match python_files with
  | [] => mret all_endpoints_info
  | f :: rest =>
      locals ←
        AnalyzeFastAPIEndpoints_file E cur_retry project_name language use_cache
          f all_endpoints_info response;
      AnalyzeFastAPIEndpoints_loop E cur_retry project_name language use_cache
        rest locals.1 locals.2
  end.

Definition AnalyzeFastAPIEndpoints_exec (E : Env) (cur_retry : nat)
    (prep_res : option analysis_prep_res) : M (list analysis_entry) :=
  match prep_res with
  | None => mret []
  | Some p =>
      AnalyzeFastAPIEndpoints_loop E cur_retry (an_project_name p)
        (an_language p) (an_use_cache p) (an_files p) [] None
  end.

(** ** WriteChapters *)

(** [l[i]] with Python's negative indices. *)
Definition py_index {A} (l : list A) (i : Z) : result A :=
  let n := Z.of_nat (length l) in
  let j := if i <? 0 then i + n else i in
  if (0 <=? j) && (j <? n)
  then match l !! Z.to_nat j with
       | Some x => Ok x
       | None => Raise IndexError
       end
  else Raise IndexError.

(** [d[k] = v] on an insertion-ordered dictionary with string keys. *)
Fixpoint dict_set {V} (d : list (string * V)) (k : string) (v : V)
    : list (string * V) :=
  match d with
  | [] => [(k, v)]
  | (k', v') :: d' =>
      if String.eqb k' k then (k, v) :: d' else (k', v') :: dict_set d' k v
  end.

Fixpoint get_content_for_indices_loop (files_data : list (string * string))
    (indices : list Z) (content_map : list (string * string))
    : list (string * string) :=
  match indices with
  | [] => content_map
  | i :: rest =>
      get_content_for_indices_loop files_data rest
        (if in_range i (length files_data)
         then match files_data !! Z.to_nat i with
              | Some (path, content) =>
                  dict_set content_map (PyStr.str_of_Z i +:+ " # " +:+ path) content
              | None => content_map
              end
         else content_map)
  end.

Definition get_content_for_indices (files_data : list (string * string))
    (indices : list Z) : list (string * string) :=
  get_content_for_indices_loop files_data indices [].

Record chapter_info : Type := {
  ci_num : nat;
  ci_name : string;
  ci_filename : string
}.

Record chapter_item : Type := {
  item_chapter_num : nat;
  item_abstraction_index : Z;
  item_abstraction_details : abstraction;
  item_related_files_content_map : list (string * string);
  item_project_name : string;
  item_full_chapter_listing : string;
  item_chapter_filenames : gmap Z chapter_info;
  item_prev_chapter : option chapter_info;
  item_next_chapter : option chapter_info;
  item_language : string;
  item_use_cache : bool;
  item_api_calls_for_chapter : list analysis_entry
}.

(** The first loop of [WriteChapters.prep]: the table of contents and the
    mapping from abstraction index to chapter file.  [i] is the position
    [enumerate] has reached. *)
Fixpoint prep_all_chapters `{Unicode} (abstractions : list abstraction)
    (i : nat) (chapter_order : list Z) (all_chapters : list string)
    (chapter_filenames : gmap Z chapter_info)
    : list string * gmap Z chapter_info :=
  match chapter_order with
  | [] => (all_chapters, chapter_filenames)
  | abstraction_index :: rest =>
      match (if in_range abstraction_index (length abstractions)
             then abstractions !! Z.to_nat abstraction_index else None) with
      | Some a =>
          let chapter_num := (i + 1)%nat in
          let chapter_name := name a in
          let safe_name :=
            str_lower
              (PyStr.map_chars (λ c, if str_isalnum c then c else "_"%char)
                 chapter_name) in
          let filename :=
            PyStr.format_02d (i + 1) +:+ "_" +:+ safe_name +:+ ".md" in
          prep_all_chapters abstractions (S i) rest
            (all_chapters ++
               [PyStr.str_of_nat chapter_num +:+ ". [" +:+ chapter_name +:+ "]("
                  +:+ filename +:+ ")"])
            (<[abstraction_index :=
                 {| ci_num := chapter_num; ci_name := chapter_name;
                    ci_filename := filename |}]> chapter_filenames)
      | None =>
          prep_all_chapters abstractions (S i) rest all_chapters chapter_filenames
      end
  end.

Fixpoint mapM_result {A B} (f : A → result B) (l : list A) : result (list B) :=
  match l with
  | [] => Ok []
  | x :: l' => y ← f x; ys ← mapM_result f l'; Ok (y :: ys)
  end.

(** [chapter_filenames[k]] *)
Definition filenames_lookup (chapter_filenames : gmap Z chapter_info) (k : Z)
    : result chapter_info :=
  match chapter_filenames !! k with
  | Some c => Ok c
  | None => Raise KeyError
  end.

(** The second loop of [WriteChapters.prep]; [whole_order] is the complete
    [chapter_order], of which [chapter_order] is the part from position [i]. *)
Fixpoint prep_items (abstractions : list abstraction)
    (files_data : list (string * string)) (project_name language : string)
    (use_cache : bool) (api_call_analysis : list analysis_entry)
    (full_chapter_listing : string) (chapter_filenames : gmap Z chapter_info)
    (whole_order : list Z) (i : nat) (chapter_order : list Z)
    (items_to_process : list chapter_item) : result (list chapter_item) :=
  match chapter_order with
  | [] => Ok items_to_process
  | abstraction_index :: rest =>
      match (if in_range abstraction_index (length abstractions)
             then abstractions !! Z.to_nat abstraction_index else None) with
      | Some abstraction_details =>
          let related_file_indices := files abstraction_details in
          let related_files_content_map :=
            get_content_for_indices files_data related_file_indices in
          abstraction_file_paths ←
            mapM_result (λ idx, fst <$> py_index files_data idx)
              related_file_indices;
          let relevant_api_calls_for_abstraction :=
            filter (λ analysis_item,
                      ae_file_path analysis_item ∈ abstraction_file_paths)
              api_call_analysis in
          prev_chapter ←
            (if (0 <? i)%nat
             then prev_idx ← py_index whole_order (Z.of_nat i - 1);
                  Some <$> filenames_lookup chapter_filenames prev_idx
             else Ok None);
          next_chapter ←
            (if (Z.of_nat i <? Z.of_nat (length whole_order) - 1)
             then next_idx ← py_index whole_order (Z.of_nat i + 1);
                  Some <$> filenames_lookup chapter_filenames next_idx
             else Ok None);
          prep_items abstractions files_data project_name language use_cache
            api_call_analysis full_chapter_listing chapter_filenames whole_order
            (S i) rest
            (items_to_process ++
               [{| item_chapter_num := (i + 1)%nat;
                   item_abstraction_index := abstraction_index;
                   item_abstraction_details := abstraction_details;
                   item_related_files_content_map := related_files_content_map;
                   item_project_name := project_name;
                   item_full_chapter_listing := full_chapter_listing;
                   item_chapter_filenames := chapter_filenames;
                   item_prev_chapter := prev_chapter;
                   item_next_chapter := next_chapter;
                   item_language := language;
                   item_use_cache := use_cache;
                   item_api_calls_for_chapter :=
                     relevant_api_calls_for_abstraction |}])
      | None =>
          prep_items abstractions files_data project_name language use_cache
            api_call_analysis full_chapter_listing chapter_filenames whole_order
            (S i) rest items_to_process
      end
  end.

Record write_shared : Type := {
  ws_chapter_order : list Z;
  ws_abstractions : list abstraction;
  ws_files : list (string * string);
  ws_project_name : string;
  ws_language : string;
  ws_use_cache : bool;
  ws_api_call_analysis : list analysis_entry
}.

(** [WriteChapters.prep]: it empties [self.chapters_written_so_far] and
    returns the items of the batch. *)
Definition WriteChapters_prep `{Unicode} (shared : write_shared)
    : M (list chapter_item) :=
  λ w,
    let w' := {| llm_log := llm_log w; chapters_written_so_far := [] |} in
    let '(all_chapters, chapter_filenames) :=
      prep_all_chapters (ws_abstractions shared) 0 (ws_chapter_order shared) [] ∅ in
    let full_chapter_listing := PyStr.join NL all_chapters in
    (w', prep_items (ws_abstractions shared) (ws_files shared)
           (ws_project_name shared) (ws_language shared) (ws_use_cache shared)
           (ws_api_call_analysis shared) full_chapter_listing chapter_filenames
           (ws_chapter_order shared) 0 (ws_chapter_order shared) []).

(** The heading check and repair that follows the generator call in
    [WriteChapters.exec]. *)
Definition normalize_heading (chapter_num : nat) (abstraction_name : string)
    (chapter_content : string) : string :=
  let actual_heading :=
    "# Chapter " +:+ PyStr.str_of_nat chapter_num +:+ ": " +:+ abstraction_name in
  if negb (PyStr.startswith (PyStr.strip chapter_content)
             ("# Chapter " +:+ PyStr.str_of_nat chapter_num))
  then
    let lines := PyStr.split NL (PyStr.strip chapter_content) in
    match lines with
    | first_line :: rest =>
        if PyStr.startswith (PyStr.strip first_line) "#"
        then PyStr.join NL (actual_heading :: rest)
        else actual_heading +:+ NL +:+ NL +:+ chapter_content
    | [] => actual_heading +:+ NL +:+ NL +:+ chapter_content
    end
  else chapter_content.

Definition SEPARATOR : string := NL +:+ "---" +:+ NL.
Definition FIRST_CHAPTER : string := "This is the first chapter.".
Definition NO_SNIPPETS : string :=
  "No specific code snippets provided for this abstraction.".

(** What is substituted for [previous_chapters_summary] in the template. *)
Definition previous_context (chapters_so_far : list string) : string :=
  let previous_chapters_summary := PyStr.join SEPARATOR chapters_so_far in
  if String.eqb previous_chapters_summary "" then FIRST_CHAPTER
  else previous_chapters_summary.

Definition file_context_entry (kv : string * string) : string :=
  let idx_path := kv.1 in
  "--- File: " +:+
  (if PyStr.contains "# " idx_path
   then default "" (PyStr.split "# " idx_path !! 1%nat)
   else idx_path) +:+ " ---" +:+ NL +:+ kv.2.

Definition WriteChapters_exec (E : Env) (item : chapter_item) (cur_retry : nat)
    : M string :=
  λ w,
    let abstraction_name := name (item_abstraction_details item) in
    let abstraction_description := description (item_abstraction_details item) in
    let chapter_num := item_chapter_num item in
    let file_context_str :=
      PyStr.join (NL +:+ NL)
        (file_context_entry <$> item_related_files_content_map item) in
    let p :=
      {| cp_project_name := item_project_name item;
         cp_abstraction_name := abstraction_name;
         cp_chapter_num := chapter_num;
         cp_abstraction_description := abstraction_description;
         cp_full_chapter_listing := item_full_chapter_listing item;
         cp_previous_chapters_summary :=
           previous_context (chapters_written_so_far w);
         cp_file_context_str :=
           if String.eqb file_context_str "" then NO_SNIPPETS
           else file_context_str;
         cp_api_calls_for_chapter :=
           (λ e, (ae_file_path e, ae_parsed e)) <$> item_api_calls_for_chapter item;
         cp_language := item_language item |} in
    match call_llm E (WriteChaptersPrompt p)
            (item_use_cache item && (cur_retry =? 0)%nat) w with
    | (w', Raise e) => (w', Raise e)
    | (w', Ok chapter_content) =>
        let chapter_content :=
          normalize_heading chapter_num abstraction_name chapter_content in
        ({| llm_log := llm_log w';
            chapters_written_so_far :=
              chapters_written_so_far w' ++ [chapter_content] |},
         Ok chapter_content)
    end.

(** Modelled from the spec: the retry wrapper of a Stage (section 4.1), which
    lives in the [pocketflow] package and not in this repository.  [execute]
    is attempted with [attemptNumber] 0, 1, ... until it succeeds; the failure
    of the last permitted attempt is the failure of the Stage. *)
Fixpoint Stage_attempts {A} (exec : nat → M A) (cur_retry remaining : nat)
    : M A :=
  match remaining with
  | O => λ w, (w, Raise (OtherException "no attempt permitted"))
  | S r =>
      λ w, match exec cur_retry w with
           | (w', Raise e) =>
               match r with
               | O => (w', Raise e)
               | S _ => Stage_attempts exec (S cur_retry) r w'
               end
           | done => done
           end
  end.

Definition Stage_run {A} (exec : nat → M A) (max_retries : nat) : M A :=
  Stage_attempts exec 0 max_retries.

(** Modelled from the spec: the batch sub-pipeline (section 4.2), also part of
    [pocketflow]: the items are executed one after the other, each under the
    retry wrapper, and the first item that fails for good aborts the batch. *)
Fixpoint Batch_run {A B} (exec : A → nat → M B) (max_retries : nat)
    (items : list A) : M (list B) :=
  match items with
  | [] => mret []
  | item :: rest =>
      r ← Stage_run (exec item) max_retries;
      rs ← Batch_run exec max_retries rest;
      mret (r :: rs)
  end.

(** [prep] followed by the batch of [exec] calls. *)
Definition WriteChapters_run `{Unicode} (E : Env) (max_retries : nat)
    (shared : write_shared)
    : M (list string) :=
  items ← WriteChapters_prep shared;
  Batch_run (WriteChapters_exec E) max_retries items.

(** ** CombineTutorial *)

(** The label of one edge of the diagram. *)
Definition mermaid_edge_label (label : string) : string :=
  let edge_label := PyStr.replace NL " " (PyStr.replace DQUOTE "" label) in
  let max_label_len := 30%nat in
  if (max_label_len <? String.length edge_label)%nat
  then PyStr.slice_to (max_label_len - 3) edge_label +:+ "..."
  else edge_label.

Definition mermaid_node (i : nat) (abstr : abstraction) : string :=
  "    A" +:+ PyStr.str_of_nat i +:+ "[" +:+ DQUOTE
    +:+ PyStr.replace DQUOTE "" (name abstr) +:+ DQUOTE +:+ "]".

Definition mermaid_edge (rel : relationship) : string :=
  "    A" +:+ PyStr.str_of_Z (rel_from rel) +:+ " -- " +:+ DQUOTE
    +:+ mermaid_edge_label (rel_label rel) +:+ DQUOTE +:+ " --> A"
    +:+ PyStr.str_of_Z (rel_to rel).

Definition mermaid_diagram (abstractions : list abstraction)
    (rels : list relationship) : string :=
  PyStr.join NL
    (["flowchart TD"] ++ imap mermaid_node abstractions ++ (mermaid_edge <$> rels)).

Record chapter_file : Type := { cf_filename : string; cf_content : string }.

Definition FOOTER : string :=
  "---" +:+ NL +:+ NL +:+
  "Generated by [AI Codebase Knowledge Builder](https://github.com/The-Pocket/Tutorial-Codebase-Knowledge)".

(** The loop of [CombineTutorial.prep] over [enumerate(chapter_order)]. *)
Fixpoint combine_chapters `{Unicode} (abstractions : list abstraction)
    (chapters_content : list string) (i : nat) (chapter_order : list Z)
    (index_content : string) (chapter_files : list chapter_file)
    : string * list chapter_file :=
  match chapter_order with
  | [] => (index_content, chapter_files)
  | abstraction_index :: rest =>
      match (if in_range abstraction_index (length abstractions)
             then abstractions !! Z.to_nat abstraction_index else None),
            chapters_content !! i with
      | Some a, Some chapter_content =>
          let abstraction_name := name a in
          let safe_name :=
            str_lower
              (PyStr.map_chars (λ c, if str_isalnum c then c else "_"%char)
                 abstraction_name) in
          let filename :=
            PyStr.format_02d (i + 1) +:+ "_" +:+ safe_name +:+ ".md" in
          let index_content :=
            index_content +:+ PyStr.str_of_nat (i + 1) +:+ ". [" +:+
            abstraction_name +:+ "](" +:+ filename +:+ ")" +:+ NL in
          let chapter_content :=
            if negb (PyStr.endswith chapter_content (NL +:+ NL))
            then chapter_content +:+ NL +:+ NL else chapter_content in
          let chapter_content := chapter_content +:+ FOOTER in
          combine_chapters abstractions chapters_content (S i) rest index_content
            (chapter_files ++
               [{| cf_filename := filename; cf_content := chapter_content |}])
      | _, _ =>
          combine_chapters abstractions chapters_content (S i) rest index_content
            chapter_files
      end
  end.

Record combine_shared : Type := {
  cs_project_name : string;
  cs_repo_url : option string;
  cs_api_documentation_md : string;
  cs_relationships : relationships_data;
  cs_chapter_order : list Z;
  cs_abstractions : list abstraction;
  cs_chapters : list string
}.

Record combine_prep_res : Type := {
  index_content : string;
  chapter_files : list chapter_file;
  api_documentation_md : string;
  api_doc_filename : option string
}.

(** [CombineTutorial.prep], without the output path (an [os.path.join]). *)
Definition CombineTutorial_prep `{Unicode} (shared : combine_shared)
    : combine_prep_res :=
  let diagram :=
    mermaid_diagram (cs_abstractions shared)
      (details (cs_relationships shared)) in
  let repo_url := default "None" (cs_repo_url shared) in
  let has_api_doc :=
    negb (String.eqb (cs_api_documentation_md shared) "")
    && negb (String.eqb (PyStr.strip (cs_api_documentation_md shared)) "") in
  let index_content :=
    "# Tutorial: " +:+ cs_project_name shared +:+ NL +:+ NL
    +:+ summary (cs_relationships shared) +:+ NL +:+ NL
    +:+ "**Source Repository:** [" +:+ repo_url +:+ "](" +:+ repo_url +:+ ")"
    +:+ NL +:+ NL
    +:+ (if has_api_doc
         then "## API Reference" +:+ NL +:+ NL
              +:+ "See the [API Reference](api_reference.md) for details on backend endpoints."
              +:+ NL +:+ NL
         else "")
    +:+ "## Codebase Abstractions Diagram" +:+ NL +:+ NL
    +:+ "```mermaid" +:+ NL +:+ diagram +:+ NL +:+ "```" +:+ NL +:+ NL
    +:+ "## Chapters" +:+ NL +:+ NL in
  let '(index_content, chapter_files) :=
    combine_chapters (cs_abstractions shared) (cs_chapters shared) 0
      (cs_chapter_order shared) index_content [] in
  {| index_content := index_content +:+ NL +:+ NL +:+ FOOTER;
     chapter_files := chapter_files;
     api_documentation_md := cs_api_documentation_md shared;
     api_doc_filename := if has_api_doc then Some "api_reference.md" else None |}.

(** ** flow.py *)

Module FlowPy.

(** The names bound in the module's namespace when [create_tutorial_flow] is
    called: those of the two import statements and the function itself. *)
Definition module_globals : gset string :=
  {[ "Flow"; "FetchRepo"; "IdentifyAbstractions"; "AnalyzeRelationships";
     "OrderChapters"; "WriteChapters"; "CombineTutorial";
     "create_tutorial_flow" ]}.

Record node : Type := {
  node_class : string;
  node_max_retries : nat;
  node_wait : nat
}.

Record flow : Type := {
  flow_start : node;
  flow_edges : list (node * node)
}.

(** Evaluation of a global name: a name that is not bound raises [NameError]. *)
Definition load_global (globals : gset string) (id : string) : result string :=
  if bool_decide (id ∈ globals) then Ok id else Raise (NameError id).

(** [Cls(max_retries=m, wait=s)]; a class called without arguments gets the
    defaults of [pocketflow.Node], one attempt and no wait. *)
Definition instantiate (globals : gset string) (cls : string)
    (max_retries wait : nat) : result node :=
  c ← load_global globals cls;
  Ok {| node_class := c; node_max_retries := max_retries; node_wait := wait |}.

Definition create_tutorial_flow (globals : gset string) : result flow :=
  fetch_repo ← instantiate globals "FetchRepo" 1 0;
  analyze_fastapi_endpoints ← instantiate globals "AnalyzeFastAPIEndpoints" 3 15;
  generate_api_documentation ← instantiate globals "GenerateAPIDocumentation" 3 15;
  identify_abstractions ← instantiate globals "IdentifyAbstractions" 5 20;
  analyze_api_calls ← instantiate globals "AnalyzeAPICalls" 3 15;
  analyze_relationships ← instantiate globals "AnalyzeRelationships" 5 20;
  order_chapters ← instantiate globals "OrderChapters" 5 20;
  write_chapters ← instantiate globals "WriteChapters" 5 20;
  combine_tutorial ← instantiate globals "CombineTutorial" 1 0;
  _ ← load_global globals "Flow";
  Ok {| flow_start := fetch_repo;
        flow_edges :=
          [ (fetch_repo, analyze_fastapi_endpoints);
            (analyze_fastapi_endpoints, generate_api_documentation);
            (generate_api_documentation, identify_abstractions);
            (identify_abstractions, analyze_api_calls);
            (analyze_api_calls, analyze_relationships);
            (analyze_relationships, order_chapters);
            (order_chapters, write_chapters);
            (write_chapters, combine_tutorial) ] |}.

End FlowPy.

(** ** FetchRepo.prep *)

(** The keys of the store [FetchRepo.prep] derives the project name from;
    [None] is an absent key or the value [None]. *)
Record fetch_shared : Type := {
  fs_repo_url : option string;
  fs_local_dir : option string;
  fs_project_name : option string
}.

(** [os.path.basename(p)] on a POSIX system: what follows the last slash. *)
Definition os_path_basename (p : string) : string :=
  default "" (last (PyStr.split "/" p)).

(** The project name [FetchRepo.prep] leaves in the store.  [abspath] is
    [os.path.abspath], which depends on the working directory; given [None]
    it raises [TypeError]. *)
Definition FetchRepo_project_name (abspath : string → string)
    (shared : fetch_shared) : result string :=
  let derived :=
    match fs_repo_url shared with
    | Some (String c u) =>
        last_part ← py_index (PyStr.split "/" (String c u)) (-1);
        Ok (PyStr.replace ".git" "" last_part)
    | _ =>
        match fs_local_dir shared with
        | Some local_dir => Ok (os_path_basename (abspath local_dir))
        | None => Raise TypeError
        end
    end in
  match fs_project_name shared with
  | Some (String c n) => Ok (String c n)
  | _ => derived
  end.

(** ** IdentifyAbstractions.prep *)

(** The store [IdentifyAbstractions.prep] reads; the last three fields hold
    what [shared.get] gives. *)
Record identify_shared : Type := {
  is_files : list (string * string);
  is_project_name : string;
  is_language : string;
  is_use_cache : bool;
  is_max_abstraction_num : nat
}.

(** The helper [create_llm_context] of [IdentifyAbstractions.prep]; [i] is the
    position [enumerate] has reached. *)
Fixpoint create_llm_context (i : nat) (files_data : list (string * string))
    (context : string) (file_info : list (nat * string))
    : string * list (nat * string) :=
  match files_data with
  | [] => (context, file_info)
  | (path, content) :: rest =>
      let entry :=
        "--- File Index " +:+ PyStr.str_of_nat i +:+ ": " +:+ path +:+ " ---"
        +:+ NL +:+ content +:+ NL +:+ NL in
      create_llm_context (S i) rest (context +:+ entry) (file_info ++ [(i, path)])
  end.

Definition IdentifyAbstractions_prep (shared : identify_shared)
    : identify_prep_res :=
  let files_data := is_files shared in
  let '(context, file_info) := create_llm_context 0 files_data "" [] in
  let file_listing_for_prompt :=
    PyStr.join NL
      ((λ ip : nat * string, "- " +:+ PyStr.str_of_nat ip.1 +:+ " # " +:+ ip.2)
       <$> file_info) in
  {| ia_context := context;
     ia_file_listing_for_prompt := file_listing_for_prompt;
     ia_file_count := length files_data;
     ia_project_name := is_project_name shared;
     ia_language := is_language shared;
     ia_use_cache := is_use_cache shared;
     ia_max_abstraction_num := is_max_abstraction_num shared |}.

(** ** AnalyzeRelationships.prep *)

(** The two characters the source writes as an escaped backslash followed by
    [n]: they reach the prompt as they are, not as a line break. *)
Definition BACKSLASH_N : string := String "092" (String "n" EmptyString).

(** The store [AnalyzeRelationships.prep] reads; [rs_language] and
    [rs_use_cache] hold what [shared.get] gives. *)
Record relationships_shared : Type := {
  rs_abstractions : list abstraction;
  rs_files : list (string * string);
  rs_project_name : string;
  rs_language : string;
  rs_use_cache : bool
}.

(** The loop of [AnalyzeRelationships.prep] over [enumerate(abstractions)]. *)
Fixpoint relationships_context_loop (i : nat) (abstractions : list abstraction)
    (context : string) (abstraction_info_for_prompt : list string)
    (all_relevant_indices : gset Z) : string * list string * gset Z :=
  match abstractions with
  | [] => (context, abstraction_info_for_prompt, all_relevant_indices)
  | abstr :: rest =>
      let file_indices_str := PyStr.join ", " (PyStr.str_of_Z <$> files abstr) in
      let info_line :=
        "- Index " +:+ PyStr.str_of_nat i +:+ ": " +:+ name abstr
        +:+ " (Relevant file indices: [" +:+ file_indices_str +:+ "])"
        +:+ BACKSLASH_N +:+ "  Description: " +:+ description abstr in
      relationships_context_loop (S i) rest
        (context +:+ info_line +:+ BACKSLASH_N)
        (abstraction_info_for_prompt
           ++ [PyStr.str_of_nat i +:+ " # " +:+ name abstr])
        (list_to_set (files abstr) ∪ all_relevant_indices)
  end.

Definition AnalyzeRelationships_prep (shared : relationships_shared)
    : relationships_prep_res :=
  let abstractions := rs_abstractions shared in
  let num_abstractions := length abstractions in
  let '(context, abstraction_info_for_prompt, all_relevant_indices) :=
    relationships_context_loop 0 abstractions
      ("Identified Abstractions:" +:+ BACKSLASH_N) [] ∅ in
  let context :=
    context +:+ BACKSLASH_N
    +:+ "Relevant File Snippets (Referenced by Index and Path):"
    +:+ BACKSLASH_N in
  let relevant_files_content_map :=
    get_content_for_indices (rs_files shared)
      (merge_sort Z.le (elements all_relevant_indices)) in
  let file_context_str :=
    PyStr.join (BACKSLASH_N +:+ BACKSLASH_N)
      ((λ kv : string * string,
          "--- File: " +:+ kv.1 +:+ " ---" +:+ BACKSLASH_N +:+ kv.2)
       <$> relevant_files_content_map) in
  {| ar_context := context +:+ file_context_str;
     ar_abstraction_listing := PyStr.join NL abstraction_info_for_prompt;
     ar_num_abstractions := num_abstractions;
     ar_project_name := rs_project_name shared;
     ar_language := rs_language shared;
     ar_use_cache := rs_use_cache shared |}.

(** ** OrderChapters.prep *)

(** The store [OrderChapters.prep] reads. *)
Record order_shared : Type := {
  os_abstractions : list abstraction;
  os_relationships : relationships_data;
  os_project_name : string;
  os_language : string;
  os_use_cache : bool
}.

(** The loop of [OrderChapters.prep] over [relationships["details"]]. *)
Fixpoint order_context_loop (abstractions : list abstraction)
    (rels : list relationship) (context : string) : result string :=
  match rels with
  | [] => Ok context
  | rel :: rest =>
      from_a ← py_index abstractions (rel_from rel);
      to_a ← py_index abstractions (rel_to rel);
      order_context_loop abstractions rest
        (context +:+ "- From " +:+ PyStr.str_of_Z (rel_from rel) +:+ " ("
           +:+ name from_a +:+ ") to " +:+ PyStr.str_of_Z (rel_to rel) +:+ " ("
           +:+ name to_a +:+ "): " +:+ rel_label rel +:+ NL)
  end.

(** The text of the context before the lines of the relationships. *)
Definition order_context_head `{Unicode} (language summary : string) : string :=
  let summary_note :=
    if negb (String.eqb (str_lower language) "english")
    then " (Note: Project Summary might be in " +:+ str_capitalize language +:+ ")"
    else "" in
  "Project Summary" +:+ summary_note +:+ ":" +:+ NL +:+ summary +:+ NL +:+ NL
  +:+ "Relationships (Indices refer to abstractions above):" +:+ NL.

Definition OrderChapters_prep `{Unicode} (shared : order_shared)
    : result order_prep_res :=
  let abstractions := os_abstractions shared in
  let relationships := os_relationships shared in
  let language := os_language shared in
  let abstraction_listing :=
    PyStr.join NL
      (imap (λ i a, "- " +:+ PyStr.str_of_nat i +:+ " # " +:+ name a)
         abstractions) in
  context ← order_context_loop abstractions (details relationships)
               (order_context_head language (summary relationships));
  let list_lang_note :=
    if negb (String.eqb (str_lower language) "english")
    then " (Names might be in " +:+ str_capitalize language +:+ ")"
    else "" in
  Ok {| oc_abstraction_listing := abstraction_listing;
        oc_context := context;
        oc_num_abstractions := length abstractions;
        oc_project_name := os_project_name shared;
        oc_list_lang_note := list_lang_note;
        oc_use_cache := os_use_cache shared |}.

(** ** AnalyzeAPICalls.prep and AnalyzeFastAPIEndpoints.prep *)

(** The store the two analyses read; [as_language] and [as_use_cache] hold
    what [shared.get] gives, the default where the key is absent. *)
Record analysis_shared : Type := {
  as_files : list (string * string);
  as_project_name : string;
  as_language : string;
  as_use_cache : bool
}.

(** [path.endswith((".js", ".jsx", ".ts", ".tsx"))] *)
Definition is_frontend_path (path : string) : bool :=
  PyStr.endswith path ".js" || PyStr.endswith path ".jsx"
  || PyStr.endswith path ".ts" || PyStr.endswith path ".tsx".

(** [path.endswith((".py"))]: the parentheses make no tuple. *)
Definition is_python_path (path : string) : bool := PyStr.endswith path ".py".

(** The loop that selects the files of an analysis. *)
Fixpoint select_files (keep : string → bool) (files_data : list (string * string))
    (selected : list file_info) : list file_info :=
  match files_data with
  | [] => selected
  | (path, content) :: rest =>
      select_files keep rest
        (if keep path
         then selected ++ [{| fi_path := path; fi_content := content |}]
         else selected)
  end.

Definition analysis_prep (keep : string → bool) (shared : analysis_shared)
    : option analysis_prep_res :=
  match select_files keep (as_files shared) [] with
  | [] => None
  | selected =>
      Some {| an_files := selected;
              an_project_name := as_project_name shared;
              an_language := as_language shared;
              an_use_cache := as_use_cache shared |}
  end.

Definition AnalyzeAPICalls_prep : analysis_shared → option analysis_prep_res :=
  analysis_prep is_frontend_path.

Definition AnalyzeFastAPIEndpoints_prep
    : analysis_shared → option analysis_prep_res :=
  analysis_prep is_python_path.

(** ** CombineTutorial.exec *)

(** [os.path.join(a, b)] on a POSIX system. *)
Definition os_path_join (a b : string) : string :=
  if PyStr.startswith b "/" then b
  else if String.eqb a "" || PyStr.endswith a "/" then a +:+ b
  else a +:+ "/" +:+ b.

(** The files under the output directory, each with its text.
    [open(path, "w")] followed by [write] replaces what a path held; the
    directory is there after [os.makedirs(output_path, exist_ok=True)]. *)
Definition write_text (fs : gmap string string) (path content : string)
    : gmap string string :=
  <[path := content]> fs.

Definition CombineTutorial_exec (output_path : string)
    (prep_res : combine_prep_res) (fs : gmap string string)
    : gmap string string * string :=
  let index_filepath := os_path_join output_path "index.md" in
  let fs := write_text fs index_filepath (index_content prep_res) in
  let fs :=
    match api_doc_filename prep_res with
    | Some api_doc_filename =>
        if negb (String.eqb (api_documentation_md prep_res) "")
        then write_text fs (os_path_join output_path api_doc_filename)
               (api_documentation_md prep_res)
        else fs
    | None => fs
    end in
  let fs :=
    foldl (λ fs chapter_info,
             write_text fs (os_path_join output_path (cf_filename chapter_info))
               (cf_content chapter_info))
      fs (chapter_files prep_res) in
  (fs, output_path).

(** ** Reference notions used in the statements *)

(** The part of a text before its first hash sign (the whole text when it
    has none). *)
Fixpoint before_hash (s : string) : string :=
  match s with
  | EmptyString => EmptyString
  | String c s' => if Ascii.eqb c "#" then EmptyString else String c (before_hash s')
  end.

(** The previous-chapter context interpolated into a chapter prompt. *)
Definition call_context (c : llm_call) : option string :=
  match call_prompt c with
  | WriteChaptersPrompt p => Some (cp_previous_chapters_summary p)
  | _ => None
  end.

(** The chapter number interpolated into a chapter prompt. *)
Definition call_chapter_num (c : llm_call) : option nat :=
  match call_prompt c with
  | WriteChaptersPrompt p => Some (cp_chapter_num p)
  | _ => None
  end.

(** A call made for [item] when the chapters written so far are [so_far]. *)
Definition call_for (item : chapter_item) (so_far : list string) (c : llm_call)
    : Prop :=
  call_chapter_num c = Some (item_chapter_num item)
  ∧ call_context c = Some (previous_context so_far).

(** The filename rule in the words of the specification:
    [filename(position, name) = zero-padded(position) + "_" + sanitize(name)
    + ".md"], where [sanitize] lower-cases and replaces every non-alphanumeric
    character; [width] is the number of digits the position is padded to.
    The specification leaves the order of the two steps of [sanitize] open,
    and lower-casing can change what is alphanumeric: the characters are
    replaced first and the result is lower-cased. *)
Definition sanitize `{Unicode} (s : string) : string :=
  str_lower (PyStr.map_chars (λ c, if str_isalnum c then c else "_"%char) s).

Fixpoint zeros (n : nat) : string :=
  match n with
  | O => EmptyString
  | S k => String "0" (zeros k)
  end.

Definition zero_padded (width n : nat) : string :=
  let s := PyStr.str_of_nat n in
  zeros (width - String.length s) +:+ s.

Definition digit_width (n : nat) : nat := String.length (PyStr.str_of_nat n).

Definition spec_filename `{Unicode} (width position : nat) (s : string)
    : string :=
  zero_padded width position +:+ "_" +:+ sanitize s +:+ ".md".

(** The table-of-contents line of a chapter. *)
Definition toc_entry `{Unicode} (width position : nat) (s : string) : string :=
  PyStr.str_of_nat position +:+ ". [" +:+ s +:+ "](" +:+
  spec_filename width position s +:+ ")".

(** [lacks c s]: the character does not occur in the text ([c not in s]). *)
Definition lacks (c : ascii) (s : string) : Prop := PyStr.contains (String c "") s = false.

(** The raw entries a reply is read as: the fenced part of the reply, given
    to the YAML reader, is a list. *)
Definition reply_entries (E : Env) (response : string) (entries : list yaml)
    : Prop :=
  ∃ yaml_str, fenced_yaml response = Ok yaml_str
              ∧ safe_load E yaml_str = Ok (YList entries).

(** What the validation part of [OrderChapters.exec] guarantees. *)
Definition order_outcome (E : Env) (n : nat) (response : string)
    (r : result (list Z)) : Prop :=
  match r with
  | Ok order =>
      order ≡ₚ seqZ 0 (Z.of_nat n)
      ∧ NoDup order
      ∧ length order = n
      ∧ Forall (λ i, 0 ≤ i < Z.of_nat n) order
      ∧ ∃ entries,
          reply_entries E response entries
          ∧ Forall2 (λ entry idx, parse_index_entry entry = Ok idx) entries order
  | Raise (ValueError (Ordered_list_length_mismatch len n' missing)) =>
      n' = n ∧ (len < n)%nat ∧ missing ≠ ∅
      ∧ ∃ entries ordered,
          reply_entries E response entries
          ∧ Forall2 (λ entry idx, parse_index_entry entry = Ok idx) entries ordered
          ∧ length ordered = len
          ∧ ∀ z, z ∈ missing ↔ 0 ≤ z < Z.of_nat n ∧ z ∉ ordered
  | Raise _ => True
  end.



(** What a validated abstraction owes to the item of the reply it was made
    from: its [files] are the strictly increasing list of the indices parsed
    from the item's entries, each of which is in range. *)
Definition abstraction_of_item (n : nat) (item : yaml) (a : abstraction) : Prop :=
  ∃ d entries idxs,
    item = YDict d
    ∧ dict_get d "name" = Some (YStr (name a))
    ∧ dict_get d "description" = Some (YStr (description a))
    ∧ dict_get d "file_indices" = Some (YList entries)
    ∧ Forall2 (λ entry idx,
                 parse_index_entry entry = Ok idx ∧ 0 ≤ idx < Z.of_nat n)
        entries idxs
    ∧ StronglySorted Z.lt (files a)
    ∧ ∀ z, z ∈ files a ↔ z ∈ idxs.

(** The text after the last slash of [s], all of [s] when it has none. *)
Fixpoint after_last_slash (s : string) : string :=
  match s with
  | EmptyString => EmptyString
  | String c s' =>
      if PyStr.contains "/" s' then after_last_slash s'
      else if Ascii.eqb c "/" then s' else s
  end.

(** An item of the reply that [IdentifyAbstractions.exec] has to accept: a
    mapping whose [name] and [description] are strings and whose
    [file_indices] is a list of entries that each parse to an index in
    range. *)
Definition acceptable_item (n : nat) (item : yaml) : Prop :=
  ∃ d nm descr entries,
    item = YDict d
    ∧ dict_get d "name" = Some (YStr nm)
    ∧ dict_get d "description" = Some (YStr descr)
    ∧ dict_get d "file_indices" = Some (YList entries)
    ∧ Forall (λ entry,
                ∃ idx, parse_index_entry entry = Ok idx ∧ 0 ≤ idx < Z.of_nat n)
        entries.

(** The one call of [IdentifyAbstractions.exec]. *)
Definition identify_call (cur_retry : nat) (prep_res : identify_prep_res)
    : llm_call :=
  {| call_prompt :=
       IdentifyAbstractionsPrompt (ia_project_name prep_res)
         (ia_context prep_res) (ia_language prep_res)
         (ia_max_abstraction_num prep_res)
         (ia_file_listing_for_prompt prep_res);
     call_use_cache := ia_use_cache prep_res && (cur_retry =? 0)%nat |}.

(** The call an analysis makes for a file; [mk] is the prompt of the
    analysis. *)
Definition analysis_call (mk : string → string → string → string → prompt)
    (cur_retry : nat) (p : analysis_prep_res) (f : file_info) : llm_call :=
  {| call_prompt :=
       mk (an_project_name p) (fi_path f) (fi_content f) (an_language p);
     call_use_cache := an_use_cache p && (cur_retry =? 0)%nat |}.

(** What the generator does with the call for the file at position [i] when
    the record held [log] before the first file: the calls for the files
    before position [i] have been added to it. *)
Definition reply_at (E : Env) (call : file_info → llm_call)
    (files : list file_info) (log : list llm_call) (i : nat) (f : file_info)
    : generated :=
  generator E (log ++ take i (call <$> files)) (call f).

(** What a file adds to the list an analysis returns, given what the
    generator did with its call: nothing after a failure of the generator,
    a reply the YAML reader fails on, a reply that is no list and an empty
    list; otherwise one entry, the file's path with the list. *)
Definition contribution (E : Env) (file_path : string) (g : generated)
    : list analysis_entry :=
  match g with
  | Generated response =>
      match fenced_or_whole response with
      | Ok yaml_str =>
          match (if String.eqb yaml_str "" then Ok (YList [])
                 else safe_load E yaml_str) with
          | Ok (YList (x :: l)) =>
              [{| ae_file_path := file_path; ae_parsed := x :: l |}]
          | _ => []
          end
      | Raise _ => []
      end
  | _ => []
  end.

(** [exec] stumbles at position [i]: the generator fails there with an
    instance of [yaml.YAMLError], and has not returned a reply for any of the
    files before. *)
Definition stumbles (E : Env) (call : file_info → llm_call)
    (files : list file_info) (log : list llm_call) (i : nat) : Prop :=
  (∃ f what,
     files !! i = Some f
     ∧ reply_at E call files log i f = GenerationFailedAsYAMLError what)
  ∧ ∀ j g text,
      (j < i)%nat → files !! j = Some g →
      reply_at E call files log j g ≠ Generated text.

(** What [exec] of an analysis does on the files of its input: it returns
    the contributions of the files, in order, unless it stumbles, and then
    [UnboundLocalError] leaves it. *)
Definition analysis_outcome (E : Env) (call : file_info → llm_call)
    (files : list file_info) (log : list llm_call)
    (r : result (list analysis_entry)) : Prop :=
  match r with
  | Ok all =>
      (∀ i, ¬ stumbles E call files log i)
      ∧ all = concat (imap (λ i f,
                              contribution E (fi_path f)
                                (reply_at E call files log i f))
                        files)
      ∧ Forall (λ e, ae_parsed e ≠ []) all
  | Raise e => e = NameError "response" ∧ ∃ i, stumbles E call files log i
  end.

(** The loop of either analysis, over the call made for a file. *)
Fixpoint analysis_loop (E : Env) (call : file_info → llm_call)
    (files : list file_info) (all_info : list analysis_entry)
    (response : option string) : M (list analysis_entry) :=
  match files with
  | [] => mret all_info
  | f :: rest =>
      locals ← analysis_try E (call_prompt (call f)) (call_use_cache (call f))
                  (fi_path f) all_info response;
      analysis_loop E call rest locals.1 locals.2
  end.

Fixpoint forall_chars (P : ascii → bool) (s : string) : bool :=
  match s with
  | EmptyString => true
  | String c s' => P c && forall_chars P s'
  end.

(** The characters of a printed integer: digits and the minus sign. *)
Definition int_char (c : ascii) : bool := PyStr.isdigit c || Ascii.eqb c "-".

(** The number a digit sequence denotes after the digits already read. *)
Fixpoint uint_value (d : Decimal.uint) (acc : Z) : Z :=
  match d with
  | Decimal.Nil => acc
  | Decimal.D0 d => uint_value d (10 * acc)
  | Decimal.D1 d => uint_value d (10 * acc + 1)
  | Decimal.D2 d => uint_value d (10 * acc + 2)
  | Decimal.D3 d => uint_value d (10 * acc + 3)
  | Decimal.D4 d => uint_value d (10 * acc + 4)
  | Decimal.D5 d => uint_value d (10 * acc + 5)
  | Decimal.D6 d => uint_value d (10 * acc + 6)
  | Decimal.D7 d => uint_value d (10 * acc + 7)
  | Decimal.D8 d => uint_value d (10 * acc + 8)
  | Decimal.D9 d => uint_value d (10 * acc + 9)
  end.

(** [d.get(k)] on an insertion-ordered dictionary with string keys. *)
Fixpoint dict_lookup {V} (d : list (string * V)) (k : string) : option V :=
  match d with
  | [] => None
  | (k', v) :: d' => if String.eqb k' k then Some v else dict_lookup d' k
  end.

(** The text that follows the first part of a split, separators included. *)
Definition join_tail (sep : string) (rest : list string) : string :=
  match rest with
  | [] => ""
  | _ => sep +:+ PyStr.join sep rest
  end.

(** What [chapter_filenames] holds for the chapter at position [p] (counted
    from 0) of a chapter order. *)
Definition chapter_info_at `{Unicode} (abstractions : list abstraction)
    (order : list Z) (p : nat) : option chapter_info :=
  idx ← order !! p;
  a ← abstractions !! Z.to_nat idx;
  Some {| ci_num := p + 1; ci_name := name a;
          ci_filename := spec_filename 2 (p + 1) (name a) |}.

(** What [prep] makes of the chapter at position [pos] of the order. *)
Definition item_for `{Unicode} (abstractions : list abstraction) (order : list Z)
    (pos : nat) (item : chapter_item) : Prop :=
  ∃ idx a,
    order !! pos = Some idx
    ∧ abstractions !! Z.to_nat idx = Some a
    ∧ item_chapter_num item = (pos + 1)%nat
    ∧ item_abstraction_index item = idx
    ∧ item_abstraction_details item = a
    ∧ item_prev_chapter item
      = match pos with
        | O => None
        | S p => chapter_info_at abstractions order p
        end
    ∧ item_next_chapter item = chapter_info_at abstractions order (S pos).

(** The filename both stages compute for position [i] (from 0) and a name. *)
Definition code_filename_at `{Unicode} (i : nat) (s : string) : string :=
  PyStr.format_02d (i + 1) +:+ "_" +:+
  str_lower (PyStr.map_chars (λ c, if str_isalnum c then c else "_"%char) s)
  +:+ ".md".

(** The name of the abstraction an index refers to. *)
Definition abstraction_name_at (abstractions : list abstraction) (idx : Z) : string :=
  default "" (name <$> abstractions !! Z.to_nat idx).

(** The calls an analysis is expected to make: one for each file of the store
    whose path is kept, in the order of the store. *)
Definition expected_calls (mk : string → string → string → string → prompt)
    (keep : string → bool) (cur_retry : nat) (shared : analysis_shared)
    : list llm_call :=
  (λ pc : string * string,
     {| call_prompt := mk (as_project_name shared) pc.1 pc.2 (as_language shared);
        call_use_cache := as_use_cache shared && (cur_retry =? 0)%nat |})
  <$> filter (λ pc, Is_true (keep pc.1)) (as_files shared).

(** The positions Python accepts as a subscript of a list of length [n]. *)
Definition subscript (n : nat) (i : Z) : Prop := - Z.of_nat n ≤ i < Z.of_nat n.

(** The context line of a relationship whose indices are in range. *)
Definition relationship_line (abstractions : list abstraction)
    (rel : relationship) : string :=
  "- From " +:+ PyStr.str_of_Z (rel_from rel) +:+ " ("
  +:+ abstraction_name_at abstractions (rel_from rel) +:+ ") to "
  +:+ PyStr.str_of_Z (rel_to rel) +:+ " ("
  +:+ abstraction_name_at abstractions (rel_to rel) +:+ "): "
  +:+ rel_label rel +:+ NL.

(** ** Scripted collaborators

    To run the stages on a concrete reply: a generator that answers every
    call with [text], and a reader that knows the value of one document. *)

(** The tables restricted to ASCII text, on which they agree with the
    interpreter's: [isalnum] holds of the digits and of the letters A-Z and
    a-z, and [lower] and [capitalize] change these letters only.  They serve
    to run the stages on names and languages written in ASCII, and say
    nothing of other text. *)
Module AsciiText.

Definition isupper (c : ascii) : bool :=
  let n := N_of_ascii c in (65 <=? n)%N && (n <=? 90)%N.

Definition islower (c : ascii) : bool :=
  let n := N_of_ascii c in (97 <=? n)%N && (n <=? 122)%N.

Definition isalnum (c : ascii) : bool :=
  PyStr.isdigit c || isupper c || islower c.

Definition lower_char (c : ascii) : ascii :=
  if isupper c then ascii_of_N (N_of_ascii c + 32) else c.

Definition upper_char (c : ascii) : ascii :=
  if islower c then ascii_of_N (N_of_ascii c - 32) else c.

Definition lower (s : string) : string := PyStr.map_chars lower_char s.

Definition capitalize (s : string) : string :=
  match s with
  | EmptyString => EmptyString
  | String c rest => String (upper_char c) (lower rest)
  end.

End AsciiText.

Definition ascii_tables : Unicode :=
  {| str_isalnum := AsciiText.isalnum;
     str_lower := AsciiText.lower;
     str_capitalize := AsciiText.capitalize |}.

Definition scripted (text document : string) (value : yaml) : Env :=
  {| generator := λ _ _, Generated text;
     yaml_reader := λ s, if String.eqb s document then Loaded value else NotYAML |}.

Definition empty_world : world :=
  {| llm_log := []; chapters_written_so_far := [] |}.

(** A generator that fails on every call, with an instance of
    [yaml.YAMLError] or with some other exception, and the input of an
    analysis over one file. *)
Definition failing_as_YAMLError : Env :=
  {| generator := λ _ _, GenerationFailedAsYAMLError "while scanning";
     yaml_reader := λ _, NotYAML |}.

Definition failing_otherwise : Env :=
  {| generator := λ _ _, GenerationFailed "timed out";
     yaml_reader := λ _, NotYAML |}.

Definition one_file : analysis_prep_res :=
  {| an_files := [{| fi_path := "app.ts"; fi_content := "fetch('/items')" |}];
     an_project_name := "demo";
     an_language := "english";
     an_use_cache := true |}.

(** A reply whose only abstraction lists file index 5, and its value. *)
Definition out_of_range_reply : string :=
  "```yaml
- name: Parser
  description: Reads the input
  file_indices:
    - 5
```".

Definition out_of_range_document : string :=
  "- name: Parser
  description: Reads the input
  file_indices:
    - 5".

Definition out_of_range_value : yaml :=
  YList [YDict [("name", YStr "Parser");
                ("description", YStr "Reads the input");
                ("file_indices", YList [YInt 5])]].

(** A chapter order that gives index 1 twice. *)
Definition duplicate_reply : string :=
  "```yaml
- 1
- 0
- 1
```".

Definition duplicate_document : string :=
  "- 1
- 0
- 1".

Definition duplicate_value : yaml := YList [YInt 1; YInt 0; YInt 1].

(** A reply over three files: two abstractions, the indices given as
    integers and as commented strings, one of them twice. *)
Definition two_abstractions_reply : string :=
  "```yaml
- name: Parser
  description: Reads the input
  file_indices:
    - 1 # b.py
    - 0
    - 1 # b.py
- name: Printer
  description: Writes the output
  file_indices:
    - 2
    - 1
```".

Definition two_abstractions_document : string :=
  "- name: Parser
  description: Reads the input
  file_indices:
    - 1 # b.py
    - 0
    - 1 # b.py
- name: Printer
  description: Writes the output
  file_indices:
    - 2
    - 1".

Definition two_abstractions_value : yaml :=
  YList [YDict [("name", YStr "Parser");
                ("description", YStr "Reads the input");
                ("file_indices", YList [YStr "1 # b.py"; YInt 0; YStr "1 # b.py"])];
         YDict [("name", YStr "Printer");
                ("description", YStr "Writes the output");
                ("file_indices", YList [YInt 2; YInt 1])]].

Definition three_files : identify_prep_res :=
  {| ia_context := ""; ia_file_listing_for_prompt := ""; ia_file_count := 3;
     ia_project_name := "demo"; ia_language := "english"; ia_use_cache := true;
     ia_max_abstraction_num := 10 |}.

Definition three_abstractions : order_prep_res :=
  {| oc_abstraction_listing := ""; oc_context := ""; oc_num_abstractions := 3;
     oc_project_name := "demo"; oc_list_lang_note := ""; oc_use_cache := true |}.

(** A tutorial of one chapter. *)
Definition abstraction_A : abstraction :=
  {| name := "A"; description := "the only one"; files := [] |}.

Definition one_chapter : combine_shared :=
  {| cs_project_name := "demo";
     cs_repo_url := None;
     cs_api_documentation_md := "";
     cs_relationships := {| summary := "One abstraction."; details := [] |};
     cs_chapter_order := [0];
     cs_abstractions := [abstraction_A];
     cs_chapters := ["# Chapter 1: A"] |}.

(** A chapter order with an index out of range before the only valid one. *)
Definition skipped_first : write_shared :=
  {| ws_chapter_order := [5; 0];
     ws_abstractions := [abstraction_A];
     ws_files := [];
     ws_project_name := "demo";
     ws_language := "english";
     ws_use_cache := true;
     ws_api_call_analysis := [] |}.

(** A chapter order over two abstractions, each with one file. *)
Definition two_chapters : write_shared :=
  {| ws_chapter_order := [1; 0];
     ws_abstractions :=
       [ {| name := "Cache"; description := "keeps replies"; files := [0] |};
         {| name := "Flow"; description := "runs the stages"; files := [0] |} ];
     ws_files := [("main.py", "print(1)")];
     ws_project_name := "demo";
     ws_language := "english";
     ws_use_cache := true;
     ws_api_call_analysis := [] |}.

(** A reply to the relationship prompt over two abstractions. *)
Definition relationships_reply : string :=
  "```yaml
summary: Cache serves Flow.
relationships:
  - from_abstraction: 0 # Cache
    to_abstraction: 1 # Flow
    label: serves
```".

Definition relationships_document : string :=
  "summary: Cache serves Flow.
relationships:
  - from_abstraction: 0 # Cache
    to_abstraction: 1 # Flow
    label: serves".

Definition relationships_value : yaml :=
  YDict [("summary", YStr "Cache serves Flow.");
         ("relationships",
          YList [YDict [("from_abstraction", YStr "0 # Cache");
                        ("to_abstraction", YStr "1 # Flow");
                        ("label", YStr "serves")]])].

Definition two_abstractions : relationships_shared :=
  {| rs_abstractions := ws_abstractions two_chapters;
     rs_files := ws_files two_chapters;
     rs_project_name := "demo";
     rs_language := "english";
     rs_use_cache := true |}.

(** Collaborators for a run of several stages: the generator answers each
    kind of prompt with its own text, the reader knows some documents. *)
Definition staged (identify relationships order : string)
    (documents : list (string * yaml)) : Env :=
  {| generator := λ _ c,
       match call_prompt c with
       | IdentifyAbstractionsPrompt _ _ _ _ _ => Generated identify
       | AnalyzeRelationshipsPrompt _ _ _ _ => Generated relationships
       | OrderChaptersPrompt _ _ _ _ => Generated order
       | _ => GenerationFailed "no reply"
       end;
     yaml_reader := λ s,
       match dict_get documents s with
       | Some value => Loaded value
       | None => NotYAML
       end |}.

Definition identify_reply : string :=
  "```yaml
- name: Cache
  description: keeps replies
  file_indices:
    - 0 # main.py
- name: Flow
  description: runs the stages
  file_indices:
    - 0 # main.py
```".

Definition identify_document : string :=
  "- name: Cache
  description: keeps replies
  file_indices:
    - 0 # main.py
- name: Flow
  description: runs the stages
  file_indices:
    - 0 # main.py".

Definition identify_value : yaml :=
  YList [YDict [("name", YStr "Cache");
                ("description", YStr "keeps replies");
                ("file_indices", YList [YStr "0 # main.py"])];
         YDict [("name", YStr "Flow");
                ("description", YStr "runs the stages");
                ("file_indices", YList [YStr "0 # main.py"])]].

Definition order_reply : string :=
  "```yaml
- 1 # Flow
- 0 # Cache
```".

Definition order_document : string :=
  "- 1 # Flow
- 0 # Cache".

Definition order_value : yaml := YList [YStr "1 # Flow"; YStr "0 # Cache"].

Definition demo_env : Env :=
  staged identify_reply relationships_reply order_reply
    [(identify_document, identify_value);
     (relationships_document, relationships_value);
     (order_document, order_value)].

Definition demo_store : identify_shared :=
  {| is_files := ws_files two_chapters;
     is_project_name := "demo";
     is_language := "english";
     is_use_cache := true;
     is_max_abstraction_num := 10 |}.

Definition demo_relationships : relationships_data :=
  {| summary := "Cache serves Flow.";
     details := [{| rel_from := 0; rel_to := 1; rel_label := "serves" |}] |}.

(** * Properties *)

Ltac result_unfold :=
  unfold mbind, mret, fmap, result_bind, result_ret, result_fmap in *.

Section properties.
Context {tables : Unicode}.

(** ** The string primitives on examples *)

Example strip_ex : PyStr.strip "  a b
 " = "a b".
Proof. reflexivity. Qed.

Example split_ex : PyStr.split "```" "x```yaml
- 1
```z" = ["x"; "yaml
- 1
"; "z"].
Proof. reflexivity. Qed.

Example split_ex2 : PyStr.split "#" "3 # a # b" = ["3 "; " a "; " b"].
Proof. reflexivity. Qed.

Example int_ex : PyStr.int " -1_0 " = Some (-10) ∧ PyStr.int "1__0" = None
  ∧ PyStr.int "" = None ∧ PyStr.int "007" = Some 7 ∧ PyStr.int "3.0" = None.
Proof. repeat split; reflexivity. Qed.

Example format_ex : PyStr.format_02d 7 = "07" ∧ PyStr.format_02d 12 = "12"
  ∧ PyStr.format_02d 123 = "123".
Proof. repeat split; reflexivity. Qed.

Example lower_ex : AsciiText.lower "Ab_Z9" = "ab_z9".
Proof. reflexivity. Qed.

Example replace_ex : PyStr.replace "ab" "X" "abcabab" = "XcXX".
Proof. reflexivity. Qed.

Example endswith_ex : PyStr.endswith "abc

" "

" = true ∧ PyStr.endswith "a" "ab" = false.
Proof. split; reflexivity. Qed.

(** ** Facts about the string primitives *)

Section string_facts.
Implicit Types (s t p : string) (c a : ascii).

Lemma str_app_cons a s t : String a s +:+ t = String a (s +:+ t).
Proof. reflexivity. Qed.

Lemma str_app_nil_l s : "" +:+ s = s.
Proof. reflexivity. Qed.


Lemma str_app_eq_nil s t : s +:+ t = "" → s = "" ∧ t = "".
Proof. destruct s; [done|]. by rewrite str_app_cons. Qed.

Lemma prefix_nil s : String.prefix "" s = true.
Proof. by destruct s. Qed.

Lemma prefix_cons a c p s :
  String.prefix (String a p) (String c s) = Ascii.eqb a c && String.prefix p s.
Proof.
  simpl. destruct (ascii_dec a c) as [->|Hne].
  - by rewrite Ascii.eqb_refl.
  - apply Ascii.eqb_neq in Hne. by rewrite Hne.
Qed.

Lemma prefix_app p s : String.prefix p (p +:+ s) = true.
Proof.
  induction p as [|a p IH]; [apply prefix_nil|].
  by rewrite str_app_cons, prefix_cons, Ascii.eqb_refl.
Qed.

Lemma prefix_trans p q s :
  String.prefix p q = true → String.prefix q s = true → String.prefix p s = true.
Proof.
  revert q s. induction p as [|a p IH]; intros q s Hpq Hqs; [apply prefix_nil|].
  destruct q as [|b q]; [done|]. destruct s as [|c s]; [done|].
  rewrite prefix_cons in *.
  apply andb_prop in Hpq as [Hab Hpq]. apply andb_prop in Hqs as [Hbc Hqs].
  apply Ascii.eqb_eq in Hab as ->. rewrite Hbc. simpl. eauto.
Qed.

Lemma contains_char_cons c a s :
  PyStr.contains (String c "") (String a s)
  = Ascii.eqb c a || PyStr.contains (String c "") s.
Proof.
  change (PyStr.contains (String c "") (String a s))
    with (String.prefix (String c "") (String a s)
          || PyStr.contains (String c "") s).
  by rewrite prefix_cons, prefix_nil, andb_true_r.
Qed.


Lemma lacks_cons c a s : lacks c (String a s) ↔ c ≠ a ∧ lacks c s.
Proof.
  unfold lacks. rewrite contains_char_cons, orb_false_iff, Ascii.eqb_neq.
  tauto.
Qed.

Lemma lacks_app c s t : lacks c s → lacks c t → lacks c (s +:+ t).
Proof.
  induction s as [|a s IH]; [done|]. rewrite str_app_cons, !lacks_cons.
  intros [? ?] ?. auto.
Qed.






End string_facts.

(** ** The diagram's edge labels *)


(** ** flow.py *)

(** C3. With the names that [flow.py] binds, [create_tutorial_flow] raises
    [NameError] at the first class it has not imported and returns no flow;
    none of [AnalyzeFastAPIEndpoints], [GenerateAPIDocumentation] and
    [AnalyzeAPICalls] is bound, and whatever else the namespace holds, a flow
    is returned only if all three are. *)
Theorem create_tutorial_flow_NameError :
  FlowPy.create_tutorial_flow FlowPy.module_globals
  = Raise (NameError "AnalyzeFastAPIEndpoints")
  ∧ ("AnalyzeFastAPIEndpoints" ∉ FlowPy.module_globals)
  ∧ ("GenerateAPIDocumentation" ∉ FlowPy.module_globals)
  ∧ ("AnalyzeAPICalls" ∉ FlowPy.module_globals)
  ∧ ∀ globals f,
      FlowPy.create_tutorial_flow globals = Ok f →
      ("AnalyzeFastAPIEndpoints" ∈ globals)
      ∧ ("GenerateAPIDocumentation" ∈ globals)
      ∧ ("AnalyzeAPICalls" ∈ globals).
Proof.
  split_and!.
  - by vm_compute.
  - by vm_compute.
  - by vm_compute.
  - by vm_compute.
  - intros globals f. unfold FlowPy.create_tutorial_flow, FlowPy.instantiate,
      FlowPy.load_global, mbind, result_bind.
    repeat (case_bool_decide; [|done]). auto.
Qed.

(** ** Heading normalisation *)

Section heading_facts.
Implicit Types (s t p : string) (c a : ascii).

Lemma str_app_nil_r s : s +:+ "" = s.
Proof. induction s as [|a s IH]; [done|]. by rewrite str_app_cons, IH. Qed.

Lemma str_app_assoc s t p : (s +:+ t) +:+ p = s +:+ (t +:+ p).
Proof. induction s as [|a s IH]; [done|]. by rewrite !str_app_cons, IH. Qed.

Lemma join_cons sep x l : ∃ t, PyStr.join sep (x :: l) = x +:+ t.
Proof.
  destruct l as [|y l].
  - exists "". by rewrite str_app_nil_r.
  - by eexists.
Qed.

Lemma prefix_nonempty p s : String.prefix p s = true → p ≠ "" → s ≠ "".
Proof. destruct p, s; done. Qed.

Lemma rstrip_cons_nonempty a s :
  PyStr.rstrip s ≠ "" → PyStr.rstrip (String a s) = String a (PyStr.rstrip s).
Proof. simpl. by destruct (PyStr.rstrip s). Qed.

(** A text without trailing whitespace that starts [s] also starts
    [s.rstrip()]. *)
Lemma prefix_rstrip p s :
  PyStr.rstrip p = p → String.prefix p s = true →
  String.prefix p (PyStr.rstrip s) = true.
Proof.
  revert s. induction p as [|a p IH]; intros s Hp Hs; [apply prefix_nil|].
  destruct s as [|b s]; [done|].
  rewrite prefix_cons in Hs. apply andb_prop in Hs as [Hab Hs].
  apply Ascii.eqb_eq in Hab as <-.
  simpl in Hp. destruct (PyStr.rstrip p) as [|c t] eqn:Ep.
  - destruct (PyStr.isspace a) eqn:Ea; [done|]. injection Hp as <-.
    simpl. rewrite Ea. destruct (PyStr.rstrip s);
      by rewrite prefix_cons, Ascii.eqb_refl, prefix_nil.
  - injection Hp as Hp. specialize (IH s Hp Hs).
    rewrite rstrip_cons_nonempty.
    + by rewrite prefix_cons, Ascii.eqb_refl.
    + apply (prefix_nonempty p); [done|]. by rewrite <-Hp.
Qed.

Lemma rstrip_app p d :
  PyStr.rstrip d = d → d ≠ "" → PyStr.rstrip (p +:+ d) = p +:+ d.
Proof.
  intros Hd Hne. induction p as [|a p IH]; [done|].
  rewrite str_app_cons, rstrip_cons_nonempty, IH; [done|].
  rewrite IH. destruct p; [done|by rewrite str_app_cons].
Qed.

Lemma rstrip_uint d :
  PyStr.rstrip (NilEmpty.string_of_uint d) = NilEmpty.string_of_uint d.
Proof.
  induction d as [|d IH|d IH|d IH|d IH|d IH|d IH|d IH|d IH|d IH|d IH];
    [done|..]; simpl; rewrite IH; by destruct (NilEmpty.string_of_uint d).
Qed.

Lemma str_of_nat_nonempty n : PyStr.str_of_nat n ≠ "".
Proof.
  unfold PyStr.str_of_nat, NilZero.string_of_uint.
  by destruct (Nat.to_uint n).
Qed.

Lemma rstrip_str_of_nat n : PyStr.rstrip (PyStr.str_of_nat n) = PyStr.str_of_nat n.
Proof.
  unfold PyStr.str_of_nat, NilZero.string_of_uint.
  destruct (Nat.to_uint n) eqn:E; [done|..]; apply rstrip_uint.
Qed.

(** A text that begins with the chapter heading still does when stripped. *)
Lemma strip_keeps_chapter_prefix n t :
  PyStr.startswith (PyStr.strip (("# Chapter " +:+ PyStr.str_of_nat n) +:+ t))
    ("# Chapter " +:+ PyStr.str_of_nat n) = true.
Proof.
  unfold PyStr.startswith, PyStr.strip.
  replace (PyStr.lstrip (("# Chapter " +:+ PyStr.str_of_nat n) +:+ t))
    with (("# Chapter " +:+ PyStr.str_of_nat n) +:+ t) by done.
  apply prefix_rstrip; [|apply prefix_app].
  apply rstrip_app; [apply rstrip_str_of_nat|apply str_of_nat_nonempty].
Qed.

End heading_facts.

(** A reply whose first line already begins with [# Chapter 1] is kept as
    it is, although its title is not the expected one. *)
Lemma normalize_heading_keeps_other_title :
  normalize_heading 1 "Intro" "# Chapter 1 - Overview" = "# Chapter 1 - Overview"
  ∧ PyStr.startswith (normalize_heading 1 "Intro" "# Chapter 1 - Overview")
      "# Chapter 1: Intro" = false.
Proof. split; reflexivity. Qed.

(** What the repair does.  A reply that, stripped, begins with [# Chapter k]
    is kept unchanged.  Any other reply is given the exact heading
    [# Chapter k: s]: it replaces the first line of the stripped reply when
    that line is some heading, and is put in front of the reply, followed by
    an empty line, otherwise.  In every case the result, stripped, begins
    with [# Chapter k]. *)
Lemma normalize_heading_spec (k : nat) (s reply : string) :
  let chapter_k := "# Chapter " +:+ PyStr.str_of_nat k in
  let heading := "# Chapter " +:+ PyStr.str_of_nat k +:+ ": " +:+ s in
  let result := normalize_heading k s reply in
  (PyStr.startswith (PyStr.strip reply) chapter_k = true → result = reply)
  ∧ (PyStr.startswith (PyStr.strip reply) chapter_k = false →
     PyStr.startswith result heading = true
     ∧ ((∃ first_line rest,
           PyStr.split NL (PyStr.strip reply) = first_line :: rest
           ∧ PyStr.startswith (PyStr.strip first_line) "#" = true
           ∧ result = PyStr.join NL (heading :: rest))
        ∨ result = heading +:+ NL +:+ NL +:+ reply))
  ∧ PyStr.startswith (PyStr.strip result) chapter_k = true.
Proof.
  intros chapter_k heading result. subst result. unfold normalize_heading.
  fold chapter_k. fold heading.
  assert (Hh : ∀ t, PyStr.startswith (PyStr.strip (heading +:+ t)) chapter_k = true).
  { intros t. subst heading chapter_k. rewrite <-!str_app_assoc.
    rewrite (str_app_assoc _ ": "), (str_app_assoc _ (": " +:+ s)).
    apply strip_keeps_chapter_prefix. }
  destruct (PyStr.startswith (PyStr.strip reply) chapter_k) eqn:Hstart; cbn [negb].
  { split_and!; done. }
  split; [done|].
  destruct (PyStr.split NL (PyStr.strip reply)) as [|first_line rest] eqn:Hlines.
  { split; [intros _; split; [apply prefix_app|by right]|apply Hh]. }
  destruct (PyStr.startswith (PyStr.strip first_line) "#") eqn:Hfirst.
  - destruct (join_cons NL heading rest) as [t Ht].
    split; [intros _; split|rewrite Ht; apply Hh].
    + rewrite Ht. apply prefix_app.
    + left. by eauto.
  - split; [intros _; split; [apply prefix_app|by right]|apply Hh].
Qed.

Lemma prefix_app_same (p a b : string) :
  String.prefix (p +:+ a) (p +:+ b) = String.prefix a b.
Proof.
  induction p as [|c p IH]; [by rewrite !str_app_nil_l|].
  by rewrite !str_app_cons, prefix_cons, Ascii.eqb_refl, IH.
Qed.

Lemma normalize_heading_kept k s tail :
  normalize_heading k s (("# Chapter " +:+ PyStr.str_of_nat k) +:+ tail)
  = ("# Chapter " +:+ PyStr.str_of_nat k) +:+ tail.
Proof.
  unfold normalize_heading. by rewrite strip_keeps_chapter_prefix.
Qed.

(** C8. The repair of [WriteChapters.exec] does not guarantee the heading of
    the exact chapter number and title.  Its guard compares a prefix: a reply
    that begins with [# Chapter k] is returned as it is, whatever follows.
    So the heading of chapter [10 k], which begins with the digits of [k],
    is kept for chapter [k], and so is a heading with the right number and
    another title; in neither case does the result begin with
    [# Chapter k: s].  Only a reply that, stripped, does not begin with
    [# Chapter k] is given the exact heading. *)
Theorem normalize_heading_accepts_wrong_heading (k : nat) (s : string) :
  (∀ tail,
     normalize_heading k s (("# Chapter " +:+ PyStr.str_of_nat k) +:+ tail)
     = ("# Chapter " +:+ PyStr.str_of_nat k) +:+ tail)
  ∧ PyStr.startswith
      (normalize_heading k s
         (("# Chapter " +:+ PyStr.str_of_nat k) +:+ "0: Other"))
      ("# Chapter " +:+ PyStr.str_of_nat k +:+ ": " +:+ s) = false
  ∧ PyStr.startswith
      (normalize_heading k s
         (("# Chapter " +:+ PyStr.str_of_nat k) +:+ " - Overview"))
      ("# Chapter " +:+ PyStr.str_of_nat k +:+ ": " +:+ s) = false
  ∧ (∀ reply,
       PyStr.startswith (PyStr.strip reply)
         ("# Chapter " +:+ PyStr.str_of_nat k) = false →
       PyStr.startswith (normalize_heading k s reply)
         ("# Chapter " +:+ PyStr.str_of_nat k +:+ ": " +:+ s) = true).
Proof.
  split_and!.
  - apply normalize_heading_kept.
  - rewrite normalize_heading_kept. unfold PyStr.startswith.
    rewrite <-(str_app_assoc "# Chapter "), <-(str_app_assoc _ ": ").
    by rewrite (str_app_assoc _ ": " s), prefix_app_same.
  - rewrite normalize_heading_kept. unfold PyStr.startswith.
    rewrite <-(str_app_assoc "# Chapter "), <-(str_app_assoc _ ": ").
    by rewrite (str_app_assoc _ ": " s), prefix_app_same.
  - intros reply Hguard.
    by destruct (normalize_heading_spec k s reply) as (_ & [? _] & _).
Qed.

(** The heading of chapter 10 is kept for chapter 1. *)
Example normalize_heading_ex :
  normalize_heading 1 "Cache" "# Chapter 10: Other" = "# Chapter 10: Other".
Proof. reflexivity. Qed.

(** ** Chapter order *)

Lemma validate_order_entry_Ok n seen entry idx :
  validate_order_entry n seen entry = Ok idx →
  parse_index_entry entry = Ok idx ∧ 0 ≤ idx < Z.of_nat n ∧ idx ∉ seen.
Proof.
  unfold validate_order_entry, except_ValueError_TypeError, in_range.
  result_unfold.
  destruct (parse_index_entry entry) as [i|[]]; try done.
  destruct (0 <=? i) eqn:H0; destruct (i <? Z.of_nat n) eqn:H1; try done.
  simpl. case_bool_decide; [done|]. intros [= ->]. split_and!; [done|lia|lia|done].
Qed.

Lemma order_loop_spec n entries ordered seen ordered' seen' :
  order_loop n entries ordered seen = Ok (ordered', seen') →
  (∀ z, z ∈ seen ↔ z ∈ ordered) → NoDup ordered →
  Forall (λ i, 0 ≤ i < Z.of_nat n) ordered →
  (∃ new, ordered' = ordered ++ new
          ∧ Forall2 (λ entry idx, parse_index_entry entry = Ok idx) entries new)
  ∧ (∀ z, z ∈ seen' ↔ z ∈ ordered') ∧ NoDup ordered'
  ∧ Forall (λ i, 0 ≤ i < Z.of_nat n) ordered'.
Proof.
  revert ordered seen.
  induction entries as [|entry rest IH]; intros ordered seen Hloop Hseen Hnd Hrange.
  - injection Hloop as <- <-. split_and!; try done.
    exists []. by rewrite app_nil_r.
  - simpl in Hloop. result_unfold.
    destruct (validate_order_entry n seen entry) as [idx|] eqn:Hentry; [|done].
    apply validate_order_entry_Ok in Hentry as (Hparse & Hidx & Hfresh).
    apply IH in Hloop as ((new & -> & Hnew) & Hseen' & Hnd' & Hrange').
    + split_and!; try done. exists (idx :: new).
      by rewrite <-app_assoc; split; [|constructor].
    + intros z. rewrite elem_of_union, elem_of_singleton, elem_of_app,
        list_elem_of_singleton, Hseen. tauto.
    + apply NoDup_app. split_and!; [done| |apply NoDup_singleton].
      intros z Hz ->%list_elem_of_singleton. by apply Hfresh, Hseen.
    + apply Forall_app. split; [done|]. by apply Forall_singleton.
Qed.

Lemma distinct_in_range_length (n : nat) (l : list Z) :
  NoDup l → Forall (λ i, 0 ≤ i < Z.of_nat n) l → (length l ≤ n)%nat.
Proof.
  intros Hnd Hr.
  assert (l ⊆+ seqZ 0 (Z.of_nat n)) as Hsub.
  { apply NoDup_submseteq; [done|]. intros z Hz. apply elem_of_seqZ.
    rewrite Forall_forall in Hr. specialize (Hr z Hz). lia. }
  apply submseteq_length in Hsub. rewrite length_seqZ in Hsub. lia.
Qed.

Lemma distinct_in_range_permutation (n : nat) (l : list Z) :
  NoDup l → Forall (λ i, 0 ≤ i < Z.of_nat n) l → length l = n →
  l ≡ₚ seqZ 0 (Z.of_nat n).
Proof.
  intros Hnd Hr Hlen. apply submseteq_length_Permutation.
  - apply NoDup_submseteq; [done|]. intros z Hz. apply elem_of_seqZ.
    rewrite Forall_forall in Hr. specialize (Hr z Hz). lia.
  - rewrite length_seqZ. lia.
Qed.

Lemma elem_of_missing_indices n seen z :
  z ∈ missing_indices n seen ↔ 0 ≤ z < Z.of_nat n ∧ z ∉ seen.
Proof.
  unfold missing_indices.
  rewrite elem_of_difference, elem_of_list_to_set, elem_of_seqZ. intuition lia.
Qed.

Lemma validate_order_entry_no_mismatch n seen entry len n' missing :
  validate_order_entry n seen entry
  ≠ Raise (ValueError (Ordered_list_length_mismatch len n' missing)).
Proof.
  unfold validate_order_entry, except_ValueError_TypeError. result_unfold.
  destruct (parse_index_entry entry) as [i|[]]; try done.
  destruct (in_range i n); simpl; [|done]. by case_bool_decide.
Qed.

Lemma order_loop_no_mismatch n entries ordered seen len n' missing :
  order_loop n entries ordered seen
  ≠ Raise (ValueError (Ordered_list_length_mismatch len n' missing)).
Proof.
  revert ordered seen. induction entries as [|entry rest IH]; intros ordered seen.
  - done.
  - simpl. result_unfold.
    destruct (validate_order_entry n seen entry) eqn:Hentry; [apply IH|].
    intros [= ->]. by eapply validate_order_entry_no_mismatch.
Qed.


Lemma OrderChapters_validate_spec E n response :
  order_outcome E n response (OrderChapters_validate E n response).
Proof.
  unfold OrderChapters_validate. result_unfold.
  destruct (fenced_yaml response) as [yaml_str|e] eqn:Hfenced.
  2:{ unfold fenced_yaml in Hfenced. repeat case_match; simplify_eq; done. }
  destruct (safe_load E yaml_str) as [raw|e] eqn:Hload.
  2:{ unfold safe_load in Hload. repeat case_match; simplify_eq; done. }
  destruct raw as [| | | | |entries|]; try done.
  destruct (order_loop n entries [] ∅) as [[ordered seen]|e] eqn:Hloop.
  2:{ destruct e as [[]| | | | | |]; try done.
      by apply order_loop_no_mismatch in Hloop. }
  apply order_loop_spec in Hloop as ((new & -> & Hnew) & Hseen & Hnd & Hrange);
    [|set_solver|constructor|constructor].
  simpl in *.
  assert (Hentries : reply_entries E response entries) by (by exists yaml_str).
  pose proof (distinct_in_range_length n new Hnd Hrange) as Hle.
  destruct (length new =? n)%nat eqn:Hlen; simpl.
  - apply Nat.eqb_eq in Hlen. split_and!; try done.
    + by apply distinct_in_range_permutation.
    + by exists entries.
  - apply Nat.eqb_neq in Hlen. split_and!; [done|lia| |].
    + intros Hempty.
      assert (seqZ 0 (Z.of_nat n) ⊆+ new) as Hsub.
      { apply NoDup_submseteq; [apply NoDup_seqZ|]. intros z Hz%elem_of_seqZ.
        destruct (decide (z ∈ new)) as [|Hnot]; [done|]. exfalso.
        apply (not_elem_of_empty (C:=gset Z) z). rewrite <-Hempty.
        apply elem_of_missing_indices. split; [lia|]. by rewrite Hseen. }
      apply submseteq_length in Hsub. rewrite length_seqZ in Hsub. lia.
    + exists entries, new. split_and!; try done.
      intros z. rewrite elem_of_missing_indices, Hseen. done.
Qed.

(** C1. Whatever the generator replies, [OrderChapters.exec] either raises
    or returns a permutation of the indices below the abstraction count: the
    list has no repeated index, its length is the count, every index was
    parsed from the corresponding entry of the reply and is in range.  When it
    raises the length-mismatch error, the entries that were validated are
    fewer than the count, and the set the message carries is non-empty and
    holds exactly the indices in range that no entry gave. *)
Theorem OrderChapters_exec_permutation (E : Env) (cur_retry : nat)
    (prep_res : order_prep_res) (w : world) :
  let n := oc_num_abstractions prep_res in
  match (OrderChapters_exec E cur_retry prep_res w).2 with
  | Ok order =>
      order ≡ₚ seqZ 0 (Z.of_nat n)
      ∧ NoDup order
      ∧ length order = n
      ∧ Forall (λ i, 0 ≤ i < Z.of_nat n) order
      ∧ ∃ response entries,
          reply_entries E response entries
          ∧ Forall2 (λ entry idx, parse_index_entry entry = Ok idx) entries order
  | Raise (ValueError (Ordered_list_length_mismatch len n' missing)) =>
      n' = n ∧ (len < n)%nat ∧ missing ≠ ∅
      ∧ ∃ response entries ordered,
          reply_entries E response entries
          ∧ Forall2 (λ entry idx, parse_index_entry entry = Ok idx) entries ordered
          ∧ length ordered = len
          ∧ ∀ z, z ∈ missing ↔ 0 ≤ z < Z.of_nat n ∧ z ∉ ordered
  | Raise _ => True
  end.
Proof.
  intros n. unfold OrderChapters_exec, call_llm, lift, mbind, M_bind. simpl.
  destruct (generator E _ _) as [response|what|what]; simpl; [|done..].
  pose proof (OrderChapters_validate_spec E n response) as H. fold n.
  destruct (OrderChapters_validate E n response) as [order|[[]| | | | | |]];
    simpl in *; try done.
  - destruct H as (? & ? & ? & ? & entries & ? & ?). split_and!; try done.
    by exists response, entries.
  - destruct H as (? & ? & ? & entries & ordered & ? & ? & ? & ?).
    split_and!; try done. by exists response, entries, ordered.
Qed.

(** ** Error messages *)

Lemma validate_file_index_never_cites_max n item_name entry idx nm max_index :
  validate_file_index n item_name entry
  ≠ Raise (ValueError (Invalid_file_index idx nm max_index)).
Proof.
  unfold validate_file_index, except_ValueError_TypeError. result_unfold.
  destruct (parse_index_entry entry) as [i|[]]; try done.
  by destruct (in_range i n).
Qed.

Lemma validate_order_entry_never_reports_duplicate n seen entry idx :
  validate_order_entry n seen entry
  ≠ Raise (ValueError (Duplicate_index_in_ordered_list idx)).
Proof.
  unfold validate_order_entry, except_ValueError_TypeError. result_unfold.
  destruct (parse_index_entry entry) as [i|[]]; try done.
  destruct (in_range i n); simpl; [|done]. by case_bool_decide.
Qed.

(** C9, as the code runs.  With three files, a reply whose abstraction lists
    file index 5 makes [IdentifyAbstractions.exec] raise the could-not-parse
    message for that entry, not the message with the maximum index; with three
    abstractions, a chapter order that repeats index 1 makes
    [OrderChapters.exec] raise the could-not-parse message, not the duplicate
    one.  The two intended messages are raised inside the [try] block whose
    [except] clause replaces them, so neither ever leaves the entry check. *)
Theorem index_errors_are_replaced :
  (IdentifyAbstractions_exec
     (scripted out_of_range_reply out_of_range_document out_of_range_value)
     0 three_files empty_world).2
  = Raise (ValueError (Could_not_parse_index_from_entry (YInt 5) "Parser"))
  ∧ (OrderChapters_exec
       (scripted duplicate_reply duplicate_document duplicate_value)
       0 three_abstractions empty_world).2
    = Raise (ValueError (Could_not_parse_index_from_ordered_list_entry (YInt 1)))
  ∧ (∀ n item_name entry idx nm max_index,
       validate_file_index n item_name entry
       ≠ Raise (ValueError (Invalid_file_index idx nm max_index)))
  ∧ (∀ n seen entry idx,
       validate_order_entry n seen entry
       ≠ Raise (ValueError (Duplicate_index_in_ordered_list idx))).
Proof.
  split_and!.
  - by vm_compute.
  - by vm_compute.
  - apply validate_file_index_never_cites_max.
  - apply validate_order_entry_never_reports_duplicate.
Qed.

(** ** Cache eligibility *)



(** ** File indices of an abstraction *)

Lemma split_hash_head s : ∃ ps, PyStr.split "#" s = before_hash s :: ps.
Proof.
  unfold PyStr.split. induction s as [|c s [ps IH]]; [by exists []|].
  change (PyStr.split_aux "#" 0 (String c s))
    with (if String.prefix "#" (String c s)
          then "" :: PyStr.split_aux "#" 0 s
          else match PyStr.split_aux "#" 0 s with
               | p :: ps => String c p :: ps
               | [] => [String c ""]
               end).
  change (before_hash (String c s))
    with (if Ascii.eqb c "#" then "" else String c (before_hash s)).
  rewrite prefix_cons, prefix_nil, andb_true_r, (Ascii.eqb_sym c "#").
  destruct (Ascii.eqb "#" c); [by eexists|]. rewrite IH. by eexists.
Qed.

Lemma before_hash_without_hash s :
  PyStr.contains "#" s = false → before_hash s = s.
Proof.
  induction s as [|c s IH]; [done|].
  rewrite contains_char_cons, orb_false_iff. intros [Hc Hs].
  change (before_hash (String c s))
    with (if Ascii.eqb c "#" then "" else String c (before_hash s)).
  rewrite (Ascii.eqb_sym c "#"), Hc. by rewrite IH.
Qed.

Lemma parse_index_entry_str s :
  parse_index_entry (YStr s) = int_or_raise (PyStr.strip (before_hash s)).
Proof.
  simpl. destruct (PyStr.contains "#" s) eqn:Hc.
  - destruct (split_hash_head s) as [ps ->]. done.
  - by rewrite before_hash_without_hash.
Qed.

Lemma parse_index_entry_error entry e :
  parse_index_entry entry = Raise e → ∃ m, e = ValueError m.
Proof.
  destruct entry as [|b|z|r|s|l|d]; try (intros [= <-]; by eexists).
  rewrite parse_index_entry_str. unfold int_or_raise.
  destruct (PyStr.int _); [done|]. intros [= <-]. by eexists.
Qed.

Lemma validate_file_index_cases n item_name entry :
  (∃ idx, parse_index_entry entry = Ok idx ∧ 0 ≤ idx < Z.of_nat n
          ∧ validate_file_index n item_name entry = Ok idx)
  ∨ validate_file_index n item_name entry
    = Raise (ValueError (Could_not_parse_index_from_entry entry item_name)).
Proof.
  unfold validate_file_index, except_ValueError_TypeError, in_range.
  result_unfold.
  destruct (parse_index_entry entry) as [i|e] eqn:Hparse.
  - destruct (0 <=? i) eqn:H0; destruct (i <? Z.of_nat n) eqn:H1; simpl; auto.
    left. exists i. split_and!; [done|lia|lia|done].
  - apply parse_index_entry_error in Hparse as [m ->]. by right.
Qed.

Lemma validate_file_index_Ok n item_name entry idx :
  validate_file_index n item_name entry = Ok idx →
  parse_index_entry entry = Ok idx ∧ 0 ≤ idx < Z.of_nat n.
Proof.
  destruct (validate_file_index_cases n item_name entry)
    as [(i & ? & ? & ->)| ->]; [|done].
  by intros [= <-].
Qed.

Lemma validate_file_indices_spec n item_name entries validated result :
  validate_file_indices n item_name entries validated = Ok result →
  ∃ new, result = validated ++ new
         ∧ Forall2 (λ entry idx,
                      parse_index_entry entry = Ok idx ∧ 0 ≤ idx < Z.of_nat n)
             entries new.
Proof.
  revert validated. induction entries as [|entry rest IH]; intros validated.
  - intros [= <-]. exists []. by rewrite app_nil_r.
  - simpl. result_unfold.
    destruct (validate_file_index n item_name entry) as [idx|] eqn:Hentry; [|done].
    intros (new & -> & Hnew)%IH. exists (idx :: new).
    rewrite <-app_assoc. split; [done|]. constructor; [|done].
    by eapply validate_file_index_Ok.
Qed.

Lemma StronglySorted_le_lt (l : list Z) :
  StronglySorted Z.le l → NoDup l → StronglySorted Z.lt l.
Proof.
  induction 1 as [|x l Hl IH Hx]; intros Hnd; [constructor|].
  apply NoDup_cons in Hnd as [Hnotin Hnd]. constructor; [auto|].
  rewrite Forall_forall in *. intros y Hy. specialize (Hx y Hy).
  assert (x ≠ y) by (intros ->; done). lia.
Qed.

(** [sorted(list(set(l)))] is strictly increasing and has the elements of [l]. *)
Lemma sorted_set_spec (l : list Z) :
  StronglySorted Z.lt (sorted_set l) ∧ ∀ z, z ∈ sorted_set l ↔ z ∈ l.
Proof.
  unfold sorted_set. split.
  - apply StronglySorted_le_lt.
    + apply (StronglySorted_merge_sort _).
    + rewrite merge_sort_Permutation. apply NoDup_elements.
  - intros z. rewrite merge_sort_Permutation, elem_of_elements.
    apply elem_of_list_to_set.
Qed.

Lemma validate_abstraction_Ok n item a :
  validate_abstraction n item = Ok a → abstraction_of_item n item a.
Proof.
  unfold validate_abstraction. result_unfold.
  destruct item as [| | | | | |d]; try done.
  destruct (has_keys d _); simpl; [|done].
  destruct (dict_get d "name") as [[| | | |nm| |]|] eqn:Hname; try done;
    destruct (dict_get d "description") as [[| | | |descr| |]|] eqn:Hdescr;
    try done;
    destruct (dict_get d "file_indices") as [[| | | | |entries|]|] eqn:Hfiles;
    try done.
  destruct (validate_file_indices n nm entries []) as [idxs|] eqn:Hidx; [|done].
  intros [= <-]. apply validate_file_indices_spec in Hidx as (new & -> & Hnew).
  exists d, entries, new. simpl. split_and!; try done; apply sorted_set_spec.
Qed.

Lemma validate_abstractions_spec n items validated result :
  validate_abstractions n items validated = Ok result →
  ∃ new, result = validated ++ new ∧ Forall2 (abstraction_of_item n) items new.
Proof.
  revert validated. induction items as [|item rest IH]; intros validated.
  - intros [= <-]. exists []. by rewrite app_nil_r.
  - simpl. result_unfold.
    destruct (validate_abstraction n item) as [a|] eqn:Hitem; [|done].
    intros (new & -> & Hnew)%IH. exists (a :: new).
    rewrite <-app_assoc. split; [done|]. constructor; [|done].
    by apply validate_abstraction_Ok.
Qed.

Lemma validate_file_index_accepts n item_name entry idx :
  parse_index_entry entry = Ok idx → 0 ≤ idx < Z.of_nat n →
  validate_file_index n item_name entry = Ok idx.
Proof.
  intros Hparse Hidx.
  destruct (validate_file_index_cases n item_name entry)
    as [(i & Hi & _ & ->)| Hraise]; [congruence|].
  exfalso. revert Hraise.
  unfold validate_file_index, except_ValueError_TypeError. result_unfold.
  rewrite Hparse.
  assert (in_range idx n = true) as ->; [|done].
  unfold in_range. apply andb_true_intro. split; [lia|]. apply Z.ltb_lt. lia.
Qed.

Lemma validate_file_index_rejects n item_name entry :
  (∀ idx, parse_index_entry entry = Ok idx → ¬ (0 ≤ idx < Z.of_nat n)) →
  validate_file_index n item_name entry
  = Raise (ValueError (Could_not_parse_index_from_entry entry item_name)).
Proof.
  intros Hbad.
  destruct (validate_file_index_cases n item_name entry)
    as [(i & Hi & Hr & _)| Hraise]; [|done].
  by destruct (Hbad i Hi).
Qed.

Lemma validate_file_indices_accepts n item_name entries : ∀ validated,
  Forall (λ entry,
            ∃ idx, parse_index_entry entry = Ok idx ∧ 0 ≤ idx < Z.of_nat n)
    entries →
  ∃ result, validate_file_indices n item_name entries validated = Ok result.
Proof.
  induction entries as [|entry rest IH]; intros validated Hall; [by eexists|].
  apply Forall_cons in Hall as [(idx & Hparse & Hidx) Hrest]. simpl.
  rewrite (validate_file_index_accepts _ _ _ _ Hparse Hidx). result_unfold.
  by apply IH.
Qed.

Lemma validate_abstraction_accepts n item :
  acceptable_item n item → ∃ a, validate_abstraction n item = Ok a.
Proof.
  intros (d & nm & descr & entries & -> & Hn & Hd & Hf & Hall).
  unfold validate_abstraction, has_keys. simpl. rewrite Hn, Hd, Hf. simpl.
  destruct (validate_file_indices_accepts n nm entries [] Hall) as [l ->].
  result_unfold. by eexists.
Qed.

Lemma validate_abstractions_accepts n items : ∀ validated,
  Forall (acceptable_item n) items →
  ∃ result, validate_abstractions n items validated = Ok result.
Proof.
  induction items as [|item rest IH]; intros validated Hall; [by eexists|].
  apply Forall_cons in Hall as [Hitem Hrest]. simpl.
  destruct (validate_abstraction_accepts n item Hitem) as [a ->]. result_unfold.
  by apply IH.
Qed.

(** An item with an entry that is no index in range is not validated. *)
Lemma abstraction_of_item_entries n d entries entry a :
  abstraction_of_item n (YDict d) a →
  dict_get d "file_indices" = Some (YList entries) → entry ∈ entries →
  ∃ idx, parse_index_entry entry = Ok idx ∧ 0 ≤ idx < Z.of_nat n.
Proof.
  intros (d' & entries' & idxs & [= <-] & _ & _ & Hf & Hparsed & _) Hf' Hentry.
  rewrite Hf in Hf'. injection Hf' as <-. clear Hf.
  induction Hparsed as [|e i es idxs' Hi _ IH]; [by apply elem_of_nil in Hentry|].
  apply elem_of_cons in Hentry as [->|Hentry]; [by exists i|by apply IH].
Qed.

(** C2. An index entry that is an integer is taken as it is, and one that is
    a string is read as the integer written before its first hash sign.  The
    check of an entry accepts it, with that index, when it parses to an
    integer in range, and raises otherwise.  [IdentifyAbstractions.exec]
    accepts a reply whose items are all well formed with entries of that
    kind, and raises as soon as the reply has an item with an entry that is no
    index in range.  Whenever it returns, every abstraction comes from one
    item of the reply, all entries of that item parsed to indices in range,
    and its [files] list is strictly increasing (so sorted and without
    duplicates) and has exactly those indices as elements. *)
Theorem IdentifyAbstractions_exec_files (E : Env) (cur_retry : nat)
    (prep_res : identify_prep_res) (w : world) :
  let n := ia_file_count prep_res in
  (∀ z, parse_index_entry (YInt z) = Ok z)
  ∧ (∀ s, parse_index_entry (YStr s)
          = int_or_raise (PyStr.strip (before_hash s)))
  ∧ (∀ item_name entry,
       (∃ idx, parse_index_entry entry = Ok idx ∧ 0 ≤ idx < Z.of_nat n
               ∧ validate_file_index n item_name entry = Ok idx)
       ∨ validate_file_index n item_name entry
         = Raise (ValueError (Could_not_parse_index_from_entry entry item_name)))
  ∧ match (IdentifyAbstractions_exec E cur_retry prep_res w).2 with
    | Ok abstractions =>
        ∃ response items,
          reply_entries E response items
          ∧ Forall2 (abstraction_of_item n) items abstractions
    | Raise _ => True
    end
  ∧ (∀ item_name entry idx,
       parse_index_entry entry = Ok idx → 0 ≤ idx < Z.of_nat n →
       validate_file_index n item_name entry = Ok idx)
  ∧ (∀ item_name entry,
       (∀ idx, parse_index_entry entry = Ok idx → ¬ (0 ≤ idx < Z.of_nat n)) →
       validate_file_index n item_name entry
       = Raise (ValueError (Could_not_parse_index_from_entry entry item_name)))
  ∧ (∀ response yaml_str items,
       generator E (llm_log w) (identify_call cur_retry prep_res)
       = Generated response →
       fenced_yaml response = Ok yaml_str →
       safe_load E yaml_str = Ok (YList items) →
       (Forall (acceptable_item n) items →
        ∃ abstractions,
          (IdentifyAbstractions_exec E cur_retry prep_res w).2 = Ok abstractions
          ∧ Forall2 (abstraction_of_item n) items abstractions)
       ∧ (∀ d entries entry,
            YDict d ∈ items →
            dict_get d "file_indices" = Some (YList entries) →
            entry ∈ entries →
            (∀ idx, parse_index_entry entry = Ok idx
                    → ¬ (0 ≤ idx < Z.of_nat n)) →
            ∃ e, (IdentifyAbstractions_exec E cur_retry prep_res w).2 = Raise e)).
Proof.
  intros n. split_and!.
  - done.
  - apply parse_index_entry_str.
  - apply validate_file_index_cases.
  - unfold IdentifyAbstractions_exec, call_llm, lift, mbind, M_bind. simpl.
    destruct (generator E _ _) as [response|what|what]; simpl; [|done..].
    unfold IdentifyAbstractions_validate. result_unfold.
    destruct (fenced_yaml response) as [yaml_str|] eqn:Hfenced; [|done].
    destruct (safe_load E yaml_str) as [[| | | | |items|]|] eqn:Hload; try done.
    fold n.
    destruct (validate_abstractions n items []) as [abstractions|] eqn:Hv; [|done].
    apply validate_abstractions_spec in Hv as (new & -> & Hnew).
    exists response, items. split; [by exists yaml_str|done].
  - apply validate_file_index_accepts.
  - apply validate_file_index_rejects.
  - intros response yaml_str items Hgen Hfenced Hload.
    assert ((IdentifyAbstractions_exec E cur_retry prep_res w).2
            = validate_abstractions n items []) as ->.
    { unfold IdentifyAbstractions_exec, call_llm, lift, mbind, M_bind. simpl.
      unfold identify_call in Hgen. rewrite Hgen. simpl.
      unfold IdentifyAbstractions_validate. result_unfold.
      by rewrite Hfenced, Hload. }
    split.
    + intros Hall.
      destruct (validate_abstractions_accepts n items [] Hall) as [r Hr].
      rewrite Hr. exists r. split; [done|].
      by apply validate_abstractions_spec in Hr as (new & -> & Hnew).
    + intros d entries entry Hin Hf Hentry Hbad.
      destruct (validate_abstractions n items []) as [r|e] eqn:Hr; [|by eexists].
      apply validate_abstractions_spec in Hr as (new & -> & Hnew).
      apply list_elem_of_lookup in Hin as [i Hi].
      destruct (Forall2_lookup_l _ _ _ _ _ Hnew Hi) as (a & _ & Ha).
      destruct (abstraction_of_item_entries _ _ _ _ _ Ha Hf Hentry)
        as (idx & Hparse & Hidx).
      by destruct (Hbad idx Hparse).
Qed.

(** The reply of the specification's example over three files is accepted:
    the indices are read from integers and from commented strings, and
    stored sorted and without duplicates. *)
Example IdentifyAbstractions_exec_ex :
  (IdentifyAbstractions_exec
     (scripted two_abstractions_reply two_abstractions_document
        two_abstractions_value)
     0 three_files empty_world).2
  = Ok [ {| name := "Parser"; description := "Reads the input";
            files := [0; 1] |};
         {| name := "Printer"; description := "Writes the output";
            files := [1; 2] |} ].
Proof. by vm_compute. Qed.

(** ** The per-file analyses *)

Lemma parse_file_reply_contribution E path response all :
  match parse_file_reply E path response all with
  | Ok all' => all' = all ++ contribution E path (Generated response)
  | Raise _ => contribution E path (Generated response) = []
  end.
Proof.
  unfold parse_file_reply, contribution. result_unfold.
  destruct (fenced_or_whole response) as [yaml_str|]; [|done].
  destruct (if String.eqb yaml_str "" then _ else _)
    as [[| | | | |[|x l]|]|]; simpl; by rewrite ?app_nil_r.
Qed.

Lemma contribution_nonempty E path g :
  Forall (λ e, ae_parsed e ≠ []) (contribution E path g).
Proof.
  unfold contribution. destruct g as [response| |]; try by constructor.
  destruct (fenced_or_whole response) as [yaml_str|]; [|by constructor].
  destruct (if String.eqb yaml_str "" then _ else _)
    as [[| | | | |[|x l]|]|]; try by constructor.
  all: by apply Forall_singleton.
Qed.

(** One pass through the [try] statement: the call is recorded, and the
    locals are what the reply of the generator makes them. *)
Lemma analysis_try_spec E (c : llm_call) path all response w :
  analysis_try E (call_prompt c) (call_use_cache c) path all response w
  = ({| llm_log := llm_log w ++ [c];
        chapters_written_so_far := chapters_written_so_far w |},
     match generator E (llm_log w) c with
     | Generated text =>
         Ok (all ++ contribution E path (Generated text), Some text)
     | GenerationFailed _ => Ok (all, response)
     | GenerationFailedAsYAMLError _ =>
         match response with
         | Some _ => Ok (all, response)
         | None => Raise (NameError "response")
         end
     end).
Proof.
  destruct c as [p flag]. unfold analysis_try, call_llm. cbn -[contribution].
  destruct (generator E _ _) as [text|what|what]; cbn -[contribution];
    try done.
  pose proof (parse_file_reply_contribution E path text all) as Hp.
  destruct (parse_file_reply E path text all); [by rewrite Hp|].
  by rewrite Hp, app_nil_r.
Qed.

Lemma reply_at_O E call files log f :
  reply_at E call files log 0 f = generator E log (call f).
Proof. unfold reply_at. by rewrite take_0, app_nil_r. Qed.

Lemma reply_at_S E call f0 rest log i f :
  reply_at E call (f0 :: rest) log (S i) f
  = reply_at E call rest (log ++ [call f0]) i f.
Proof. unfold reply_at. simpl. by rewrite <-app_assoc. Qed.

Lemma stumbles_O E call f rest log :
  stumbles E call (f :: rest) log 0
  ↔ ∃ what, generator E log (call f) = GenerationFailedAsYAMLError what.
Proof.
  unfold stumbles. split.
  - intros [(g & what & [= <-] & Hg) _]. rewrite reply_at_O in Hg. eauto.
  - intros [what Hg]. split; [|intros; lia].
    exists f, what. by rewrite reply_at_O.
Qed.

Lemma stumbles_S E call f rest log i :
  stumbles E call (f :: rest) log (S i)
  ↔ (∀ text, generator E log (call f) ≠ Generated text)
    ∧ stumbles E call rest (log ++ [call f]) i.
Proof.
  unfold stumbles. split.
  - intros [(g & what & Hg & Hy) Hbefore]. simpl in Hg.
    rewrite reply_at_S in Hy. split_and!.
    + intros text. rewrite <-(reply_at_O E call (f :: rest)).
      apply (Hbefore 0%nat); [lia|done].
    + eauto.
    + intros j g' text Hj Hg'. rewrite <-reply_at_S.
      apply Hbefore; [lia|done].
  - intros (Hhead & (g & what & Hg & Hy) & Hbefore). split.
    + exists g, what. by rewrite reply_at_S.
    + intros [|j] g' text Hj Hg'.
      * injection Hg' as <-. rewrite reply_at_O. apply Hhead.
      * rewrite reply_at_S. apply Hbefore; [lia|done].
Qed.

Lemma analysis_loop_spec E call files : ∀ all response w,
  ∃ k,
    llm_log (analysis_loop E call files all response w).1
    = llm_log w ++ take k (call <$> files)
    ∧ match (analysis_loop E call files all response w).2 with
      | Ok res =>
          k = length files
          ∧ res = all ++ concat (imap (λ i f,
                                        contribution E (fi_path f)
                                          (reply_at E call files (llm_log w) i f))
                                  files)
          ∧ (response = None → ∀ i, ¬ stumbles E call files (llm_log w) i)
      | Raise e =>
          (0 < k ≤ length files)%nat
          ∧ e = NameError "response" ∧ response = None
          ∧ ∃ i, stumbles E call files (llm_log w) i
      end.
Proof.
  induction files as [|f rest IH]; intros all response w.
  { exists 0%nat. simpl. rewrite !app_nil_r. split_and!; try done.
    intros _ i [(g & what & Hg & _) _]. done. }
  cbn [analysis_loop]. unfold mbind, M_bind. rewrite analysis_try_spec.
  cbn [imap concat]. rewrite reply_at_O.
  destruct (generator E (llm_log w) (call f)) as [text|what|what] eqn:Hgen;
    cbn [fst snd].
  - match goal with
    | |- context [analysis_loop E call rest ?a ?r ?w1] =>
        destruct (IH a r w1) as (k & Hlog & Hres); cbn [fst snd] in *;
        destruct (analysis_loop E call rest a r w1) as [w2 [res|e]]
    end; cbn [fst snd] in *.
    + destruct Hres as (-> & -> & _). exists (S (length rest)).
      split_and!; [by rewrite Hlog; simpl; rewrite <-app_assoc|done| |].
      * rewrite <-app_assoc. do 3 f_equal. apply imap_ext.
        intros i g _. simpl. by rewrite reply_at_S.
      * intros _ [|i]; [rewrite stumbles_O|rewrite stumbles_S].
        -- intros [? ?]. congruence.
        -- intros [Hno _]. by apply (Hno text).
    + by destruct Hres as (_ & _ & [=] & _).
  - match goal with
    | |- context [analysis_loop E call rest ?a ?r ?w1] =>
        destruct (IH a r w1) as (k & Hlog & Hres); cbn [fst snd] in *;
        destruct (analysis_loop E call rest a r w1) as [w2 [res|e]]
    end; cbn [fst snd] in *.
    + destruct Hres as (-> & -> & Hno). exists (S (length rest)).
      split_and!; [by rewrite Hlog; simpl; rewrite <-app_assoc|done| |].
      * cbn [contribution app]. do 2 f_equal. apply imap_ext.
        intros i g _. simpl. by rewrite reply_at_S.
      * intros Hr [|i]; [rewrite stumbles_O|rewrite stumbles_S].
        -- intros [? ?]. congruence.
        -- intros [_ Hs]. by apply (Hno Hr i).
    + destruct Hres as (Hk & -> & -> & i & Hs). exists (S k).
      split_and!;
        [by rewrite Hlog; simpl; rewrite <-app_assoc|simpl; lia..|done|done|].
      exists (S i). apply stumbles_S. split; [|done]. congruence.
  - destruct response as [r|]; cbn [fst snd].
    + match goal with
      | |- context [analysis_loop E call rest ?a ?r ?w1] =>
          destruct (IH a r w1) as (k & Hlog & Hres); cbn [fst snd] in *;
          destruct (analysis_loop E call rest a r w1) as [w2 [res|e]]
      end; cbn [fst snd] in *.
      * destruct Hres as (-> & -> & _). exists (S (length rest)).
        split_and!; [by rewrite Hlog; simpl; rewrite <-app_assoc|done| |done].
        cbn [contribution app]. do 2 f_equal. apply imap_ext.
        intros i g _. simpl. by rewrite reply_at_S.
      * by destruct Hres as (_ & _ & [=] & _).
    + exists 1%nat. cbn [fst snd]. split_and!; try done; try (simpl; lia).
      exists 0%nat. apply stumbles_O. eauto.
Qed.

Lemma AnalyzeAPICalls_loop_eq E cur_retry p files : ∀ all response w,
  AnalyzeAPICalls_loop E cur_retry (an_project_name p) (an_language p)
    (an_use_cache p) files all response w
  = analysis_loop E (analysis_call AnalyzeAPICallsPrompt cur_retry p) files all
      response w.
Proof.
  induction files as [|f rest IH]; intros all response w; [done|].
  simpl. unfold mbind, M_bind, AnalyzeAPICalls_file. simpl.
  destruct (analysis_try _ _ _ _ _ _ _) as [w1 [[a r]|e]]; [apply IH|done].
Qed.

Lemma AnalyzeFastAPIEndpoints_loop_eq E cur_retry p files : ∀ all response w,
  AnalyzeFastAPIEndpoints_loop E cur_retry (an_project_name p) (an_language p)
    (an_use_cache p) files all response w
  = analysis_loop E (analysis_call AnalyzeFastAPIEndpointsPrompt cur_retry p)
      files all response w.
Proof.
  induction files as [|f rest IH]; intros all response w; [done|].
  simpl. unfold mbind, M_bind, AnalyzeFastAPIEndpoints_file. simpl.
  destruct (analysis_try _ _ _ _ _ _ _) as [w1 [[a r]|e]]; [apply IH|done].
Qed.

Lemma analysis_loop_outcome E call files w :
  analysis_outcome E call files (llm_log w)
    (analysis_loop E call files [] None w).2.
Proof.
  destruct (analysis_loop_spec E call files [] None w) as (k & _ & Hres).
  unfold analysis_outcome.
  destruct (analysis_loop E call files [] None w) as [w' [res|e]]; simpl in *.
  - destruct Hres as (_ & -> & Hno). split_and!; [by apply Hno|done|].
    simpl. apply Forall_concat. clear.
    generalize (reply_at E call files (llm_log w)). intros g.
    induction files as [|f rest IH] in g |- *; [constructor|].
    simpl. constructor; [apply contribution_nonempty|apply IH].
  - by destruct Hres as (_ & -> & _ & ?).
Qed.

Lemma analysis_loop_stumbles_first E call f rest what w :
  generator E (llm_log w) (call f) = GenerationFailedAsYAMLError what →
  (analysis_loop E call (f :: rest) [] None w).2 = Raise (NameError "response").
Proof.
  intros Hgen. cbn [analysis_loop]. unfold mbind, M_bind.
  by rewrite analysis_try_spec, Hgen.
Qed.

(** C10. [AnalyzeAPICalls.exec] and [AnalyzeFastAPIEndpoints.exec] do let an
    exception out.  Without files they return the empty list.  With files
    they return, in file order, what each file contributes: nothing when the
    generator failed on the call for this file, when the YAML reader failed
    on its reply or made no list or an empty list of it, and otherwise the
    path of the file with the non-empty list.  But when the generator fails
    with an instance of [yaml.YAMLError] before it has answered any call of
    this [exec], the [except yaml.YAMLError] clause prints the unbound
    [response] and [UnboundLocalError] leaves [exec]; this is the only
    exception that does, and it does so in particular when the generator
    fails in this way on the first file. *)
Theorem analyses_stumble_on_unbound_response (E : Env) (cur_retry : nat)
    (w : world) :
  ((AnalyzeAPICalls_exec E cur_retry None w).2 = Ok []
   ∧ (AnalyzeFastAPIEndpoints_exec E cur_retry None w).2 = Ok [])
  ∧ (∀ p,
       analysis_outcome E (analysis_call AnalyzeAPICallsPrompt cur_retry p)
         (an_files p) (llm_log w)
         (AnalyzeAPICalls_exec E cur_retry (Some p) w).2
       ∧ analysis_outcome E
           (analysis_call AnalyzeFastAPIEndpointsPrompt cur_retry p)
           (an_files p) (llm_log w)
           (AnalyzeFastAPIEndpoints_exec E cur_retry (Some p) w).2)
  ∧ (∀ p f rest what,
       an_files p = f :: rest →
       (generator E (llm_log w) (analysis_call AnalyzeAPICallsPrompt cur_retry p f)
        = GenerationFailedAsYAMLError what →
        (AnalyzeAPICalls_exec E cur_retry (Some p) w).2
        = Raise (NameError "response"))
       ∧ (generator E (llm_log w)
            (analysis_call AnalyzeFastAPIEndpointsPrompt cur_retry p f)
          = GenerationFailedAsYAMLError what →
          (AnalyzeFastAPIEndpoints_exec E cur_retry (Some p) w).2
          = Raise (NameError "response"))).
Proof.
  split_and!; [done..| |].
  - intros p. simpl.
    rewrite AnalyzeAPICalls_loop_eq, AnalyzeFastAPIEndpoints_loop_eq.
    split; apply analysis_loop_outcome.
  - intros p f rest what Hfiles. simpl.
    rewrite AnalyzeAPICalls_loop_eq, AnalyzeFastAPIEndpoints_loop_eq, Hfiles.
    split; apply analysis_loop_stumbles_first.
Qed.

(** On one file: a generator that fails with an instance of
    [yaml.YAMLError] makes [exec] raise, one that fails otherwise does not. *)
Example analyses_stumble_ex :
  (AnalyzeAPICalls_exec failing_as_YAMLError 0 (Some one_file) empty_world).2
  = Raise (NameError "response")
  ∧ (AnalyzeFastAPIEndpoints_exec failing_as_YAMLError 0 (Some one_file)
       empty_world).2
    = Raise (NameError "response")
  ∧ (AnalyzeAPICalls_exec failing_otherwise 0 (Some one_file) empty_world).2
    = Ok [].
Proof. split_and!; reflexivity. Qed.

(** ** The accumulated context of the chapter batch *)

Lemma normalize_heading_nonempty k s reply : normalize_heading k s reply ≠ "".
Proof.
  unfold normalize_heading.
  destruct (PyStr.startswith (PyStr.strip reply) _) eqn:Hstart; cbn [negb].
  - intros ->. done.
  - destruct (PyStr.split NL (PyStr.strip reply)) as [|first_line rest]; [done|].
    destruct (PyStr.startswith (PyStr.strip first_line) "#"); [|done].
    destruct (join_cons NL ("# Chapter " +:+ PyStr.str_of_nat k +:+ ": " +:+ s) rest)
      as [t ->]. done.
Qed.

Lemma join_nonempty sep x l : x ≠ "" → PyStr.join sep (x :: l) ≠ "".
Proof.
  intros Hx. destruct (join_cons sep x l) as [t ->].
  intros [? _]%str_app_eq_nil. done.
Qed.

Lemma previous_context_nonempty l :
  l ≠ [] → Forall (λ body, body ≠ "") l →
  previous_context l = PyStr.join SEPARATOR l.
Proof.
  intros Hne Hall. destruct l as [|x l]; [done|].
  apply Forall_cons in Hall as [Hx _]. unfold previous_context.
  destruct (String.eqb_spec (PyStr.join SEPARATOR (x :: l)) ""); [|done].
  by apply join_nonempty in e.
Qed.

(** One execution of [WriteChapters.exec]: one call, made with the context
    of the chapters written so far; the body is appended on success only. *)
Lemma WriteChapters_exec_spec E item cur_retry w :
  ∃ c,
    llm_log (WriteChapters_exec E item cur_retry w).1 = llm_log w ++ [c]
    ∧ call_for item (chapters_written_so_far w) c
    ∧ match (WriteChapters_exec E item cur_retry w).2 with
      | Ok body =>
          chapters_written_so_far (WriteChapters_exec E item cur_retry w).1
          = chapters_written_so_far w ++ [body] ∧ body ≠ ""
      | Raise _ =>
          chapters_written_so_far (WriteChapters_exec E item cur_retry w).1
          = chapters_written_so_far w
      end.
Proof.
  unfold WriteChapters_exec, call_llm. simpl.
  eexists. destruct (generator E _ _); simpl.
  - repeat split. apply normalize_heading_nonempty.
  - repeat split.
  - repeat split.
Qed.

Lemma Stage_attempts_spec E item remaining cur_retry w :
  let run := Stage_attempts (WriteChapters_exec E item) cur_retry remaining w in
  ∃ calls,
    llm_log run.1 = llm_log w ++ calls
    ∧ Forall (call_for item (chapters_written_so_far w)) calls
    ∧ match run.2 with
      | Ok body =>
          chapters_written_so_far run.1 = chapters_written_so_far w ++ [body]
          ∧ body ≠ "" ∧ calls ≠ []
      | Raise _ => chapters_written_so_far run.1 = chapters_written_so_far w
      end.
Proof.
  revert cur_retry w. induction remaining as [|r IH]; intros cur_retry w run.
  - exists []. subst run. simpl. rewrite app_nil_r. done.
  - subst run. simpl.
    destruct (WriteChapters_exec_spec E item cur_retry w) as (c & Hlog & Hc & Hres).
    destruct (WriteChapters_exec E item cur_retry w) as [w1 [body|e]]; simpl in *.
    + exists [c]. destruct Hres. split_and!; try done. by apply Forall_singleton.
    + destruct r as [|r'].
      * exists [c]. simpl. split_and!; try done. by apply Forall_singleton.
      * destruct (IH (S cur_retry) w1) as (calls & Hlog' & Hcalls & Hres').
        exists (c :: calls). rewrite Hlog', Hlog, <-app_assoc. split; [done|].
        rewrite Hres in Hcalls. split; [by constructor|].
        destruct (Stage_attempts _ _ _ w1).2; [|congruence].
        destruct Hres' as (-> & ? & ?). rewrite Hres. done.
Qed.

Lemma Batch_run_spec E max_retries items w :
  let run := Batch_run (WriteChapters_exec E) max_retries items w in
  ∃ calls_per_item new,
    llm_log run.1 = llm_log w ++ concat calls_per_item
    ∧ chapters_written_so_far run.1 = chapters_written_so_far w ++ new
    ∧ Forall (λ body, body ≠ "") new
    ∧ (∀ k calls,
         calls_per_item !! k = Some calls →
         ∃ item,
           items !! k = Some item
           ∧ Forall (call_for item (chapters_written_so_far w ++ take k new))
               calls)
    ∧ match run.2 with
      | Ok bodies =>
          bodies = new ∧ length new = length items
          ∧ length calls_per_item = length items
          ∧ Forall (λ calls, calls ≠ []) calls_per_item
      | Raise _ => True
      end.
Proof.
  revert w. induction items as [|item rest IH]; intros w run; subst run.
  - exists [], []. simpl. rewrite !app_nil_r. split_and!; try done.
  - simpl. unfold mbind, M_bind, mret, M_ret, Stage_run.
    destruct (Stage_attempts_spec E item max_retries 0 w)
      as (calls0 & Hlog0 & Hcalls0 & Hres0). simpl in *.
    destruct (Stage_attempts (WriteChapters_exec E item) 0 max_retries w)
      as [w1 [body|e]]; simpl in *.
    + destruct Hres0 as (Hch & Hbody & Hne).
      destruct (IH w1) as (calls_rest & new & Hlog & Hnew & Hall & Hctx & Hres).
      assert (∀ k calls,
                (calls0 :: calls_rest) !! k = Some calls →
                ∃ it,
                  (item :: rest) !! k = Some it
                  ∧ Forall (call_for it (chapters_written_so_far w
                                         ++ take k (body :: new))) calls) as Hall'.
      { intros [|k] calls Hk; simpl in *.
        - injection Hk as <-. exists item. by rewrite app_nil_r.
        - destruct (Hctx k calls Hk) as (it & Hit & Hcalls).
          exists it. rewrite Hch, <-app_assoc in Hcalls. done. }
      destruct (Batch_run (WriteChapters_exec E) max_retries rest w1)
        as [w2 [bodies|e]]; simpl in *.
      * exists (calls0 :: calls_rest), (body :: new). simpl.
        rewrite Hlog, Hlog0, Hnew, Hch, <-!app_assoc. simpl.
        destruct Hres as (-> & Hlen & Hlen' & Hnes).
        split_and!; try done; try by constructor.
        -- by rewrite Hlen.
        -- by rewrite Hlen'.
      * exists (calls0 :: calls_rest), (body :: new). simpl.
        rewrite Hlog, Hlog0, Hnew, Hch, <-!app_assoc. simpl.
        split_and!; try done; try by constructor.
    + exists [calls0], []. simpl. rewrite !app_nil_r.
      split_and!; try done.
      intros [|k] calls Hk; simpl in *; [|done].
      injection Hk as <-. exists item. by rewrite app_nil_r.
Qed.

(** With every index of the chapter order in range, [prep] numbers its items
    1, 2, 3, ... *)
Lemma prep_items_numbers abstractions files_data project_name language
    use_cache api_call_analysis listing filenames whole order :
  ∀ i acc items,
    prep_items abstractions files_data project_name language use_cache
      api_call_analysis listing filenames whole i order acc = Ok items →
    Forall (λ idx, 0 ≤ idx < Z.of_nat (length abstractions)) order →
    ∃ new, items = acc ++ new
           ∧ ∀ j item, new !! j = Some item →
                       item_chapter_num item = (i + j + 1)%nat.
Proof.
  induction order as [|idx rest IH]; intros i acc items Hprep Hvalid.
  - injection Hprep as <-. exists []. by rewrite app_nil_r.
  - apply Forall_cons in Hvalid as [Hidx Hvalid]. simpl in Hprep.
    assert (in_range idx (length abstractions) = true) as Hr.
    { unfold in_range. apply andb_true_intro. split; [lia|]. apply Z.ltb_lt. lia. }
    rewrite Hr in Hprep.
    destruct (abstractions !! Z.to_nat idx) as [a|] eqn:Ha.
    2:{ apply lookup_ge_None in Ha. lia. }
    result_unfold.
    destruct (mapM_result _ _) as [paths|]; [|done].
    destruct (if (0 <? i)%nat then _ else _) as [prev|]; [|done].
    destruct (if Z.of_nat i <? _ then _ else _) as [next|]; [|done].
    apply IH in Hprep as (new & -> & Hnew); [|done].
    eexists (_ :: new). rewrite <-app_assoc. split; [done|].
    intros [|j] item Hj; simpl in Hj.
    + injection Hj as <-. simpl. lia.
    + rewrite (Hnew j item Hj). lia.
Qed.

(** C5. In a run of [WriteChapters] (its [prep], then its items one after
    the other, each retried as the stage allows), the generator calls fall
    into consecutive groups, one per item.  Every call made for the item at
    position [k] (counted from 0) carries as previous-chapter context exactly
    [previous_context] of the first [k] chapter bodies the batch produced: the
    placeholder text for the first item, and for every later item those bodies
    joined with the separator.  The context is thus a function of the bodies
    of earlier chapters only.  When the chapter order is valid, the calls of
    group [k] are the prompts of chapter number [k + 1].  When the batch
    succeeds, the bodies it returns are the accumulated ones, and every item
    made at least one call. *)
Theorem WriteChapters_context (E : Env) (max_retries : nat)
    (shared : write_shared) (w : world) :
  let run := WriteChapters_run E max_retries shared w in
  let written := chapters_written_so_far run.1 in
  ∃ calls_per_item : list (list llm_call),
    llm_log run.1 = llm_log w ++ concat calls_per_item
    ∧ (∀ k calls c,
         calls_per_item !! k = Some calls → c ∈ calls →
         call_context c = Some (previous_context (take k written))
         ∧ (Forall (λ idx, 0 ≤ idx < Z.of_nat (length (ws_abstractions shared)))
              (ws_chapter_order shared) →
            call_chapter_num c = Some (k + 1)%nat))
    ∧ previous_context (take 0 written) = FIRST_CHAPTER
    ∧ (∀ k, (0 < k ≤ length written)%nat →
            previous_context (take k written)
            = PyStr.join SEPARATOR (take k written))
    ∧ match run.2 with
      | Ok bodies =>
          bodies = written
          ∧ length calls_per_item = length bodies
          ∧ Forall (λ calls, calls ≠ []) calls_per_item
      | Raise _ => True
      end.
Proof.
  intros run written. subst written run.
  unfold WriteChapters_run, mbind, M_bind, WriteChapters_prep.
  destruct (prep_all_chapters _ _ _ _ _) as [all_chapters chapter_filenames].
  destruct (prep_items _ _ _ _ _ _ _ _ _ _ _ _) as [items|e] eqn:Hprep; simpl.
  2:{ exists []. simpl. rewrite app_nil_r. split_and!; try done. intros k; lia. }
  set (w0 := {| llm_log := llm_log w; chapters_written_so_far := [] |}).
  destruct (Batch_run_spec E max_retries items w0)
    as (calls_per_item & new & Hlog & Hnew & Hall & Hctx & Hres).
  simpl in *. rewrite Hnew. exists calls_per_item.
  split_and!; try done.
  - intros k calls c Hk Hc. destruct (Hctx k calls Hk) as (item & Hitem & Hcalls).
    rewrite Forall_forall in Hcalls. destruct (Hcalls c Hc) as [Hnum Hcontext].
    split; [done|]. intros Hvalid.
    apply prep_items_numbers in Hprep as (new' & -> & Hnum'); [|done].
    rewrite Hnum. f_equal. simpl in Hitem. by rewrite (Hnum' k item Hitem).
  - intros k Hk. apply previous_context_nonempty.
    + destruct new, k; simpl in *; try done; lia.
    + by apply Forall_take.
  - destruct (Batch_run _ _ _ _).2; [|done].
    destruct Hres as (-> & Hlen & Hlen' & ?). split_and!; try done. lia.
Qed.

(** ** Chapter file names *)

Lemma zero_padded_2 n : PyStr.format_02d n = zero_padded 2 n.
Proof.
  unfold PyStr.format_02d, zero_padded.
  pose proof (str_of_nat_nonempty n) as Hne.
  destruct (PyStr.str_of_nat n) as [|a [|b s]]; done.
Qed.

Lemma code_filename i s :
  PyStr.format_02d (i + 1) +:+ "_" +:+
    str_lower (PyStr.map_chars (λ c, if str_isalnum c then c else "_"%char) s)
    +:+ ".md"
  = spec_filename 2 (i + 1) s.
Proof. unfold spec_filename, sanitize. by rewrite zero_padded_2. Qed.

Lemma prep_all_chapters_mono abstractions order :
  ∀ i acc m x, x ∈ acc → x ∈ (prep_all_chapters abstractions i order acc m).1.
Proof.
  induction order as [|idx rest IH]; intros i acc m x Hx; [done|].
  simpl. destruct (if in_range idx (length abstractions) then _ else _).
  - apply IH. apply elem_of_app. by left.
  - by apply IH.
Qed.

Lemma prep_all_chapters_entry abstractions order :
  ∀ i0 acc m j idx a,
    order !! j = Some idx → in_range idx (length abstractions) = true →
    abstractions !! Z.to_nat idx = Some a →
    toc_entry 2 (i0 + j + 1) (name a)
    ∈ (prep_all_chapters abstractions i0 order acc m).1.
Proof.
  induction order as [|idx' rest IH]; intros i0 acc m j idx a Hj Hr Ha; [done|].
  destruct j as [|j]; simpl in Hj.
  - injection Hj as ->. simpl. rewrite Hr, Ha.
    apply prep_all_chapters_mono, elem_of_app. right.
    apply list_elem_of_singleton. unfold toc_entry.
    rewrite Nat.add_0_r. by rewrite code_filename.
  - simpl. replace (i0 + S j + 1)%nat with (S i0 + j + 1)%nat by lia.
    destruct (if in_range idx' (length abstractions) then _ else _); by eapply IH.
Qed.

Lemma combine_chapters_mono abstractions contents order :
  ∀ i index acc x,
    x ∈ acc → x ∈ (combine_chapters abstractions contents i order index acc).2.
Proof.
  induction order as [|idx rest IH]; intros i index acc x Hx; [done|].
  simpl. destruct (if in_range idx (length abstractions) then _ else _) as [a|];
    [destruct (contents !! i)|].
  - apply IH. apply elem_of_app. by left.
  - by apply IH.
  - by apply IH.
Qed.

Lemma combine_chapters_entry abstractions contents order :
  ∀ i0 index acc j idx a body,
    order !! j = Some idx → in_range idx (length abstractions) = true →
    abstractions !! Z.to_nat idx = Some a →
    contents !! (i0 + j)%nat = Some body →
    ∃ content,
      {| cf_filename := spec_filename 2 (i0 + j + 1) (name a);
         cf_content := content |}
      ∈ (combine_chapters abstractions contents i0 order index acc).2.
Proof.
  induction order as [|idx' rest IH]; intros i0 index acc j idx a body Hj Hr Ha Hb;
    [done|].
  destruct j as [|j]; simpl in Hj.
  - injection Hj as ->. simpl. rewrite Nat.add_0_r in Hb. rewrite Hr, Ha, Hb.
    eexists. apply combine_chapters_mono, elem_of_app. right.
    apply list_elem_of_singleton. rewrite Nat.add_0_r. by rewrite code_filename.
  - simpl. replace (i0 + S j + 1)%nat with (S i0 + j + 1)%nat by lia.
    replace (i0 + S j)%nat with (S i0 + j)%nat in Hb by lia.
    destruct (if in_range idx' (length abstractions) then _ else _) as [a'|];
      [destruct (contents !! i0)|]; by eapply IH.
Qed.

(** C6, amended.  For the chapter at position [i + 1] of the chapter order,
    over an abstraction named [s] and with a generated body, the link in the
    table of contents of [WriteChapters.prep] and the file prepared by
    [CombineTutorial.prep] use the same filename, whatever the Unicode tables
    of the interpreter: the position padded with zeros to at least two
    digits, whatever the number of chapters, then an underscore, then [s]
    with every character that is not alphanumeric replaced by an underscore
    and the result lower-cased, then [.md]. *)
Theorem chapter_filenames_agree (shared : combine_shared) (i : nat) (idx : Z)
    (a : abstraction) (body : string) :
  cs_chapter_order shared !! i = Some idx →
  0 ≤ idx < Z.of_nat (length (cs_abstractions shared)) →
  cs_abstractions shared !! Z.to_nat idx = Some a →
  cs_chapters shared !! i = Some body →
  toc_entry 2 (i + 1) (name a)
  ∈ (prep_all_chapters (cs_abstractions shared) 0 (cs_chapter_order shared) [] ∅).1
  ∧ ∃ content,
      {| cf_filename := spec_filename 2 (i + 1) (name a); cf_content := content |}
      ∈ chapter_files (CombineTutorial_prep shared).
Proof.
  intros Hi Hidx Ha Hbody.
  assert (in_range idx (length (cs_abstractions shared)) = true) as Hr.
  { unfold in_range. apply andb_true_intro. split; [lia|]. apply Z.ltb_lt. lia. }
  split.
  - by apply (prep_all_chapters_entry _ _ 0 [] ∅ i idx a).
  - unfold CombineTutorial_prep.
    match goal with
    | |- context [combine_chapters ?ab ?co 0 ?or ?ix []] =>
        destruct (combine_chapters_entry ab co or 0 ix [] i idx a body)
          as [content Hc]; try done;
        destruct (combine_chapters ab co 0 or ix []) as [ic files] eqn:Hcomb
    end.
    exists content. done.
Qed.

(** * Further properties *)

(** ** Relationships *)

Lemma validate_relationship_Ok n rel r :
  validate_relationship n rel = Ok r →
  (0 ≤ rel_from r < Z.of_nat n) ∧ (0 ≤ rel_to r < Z.of_nat n)
  ∧ ∃ d from_v to_v,
      rel = YDict d
      ∧ dict_get d "label" = Some (YStr (rel_label r))
      ∧ dict_get d "from_abstraction" = Some from_v
      ∧ dict_get d "to_abstraction" = Some to_v
      ∧ parse_relationship_index from_v = Ok (rel_from r)
      ∧ parse_relationship_index to_v = Ok (rel_to r).
Proof.
  unfold validate_relationship, except_ValueError_TypeError, in_range.
  result_unfold.
  destruct rel as [| | | | | |d]; try done.
  destruct (has_keys d _); simpl; [|done].
  destruct (dict_get d "label") as [[| | | |label| |]|] eqn:Hl; try done;
    destruct (dict_get d "from_abstraction") as [from_v|] eqn:Hf; try done;
    destruct (dict_get d "to_abstraction") as [to_v|] eqn:Ht; try done.
  destruct (parse_relationship_index from_v) as [i|[]] eqn:Hi; try done.
  destruct (parse_relationship_index to_v) as [j|[]] eqn:Hj; try done.
  destruct (0 <=? i) eqn:?, (i <? Z.of_nat n) eqn:?, (0 <=? j) eqn:?,
    (j <? Z.of_nat n) eqn:?; simpl; try done.
  intros [= <-]. simpl. split_and!; try lia.
  by exists d, from_v, to_v.
Qed.

Lemma validate_relationships_spec n rels validated result :
  validate_relationships n rels validated = Ok result →
  ∃ new, result = validated ++ new
         ∧ Forall2 (λ rel r, validate_relationship n rel = Ok r) rels new.
Proof.
  revert validated. induction rels as [|rel rest IH]; intros validated.
  - intros [= <-]. exists []. by rewrite app_nil_r.
  - simpl. result_unfold.
    destruct (validate_relationship n rel) as [r|] eqn:Hrel; [|done].
    intros (new & -> & Hnew)%IH. exists (r :: new).
    rewrite <-app_assoc. split; [done|]. by constructor.
Qed.


(** X2. The check of one relationship never raises the message that names
    the offending indices and the maximum index: it is raised inside the
    [try] block and replaced by the could-not-parse message.  With the
    indices of an entry parsed, the check raises exactly when one of them is
    out of range, and then with the could-not-parse message for that entry. *)
Theorem relationship_index_error_is_replaced (n : nat) (rel : yaml) :
  (∀ i j m,
     validate_relationship n rel
     ≠ Raise (ValueError (Invalid_index_in_relationship i j m)))
  ∧ ∀ d label from_v to_v i j,
      rel = YDict d →
      has_keys d ["from_abstraction"; "to_abstraction"; "label"] = true →
      dict_get d "label" = Some (YStr label) →
      dict_get d "from_abstraction" = Some from_v →
      dict_get d "to_abstraction" = Some to_v →
      parse_relationship_index from_v = Ok i →
      parse_relationship_index to_v = Ok j →
      validate_relationship n rel
      = if in_range i n && in_range j n
        then Ok {| rel_from := i; rel_to := j; rel_label := label |}
        else Raise (ValueError (Could_not_parse_indices_from_relationship rel)).
Proof.
  split.
  - intros i j m. unfold validate_relationship, except_ValueError_TypeError.
    result_unfold. destruct rel as [| | | | | |d]; try done.
    destruct (has_keys d _); simpl; [|done].
    destruct (dict_get d "label") as [[| | | |label| |]|]; try done;
      destruct (dict_get d "from_abstraction") as [from_v|]; try done;
      destruct (dict_get d "to_abstraction") as [to_v|]; try done.
    destruct (parse_relationship_index from_v) as [a|[]]; try done.
    destruct (parse_relationship_index to_v) as [b|[]]; try done.
    by destruct (in_range a n && in_range b n).
  - intros d label from_v to_v i j -> Hk Hl Hf Ht Hi Hj.
    unfold validate_relationship, except_ValueError_TypeError. result_unfold.
    rewrite Hk, Hl, Hf, Ht, Hi, Hj. simpl.
    by destruct (in_range i n && in_range j n).
Qed.

(** ** Printing and parsing integers *)

Lemma int_digits_uint d : ∀ acc b,
  d ≠ Decimal.Nil ∨ b = true →
  PyStr.int_digits acc b (NilEmpty.string_of_uint d) = Some (uint_value d acc).
Proof.
  induction d as [|d IH|d IH|d IH|d IH|d IH|d IH|d IH|d IH|d IH|d IH];
    intros acc b Hb;
    [ destruct Hb as [ ? | -> ]; done
    | simpl; rewrite IH by (by right); f_equal; f_equal; lia .. ].
Qed.

Lemma nat_uint_value d : ∀ acc,
  Z.of_nat (Nat.of_uint_acc d acc) = uint_value d (Z.of_nat acc).
Proof.
  induction d as [|d IH|d IH|d IH|d IH|d IH|d IH|d IH|d IH|d IH|d IH];
    intros acc; [done|..]; simpl; rewrite IH, Nat.tail_mul_spec; f_equal; lia.
Qed.

Lemma pos_uint_value d : ∀ acc,
  Z.pos (Pos.of_uint_acc d acc) = uint_value d (Z.pos acc).
Proof.
  induction d as [|d IH|d IH|d IH|d IH|d IH|d IH|d IH|d IH|d IH|d IH];
    intros acc; [done|..]; simpl; rewrite IH; f_equal; lia.
Qed.

Lemma Z_uint_value d : Z.of_uint d = uint_value d 0.
Proof.
  unfold Z.of_uint.
  induction d as [|d IH|d IH|d IH|d IH|d IH|d IH|d IH|d IH|d IH|d IH];
    [done|by simpl; rewrite IH|simpl; by rewrite pos_uint_value ..].
Qed.

Lemma forall_chars_impl (P Q : ascii → bool) s :
  (∀ c, P c = true → Q c = true) →
  forall_chars P s = true → forall_chars Q s = true.
Proof.
  intros HPQ. induction s as [|c s IH]; [done|]. simpl.
  intros [? ?]%andb_prop. apply andb_true_intro. auto.
Qed.

Lemma forall_chars_app P s t :
  forall_chars P s = true → forall_chars P t = true →
  forall_chars P (s +:+ t) = true.
Proof.
  induction s as [|c s IH]; [done|]. rewrite str_app_cons. simpl.
  intros [? ?]%andb_prop ?. apply andb_true_intro. auto.
Qed.

Lemma forall_chars_lacks P c s :
  P c = false → forall_chars P s = true → lacks c s.
Proof.
  intros Hc. induction s as [|a s IH]; [done|]. simpl.
  intros [Ha ?]%andb_prop. apply lacks_cons. split; [|auto].
  intros ->. congruence.
Qed.

Lemma digits_of_uint d :
  forall_chars PyStr.isdigit (NilEmpty.string_of_uint d) = true.
Proof.
  induction d as [|d IH|d IH|d IH|d IH|d IH|d IH|d IH|d IH|d IH|d IH];
    [done|..]; simpl; by rewrite IH.
Qed.

Lemma digits_of_nat n : forall_chars PyStr.isdigit (PyStr.str_of_nat n) = true.
Proof.
  unfold PyStr.str_of_nat, NilZero.string_of_uint.
  destruct (Nat.to_uint n) eqn:E; [done|..]; apply digits_of_uint.
Qed.

Lemma int_chars_of_Z z : forall_chars int_char (PyStr.str_of_Z z) = true.
Proof.
  assert (∀ d, forall_chars int_char (NilZero.string_of_uint d) = true) as Hd.
  { intros d. apply (forall_chars_impl PyStr.isdigit).
    - intros c Hc. unfold int_char. by rewrite Hc.
    - unfold NilZero.string_of_uint. destruct d; [done|..]; apply digits_of_uint. }
  unfold PyStr.str_of_Z. destruct z as [|p|p]; simpl; [done|apply Hd|apply Hd].
Qed.

Lemma int_char_not_space c : int_char c = true → PyStr.isspace c = false.
Proof. destruct c as [[] [] [] [] [] [] [] []]; vm_compute; congruence. Qed.

Lemma int_char_not_hash : int_char "#" = false.
Proof. reflexivity. Qed.

Lemma lstrip_int_chars s : forall_chars int_char s = true → PyStr.lstrip s = s.
Proof.
  destruct s as [|c s]; [done|]. simpl. intros [Hc _]%andb_prop.
  by rewrite (int_char_not_space c Hc).
Qed.

Lemma rstrip_int_chars s : forall_chars int_char s = true → PyStr.rstrip s = s.
Proof.
  induction s as [|c s IH]; [done|]. simpl. intros [Hc Hs]%andb_prop.
  rewrite (IH Hs), (int_char_not_space c Hc). by destruct s.
Qed.

Lemma strip_int_chars s : forall_chars int_char s = true → PyStr.strip s = s.
Proof.
  intros H. unfold PyStr.strip. by rewrite lstrip_int_chars, rstrip_int_chars.
Qed.

Lemma rstrip_int_chars_space s :
  forall_chars int_char s = true → PyStr.rstrip (s +:+ " ") = s.
Proof.
  induction s as [|c s IH]; [done|]. rewrite str_app_cons. simpl.
  intros [Hc Hs]%andb_prop.
  rewrite (IH Hs), (int_char_not_space c Hc). by destruct s.
Qed.

Lemma strip_int_chars_space s :
  forall_chars int_char s = true → PyStr.strip (s +:+ " ") = s.
Proof.
  intros H. unfold PyStr.strip. destruct s as [|c s]; [done|].
  rewrite str_app_cons.
  replace (PyStr.lstrip (String c (s +:+ " "))) with (String c (s +:+ " ")).
  - rewrite <-str_app_cons. by apply rstrip_int_chars_space.
  - simpl in *. apply andb_prop in H as [Hc _].
    by rewrite (int_char_not_space c Hc).
Qed.

Lemma before_hash_app s t :
  lacks "#" s → before_hash (s +:+ String "#" t) = s.
Proof.
  induction s as [|c s IH].
  - done.
  - intros [Hc Hs]%lacks_cons. rewrite str_app_cons.
    change (before_hash (String c (s +:+ String "#" t)))
      with (if Ascii.eqb c "#" then "" else String c (before_hash (s +:+ String "#" t))).
    rewrite IH by done.
    destruct (Ascii.eqb_spec c "#"); [congruence|done].
Qed.

Lemma before_hash_lacks s : lacks "#" s → before_hash s = s.
Proof. apply before_hash_without_hash. Qed.

(** On text made of digits, [int] reads the digits. *)
Lemma int_of_digits s :
  forall_chars PyStr.isdigit s = true →
  PyStr.int s = PyStr.int_digits 0 false s.
Proof.
  intros Hs. unfold PyStr.int. rewrite strip_int_chars.
  - destruct s as [|c s]; [done|]. simpl in Hs. apply andb_prop in Hs as [Hc _].
    destruct c as [[] [] [] [] [] [] [] []]; try done.
  - revert Hs. apply forall_chars_impl. intros c Hc. unfold int_char. by rewrite Hc.
Qed.

Lemma int_of_uint d :
  PyStr.int (NilZero.string_of_uint d) = Some (uint_value d 0).
Proof.
  unfold NilZero.string_of_uint. destruct d eqn:E; [done|..];
    rewrite <-E; (rewrite int_of_digits by apply digits_of_uint);
    apply int_digits_uint; left; by rewrite E.
Qed.

Lemma int_str_of_nat n : PyStr.int (PyStr.str_of_nat n) = Some (Z.of_nat n).
Proof.
  unfold PyStr.str_of_nat. rewrite int_of_uint. f_equal.
  change 0 with (Z.of_nat 0). rewrite <-nat_uint_value.
  f_equal. apply DecimalNat.Unsigned.of_to.
Qed.

Lemma int_str_of_Z z : PyStr.int (PyStr.str_of_Z z) = Some z.
Proof.
  pose proof (DecimalZ.of_to z) as Hz. unfold PyStr.str_of_Z.
  destruct z as [|p|p]; [done|..]; simpl in *.
  - rewrite int_of_uint. f_equal. by rewrite <-Z_uint_value.
  - pose proof (int_chars_of_Z (Z.neg p)) as Hc.
    unfold PyStr.str_of_Z in Hc. simpl in Hc.
    unfold PyStr.int. rewrite strip_int_chars by done.
    pose proof (int_of_uint (Pos.to_uint p)) as Hd.
    rewrite int_of_digits in Hd.
    2:{ unfold NilZero.string_of_uint. destruct (Pos.to_uint p); [done|..];
        apply digits_of_uint. }
    rewrite Hd. simpl. f_equal. rewrite <-Z_uint_value. done.
Qed.

(** X3. An index written the way the prompts ask for it is read back: the
    decimal text of an integer, alone or followed by [ # ] and any comment,
    parses to that integer, as a file index, a chapter index or an index
    field of a relationship. *)
Theorem index_entry_round_trip (z : Z) (i : nat) (comment : string) :
  parse_index_entry (YStr (PyStr.str_of_Z z)) = Ok z
  ∧ parse_index_entry (YStr (PyStr.str_of_Z z +:+ " # " +:+ comment)) = Ok z
  ∧ parse_index_entry (YStr (PyStr.str_of_nat i +:+ " # " +:+ comment))
    = Ok (Z.of_nat i)
  ∧ parse_relationship_index (YInt z) = Ok z
  ∧ parse_relationship_index (YStr (PyStr.str_of_nat i +:+ " # " +:+ comment))
    = Ok (Z.of_nat i).
Proof.
  pose proof (int_chars_of_Z z) as Hz.
  assert (forall_chars int_char (PyStr.str_of_nat i) = true) as Hi.
  { apply (forall_chars_impl PyStr.isdigit); [|apply digits_of_nat].
    intros c Hc. unfold int_char. by rewrite Hc. }
  assert (∀ s, forall_chars int_char s = true →
               PyStr.strip (before_hash (s +:+ " # " +:+ comment)) = s) as Hb.
  { intros s Hs.
    replace (s +:+ " # " +:+ comment)
      with ((s +:+ " ") +:+ String "#" (" " +:+ comment))
      by (by rewrite str_app_assoc).
    rewrite before_hash_app.
    - by apply strip_int_chars_space.
    - apply lacks_app; [|done].
      by apply (forall_chars_lacks int_char). }
  assert (∀ s, forall_chars int_char s = true →
               PyStr.strip (before_hash s) = s) as Hb'.
  { intros s Hs. rewrite before_hash_lacks.
    - by apply strip_int_chars.
    - by apply (forall_chars_lacks int_char). }
  assert (∀ s, parse_relationship_index (YStr s)
               = int_or_raise (PyStr.strip (before_hash s))) as Hrel.
  { intros s. unfold parse_relationship_index. simpl.
    by destruct (split_hash_head s) as [ps ->]. }
  split_and!.
  - rewrite parse_index_entry_str, Hb' by done.
    unfold int_or_raise. by rewrite int_str_of_Z.
  - rewrite parse_index_entry_str, Hb by done.
    unfold int_or_raise. by rewrite int_str_of_Z.
  - rewrite parse_index_entry_str, Hb by done.
    unfold int_or_raise. by rewrite int_str_of_nat.
  - unfold parse_relationship_index. simpl.
    destruct (split_hash_head (PyStr.str_of_Z z)) as [ps ->]. simpl.
    rewrite Hb' by done. unfold int_or_raise. by rewrite int_str_of_Z.
  - rewrite Hrel, Hb by done. unfold int_or_raise. by rewrite int_str_of_nat.
Qed.

(** ** The content map *)

Lemma dict_lookup_set_eq {V} (d : list (string * V)) k v :
  dict_lookup (dict_set d k v) k = Some v.
Proof.
  induction d as [|[k' v'] d IH]; simpl.
  - by rewrite String.eqb_refl.
  - destruct (String.eqb k' k) eqn:E; simpl.
    + by rewrite String.eqb_refl.
    + by rewrite E.
Qed.

Lemma dict_lookup_set_ne {V} (d : list (string * V)) k k' v :
  k ≠ k' → dict_lookup (dict_set d k v) k' = dict_lookup d k'.
Proof.
  intros Hne. induction d as [|[k0 v0] d IH]; simpl.
  - by apply String.eqb_neq in Hne as ->.
  - destruct (String.eqb_spec k0 k) as [->|]; simpl.
    + by apply String.eqb_neq in Hne as ->.
    + by rewrite IH.
Qed.

Lemma dict_set_keys {V} (d : list (string * V)) k v :
  d.*1 ≡ₚ (dict_set d k v).*1 ∧ k ∈ d.*1
  ∨ (dict_set d k v).*1 = d.*1 ++ [k] ∧ k ∉ d.*1.
Proof.
  induction d as [|[k0 v0] d IH]; simpl.
  - right. split; [done|]. apply not_elem_of_nil.
  - destruct (String.eqb_spec k0 k) as [->|Hne]; simpl.
    + left. split; [done|]. apply list_elem_of_here.
    + destruct IH as [[Hp Hin]|[Heq Hnot]].
      * left. split; [by apply Permutation_skip|]. by apply list_elem_of_further.
      * right. split; [by f_equal|].
        intros [?|?]%elem_of_cons; [congruence|done].
Qed.

Lemma dict_set_NoDup {V} (d : list (string * V)) k v :
  NoDup d.*1 → NoDup (dict_set d k v).*1.
Proof.
  intros Hnd. destruct (dict_set_keys d k v) as [[Hp _]|[-> Hnot]].
  - by rewrite <-Hp.
  - apply NoDup_app. split_and!; [done| |apply NoDup_singleton].
    intros x Hx ->%list_elem_of_singleton. done.
Qed.

Lemma dict_set_elem {V} (d : list (string * V)) k v k' v' :
  (k', v') ∈ dict_set d k v → (k', v') = (k, v) ∨ (k', v') ∈ d.
Proof.
  induction d as [|[k0 v0] d IH]; simpl.
  - intros ->%list_elem_of_singleton. by left.
  - destruct (String.eqb k0 k).
    + intros [->|?]%elem_of_cons; [by left|]. right. by apply list_elem_of_further.
    + intros [->|?]%elem_of_cons; [right; apply list_elem_of_here|].
      destruct IH as [|]; [done|by left|]. right. by apply list_elem_of_further.
Qed.

Lemma int_chars_space_inj a b x y :
  forall_chars int_char a = true → forall_chars int_char b = true →
  a +:+ String " " x = b +:+ String " " y → a = b ∧ x = y.
Proof.
  revert b. induction a as [|c a IH]; intros [|c' b] Ha Hb Heq.
  - by injection Heq.
  - rewrite str_app_cons in Heq. injection Heq as <- _. done.
  - rewrite str_app_cons in Heq. injection Heq as -> _. done.
  - rewrite !str_app_cons in Heq. injection Heq as -> Heq.
    simpl in Ha, Hb. apply andb_prop in Ha as [_ Ha]. apply andb_prop in Hb as [_ Hb].
    destruct (IH b Ha Hb Heq) as [-> ->]. done.
Qed.

(** Different indices never share a key. *)
Lemma content_key_inj i j p q :
  PyStr.str_of_Z i +:+ " # " +:+ p = PyStr.str_of_Z j +:+ " # " +:+ q →
  i = j ∧ p = q.
Proof.
  intros Heq.
  apply int_chars_space_inj in Heq as [Hij Hpq]; try apply int_chars_of_Z.
  split.
  - assert (Some i = Some j) as [=]; [|done].
    by rewrite <-(int_str_of_Z i), <-(int_str_of_Z j), Hij.
  - by injection Hpq.
Qed.

Lemma content_loop_keeps files_data indices : ∀ m k c,
  dict_lookup m k = Some c →
  (∀ i path content,
     i ∈ indices → 0 ≤ i → files_data !! Z.to_nat i = Some (path, content) →
     PyStr.str_of_Z i +:+ " # " +:+ path = k → content = c) →
  dict_lookup (get_content_for_indices_loop files_data indices m) k = Some c.
Proof.
  induction indices as [|j rest IH]; intros m k c Hm Hsame; [done|].
  simpl. apply IH.
  - unfold in_range. destruct (0 <=? j) eqn:H0; simpl; [|done].
    destruct (j <? _); [|done].
    destruct (files_data !! Z.to_nat j) as [[path content]|] eqn:Hj; [|done].
    destruct (decide (PyStr.str_of_Z j +:+ " # " +:+ path = k)) as [<-|Hne].
    + rewrite dict_lookup_set_eq. f_equal.
      eapply Hsame; [apply list_elem_of_here|lia|done|done].
    + by rewrite dict_lookup_set_ne.
  - intros i path content Hi. apply Hsame. by apply list_elem_of_further.
Qed.

(** X4. Every index of the list that is in range can be looked up in the
    content map under its key, the index followed by [ # ] and the file's
    path, and gives the content of that file, also when the index is listed
    more than once or other indices are out of range. *)
Theorem get_content_for_indices_lookup (files_data : list (string * string))
    (indices : list Z) (i : Z) (path content : string) :
  i ∈ indices → 0 ≤ i →
  files_data !! Z.to_nat i = Some (path, content) →
  dict_lookup (get_content_for_indices files_data indices)
    (PyStr.str_of_Z i +:+ " # " +:+ path) = Some content.
Proof.
  unfold get_content_for_indices. generalize (@nil (string * string)).
  induction indices as [|j rest IH]; intros m Hi H0 Hfile.
  { by apply elem_of_nil in Hi. }
  destruct (decide (i ∈ rest)) as [Hrest|Hrest]; [by apply IH|].
  apply elem_of_cons in Hi as [<-|]; [|done].
  simpl. apply content_loop_keeps.
  - assert (in_range i (length files_data) = true) as ->.
    { apply lookup_lt_Some in Hfile. unfold in_range.
      apply andb_true_intro. split; [lia|]. apply Z.ltb_lt. lia. }
    rewrite Hfile. apply dict_lookup_set_eq.
  - intros j p c Hj _ Hjfile [-> ->]%content_key_inj. congruence.
Qed.

Lemma get_content_for_indices_lookup_witness :
  dict_lookup (get_content_for_indices [("a.py", "A"); ("b.py", "B")] [1; 7; 1])
    (PyStr.str_of_Z 1 +:+ " # " +:+ "b.py") = Some "B".
Proof.
  apply (get_content_for_indices_lookup [("a.py", "A"); ("b.py", "B")] [1; 7; 1]
           1 "b.py" "B"); [apply list_elem_of_here | lia | reflexivity].
Defined.

Lemma content_loop_sound files_data indices : ∀ m,
  NoDup m.*1 →
  NoDup (get_content_for_indices_loop files_data indices m).*1
  ∧ ∀ k v,
      (k, v) ∈ get_content_for_indices_loop files_data indices m →
      (k, v) ∈ m
      ∨ ∃ i path,
          i ∈ indices ∧ 0 ≤ i < Z.of_nat (length files_data)
          ∧ files_data !! Z.to_nat i = Some (path, v)
          ∧ k = PyStr.str_of_Z i +:+ " # " +:+ path.
Proof.
  induction indices as [|j rest IH]; intros m Hnd.
  { split; [done|]. intros k v ?. by left. }
  simpl. unfold in_range.
  destruct (0 <=? j) eqn:H0; simpl;
    [destruct (j <? Z.of_nat (length files_data)) eqn:H1;
     [destruct (files_data !! Z.to_nat j) as [[path content]|] eqn:Hj|]|].
  - destruct (IH (dict_set m (PyStr.str_of_Z j +:+ " # " +:+ path) content))
      as [Hnd' Hall]; [by apply dict_set_NoDup|].
    split; [done|]. intros k v Hkv.
    destruct (Hall k v Hkv) as [Hset|(i & p & Hi & ? & ? & ?)].
    + apply dict_set_elem in Hset as [[= -> ->]|]; [|by left].
      apply Z.leb_le in H0. apply Z.ltb_lt in H1.
      right. exists j, path. split_and!; try done; try lia. apply list_elem_of_here.
    + right. exists i, p. split_and!; try done; try lia. by apply list_elem_of_further.
  - destruct (IH m Hnd) as [Hnd' Hall]. split; [done|]. intros k v Hkv.
    destruct (Hall k v Hkv) as [|(i & p & Hi & ? & ? & ?)]; [by left|].
    right. exists i, p. split_and!; try done; try lia. by apply list_elem_of_further.
  - destruct (IH m Hnd) as [Hnd' Hall]. split; [done|]. intros k v Hkv.
    destruct (Hall k v Hkv) as [|(i & p & Hi & ? & ? & ?)]; [by left|].
    right. exists i, p. split_and!; try done; try lia. by apply list_elem_of_further.
  - destruct (IH m Hnd) as [Hnd' Hall]. split; [done|]. intros k v Hkv.
    destruct (Hall k v Hkv) as [|(i & p & Hi & ? & ? & ?)]; [by left|].
    right. exists i, p. split_and!; try done; try lia. by apply list_elem_of_further.
Qed.

(** X5. The content map has no repeated key, and each of its entries is the
    key and content of a file whose index is in the list and in range: an
    index below zero or beyond the last file adds nothing. *)
Theorem get_content_for_indices_sound (files_data : list (string * string))
    (indices : list Z) :
  NoDup (get_content_for_indices files_data indices).*1
  ∧ Forall (λ kv,
              ∃ i path,
                i ∈ indices ∧ 0 ≤ i < Z.of_nat (length files_data)
                ∧ files_data !! Z.to_nat i = Some (path, kv.2)
                ∧ kv.1 = PyStr.str_of_Z i +:+ " # " +:+ path)
      (get_content_for_indices files_data indices).
Proof.
  destruct (content_loop_sound files_data indices []) as [Hnd Hall];
    [constructor|].
  split; [done|]. apply Forall_forall. intros [k v] Hkv.
  destruct (Hall k v Hkv) as [Hnil|H]; [by apply elem_of_nil in Hnil|done].
Qed.

(** ** Fenced blocks *)

Lemma split_aux_cons sep skip c s :
  PyStr.split_aux sep skip (String c s)
  = match skip with
    | S k => PyStr.split_aux sep k s
    | O =>
        if String.prefix sep (String c s)
        then "" :: PyStr.split_aux sep (String.length sep - 1) s
        else match PyStr.split_aux sep 0 s with
             | p :: ps => String c p :: ps
             | [] => [String c ""]
             end
    end.
Proof. reflexivity. Qed.

Lemma split_aux_nonempty sep : ∀ s skip, PyStr.split_aux sep skip s ≠ [].
Proof.
  induction s as [|c s IH]; intros skip; [done|].
  rewrite split_aux_cons. destruct skip; [|apply IH].
  destruct (String.prefix sep (String c s)); [done|].
  by destruct (PyStr.split_aux sep 0 s).
Qed.

Lemma contains_cons sub c s :
  PyStr.contains sub (String c s)
  = String.prefix sub (String c s) || PyStr.contains sub s.
Proof. reflexivity. Qed.

Lemma split_cons sep c s :
  PyStr.split sep (String c s)
  = if String.prefix sep (String c s)
    then "" :: PyStr.split_aux sep (String.length sep - 1) s
    else match PyStr.split sep s with
         | p :: ps => String c p :: ps
         | [] => [String c ""]
         end.
Proof. reflexivity. Qed.

(** A text without the separator is not split. *)
Lemma split_without sep s :
  PyStr.contains sep s = false → PyStr.split sep s = [s].
Proof.
  induction s as [|c s IH]; [done|].
  rewrite contains_cons, split_cons. intros [-> Hs]%orb_false_elim.
  by rewrite IH.
Qed.

(** A text with the separator is split into at least two parts. *)
Lemma split_with sep s :
  sep ≠ "" → PyStr.contains sep s = true →
  ∃ a b rest, PyStr.split sep s = a :: b :: rest.
Proof.
  intros Hsep. induction s as [|c s IH].
  - by destruct sep.
  - rewrite contains_cons, split_cons.
    destruct (String.prefix sep (String c s)) eqn:Hp; simpl.
    + intros _. pose proof (split_aux_nonempty sep s (String.length sep - 1)).
      destruct (PyStr.split_aux sep (String.length sep - 1) s) as [|b rest];
        [done|]. by eexists _, _, _.
    + intros (a & b & rest & ->)%IH. by eexists _, _, _.
Qed.

Lemma lstrip_rstrip s : PyStr.lstrip s = s → PyStr.lstrip (PyStr.rstrip s) = PyStr.rstrip s.
Proof.
  destruct s as [|c s]; [done|]. simpl.
  destruct (PyStr.isspace c) eqn:Hc.
  - intros Heq. exfalso.
    assert (String.length (PyStr.lstrip s) ≤ String.length s)%nat as Hlen.
    { clear. induction s as [|a s IH]; simpl; [lia|].
      destruct (PyStr.isspace a); simpl; lia. }
    rewrite Heq in Hlen. simpl in Hlen. lia.
  - intros _. destruct (PyStr.rstrip s); simpl; by rewrite Hc.
Qed.

Lemma rstrip_idem s : PyStr.rstrip (PyStr.rstrip s) = PyStr.rstrip s.
Proof.
  induction s as [|c s IH]; [done|]. simpl.
  destruct (PyStr.rstrip s) as [|a t] eqn:E.
  - destruct (PyStr.isspace c) eqn:Hc; simpl; [done|by rewrite Hc].
  - simpl in *. rewrite IH. done.
Qed.

Lemma lstrip_idem s : PyStr.lstrip (PyStr.lstrip s) = PyStr.lstrip s.
Proof.
  induction s as [|c s IH]; [done|]. simpl.
  destruct (PyStr.isspace c) eqn:Hc; [done|]. simpl. by rewrite Hc.
Qed.

(** Stripping twice is stripping once. *)
Lemma strip_idem s : PyStr.strip (PyStr.strip s) = PyStr.strip s.
Proof.
  unfold PyStr.strip.
  rewrite (lstrip_rstrip (PyStr.lstrip s)) by apply lstrip_idem.
  apply rstrip_idem.
Qed.

(** X6. The extraction used by the three validating stages raises
    [IndexError] exactly when the stripped reply has no [```yaml] fence;
    otherwise it returns a text without surrounding whitespace. *)
Theorem fenced_yaml_cases (response : string) :
  (PyStr.contains "```yaml" (PyStr.strip response) = false →
   fenced_yaml response = Raise IndexError)
  ∧ (PyStr.contains "```yaml" (PyStr.strip response) = true →
     ∃ body, fenced_yaml response = Ok body ∧ PyStr.strip body = body).
Proof.
  unfold fenced_yaml. split.
  - intros H. by rewrite (split_without _ _ H).
  - intros H. apply split_with in H as (a & b & rest & ->); [|done]. simpl.
    pose proof (split_aux_nonempty "```" b 0) as Hne. unfold PyStr.split.
    destruct (PyStr.split_aux "```" 0 b) as [|body ?]; [done|]. simpl.
    eexists. split; [done|apply strip_idem].
Qed.

(** X7. The extraction used by the two per-file analyses never raises: with
    a [```yaml] fence it returns what follows the fence up to the next fence,
    with only a plain fence what follows it, and without any fence the reply
    itself; in each case stripped. *)
Theorem fenced_or_whole_total (response : string) :
  (∃ yaml_str,
     fenced_or_whole response = Ok yaml_str ∧ PyStr.strip yaml_str = yaml_str)
  ∧ (PyStr.contains "```" (PyStr.strip response) = false →
     fenced_or_whole response = Ok (PyStr.strip response)).
Proof.
  unfold fenced_or_whole. split.
  - destruct (PyStr.contains "```yaml" (PyStr.strip response)) eqn:Hy.
    + apply split_with in Hy as (a & b & rest & ->); [|done]. simpl.
      pose proof (split_aux_nonempty "```" b 0) as Hne. unfold PyStr.split.
      destruct (PyStr.split_aux "```" 0 b) as [|body ?]; [done|]. simpl.
      eexists. split; [done|apply strip_idem].
    + destruct (PyStr.contains "```" (PyStr.strip response)) eqn:Hf.
      * apply split_with in Hf as (a & b & rest & ->); [|done]. simpl.
        eexists. split; [done|apply strip_idem].
      * eexists. split; [done|apply strip_idem].
  - intros Hf.
    destruct (PyStr.contains "```yaml" (PyStr.strip response)) eqn:Hy;
      [|by rewrite Hf].
    exfalso. clear -Hy Hf. revert Hy Hf.
    generalize (PyStr.strip response). intros s.
    induction s as [|c s IH]; [done|].
    rewrite !contains_cons. intros Hy [Hp Hs]%orb_false_elim.
    apply orb_prop in Hy as [Hy|Hy]; [|by apply IH].
    assert (String.prefix "```" (String c s) = true); [|congruence].
    apply (prefix_trans _ "```yaml"); done.
Qed.

(** ** Heading normalisation, continued *)

Lemma normalize_heading_prefix k s reply :
  PyStr.startswith (PyStr.strip (normalize_heading k s reply))
    ("# Chapter " +:+ PyStr.str_of_nat k) = true.
Proof.
  assert (∀ t, PyStr.startswith
                 (PyStr.strip
                    (("# Chapter " +:+ PyStr.str_of_nat k +:+ ": " +:+ s) +:+ t))
                 ("# Chapter " +:+ PyStr.str_of_nat k) = true) as Hh.
  { intros t. rewrite <-!str_app_assoc.
    rewrite (str_app_assoc _ ": "), (str_app_assoc _ (": " +:+ s)).
    apply strip_keeps_chapter_prefix. }
  unfold normalize_heading.
  destruct (PyStr.startswith (PyStr.strip reply) _) eqn:Hstart; cbn [negb];
    [done|].
  destruct (PyStr.split NL (PyStr.strip reply)) as [|first_line rest]; [apply Hh|].
  destruct (PyStr.startswith (PyStr.strip first_line) "#"); [|apply Hh].
  destruct (join_cons NL ("# Chapter " +:+ PyStr.str_of_nat k +:+ ": " +:+ s) rest)
    as [t ->]. apply Hh.
Qed.

(** X8. Normalising a chapter that has been normalised changes nothing. *)
Theorem normalize_heading_idempotent (k : nat) (s reply : string) :
  normalize_heading k s (normalize_heading k s reply)
  = normalize_heading k s reply.
Proof.
  pose proof (normalize_heading_prefix k s reply) as H.
  unfold normalize_heading at 1. by rewrite H.
Qed.

Lemma join_cons_tail sep x rest :
  PyStr.join sep (x :: rest) = x +:+ join_tail sep rest.
Proof. destruct rest; simpl; [by rewrite str_app_nil_r|done]. Qed.

Lemma split_char_parts c s first_part rest :
  PyStr.split (String c "") s = first_part :: rest →
  s = first_part +:+ join_tail (String c "") rest ∧ lacks c first_part.
Proof.
  revert first_part rest. induction s as [|a s IH]; intros first_part rest.
  - intros [= <- <-]. done.
  - rewrite split_cons, prefix_cons, prefix_nil, andb_true_r. simpl.
    destruct (Ascii.eqb_spec c a) as [->|Hne].
    + intros [= <- <-]. pose proof (split_aux_nonempty (String a "") s 0) as Hne.
      fold (PyStr.split (String a "") s) in *.
      destruct (PyStr.split (String a "") s) as [|p ps] eqn:Hs; [done|].
      destruct (IH p ps eq_refl) as [-> _]. split; [|done].
      unfold join_tail. by rewrite join_cons_tail.
    + pose proof (split_aux_nonempty (String c "") s 0) as Hne'.
      fold (PyStr.split (String c "") s) in *.
      destruct (PyStr.split (String c "") s) as [|p ps] eqn:Hs; [done|].
      intros [= <- <-]. destruct (IH p ps eq_refl) as [-> Hl].
      split; [done|]. apply lacks_cons. done.
Qed.

(** X9. When the reply, stripped, begins with some heading other than the
    expected chapter prefix, normalisation replaces its first line only: the
    result is the expected heading followed by everything that came after
    the first line of the stripped reply. *)
Theorem normalize_heading_keeps_rest (k : nat) (s reply : string) :
  PyStr.startswith (PyStr.strip reply) ("# Chapter " +:+ PyStr.str_of_nat k)
  = false →
  PyStr.startswith (PyStr.strip reply) "#" = true →
  ∃ first_line rest,
    PyStr.strip reply = first_line +:+ rest
    ∧ lacks "010" first_line
    ∧ (rest = "" ∨ PyStr.startswith rest NL = true)
    ∧ normalize_heading k s reply
      = ("# Chapter " +:+ PyStr.str_of_nat k +:+ ": " +:+ s) +:+ rest.
Proof.
  intros Hnot Hhash. unfold normalize_heading. rewrite Hnot. cbn [negb].
  pose proof (split_aux_nonempty NL (PyStr.strip reply) 0) as Hne.
  fold (PyStr.split NL (PyStr.strip reply)) in Hne.
  destruct (PyStr.split NL (PyStr.strip reply)) as [|first_line rest] eqn:Hsplit;
    [done|].
  apply split_char_parts in Hsplit as [Heq Hl].
  assert (PyStr.startswith (PyStr.strip first_line) "#" = true) as ->.
  { rewrite Heq in Hhash. unfold PyStr.startswith in *.
    destruct first_line as [|c f].
    - destruct rest; [done|]. by vm_compute in Hhash.
    - rewrite str_app_cons, prefix_cons, prefix_nil, andb_true_r in Hhash.
      apply Ascii.eqb_eq in Hhash as <-.
      unfold PyStr.strip. simpl. destruct (PyStr.rstrip f); done. }
  exists first_line, (join_tail NL rest). split_and!; try done.
  - destruct rest; [by left|right]. apply prefix_app.
  - apply join_cons_tail.
Qed.

Lemma normalize_heading_keeps_rest_witness :
  ∃ first_line rest,
    PyStr.strip ("## Overview" +:+ NL +:+ "text") = first_line +:+ rest
    ∧ lacks "010" first_line
    ∧ (rest = "" ∨ PyStr.startswith rest NL = true)
    ∧ normalize_heading 2 "Cache" ("## Overview" +:+ NL +:+ "text")
      = ("# Chapter " +:+ PyStr.str_of_nat 2 +:+ ": " +:+ "Cache") +:+ rest.
Proof.
  apply (normalize_heading_keeps_rest 2 "Cache" ("## Overview" +:+ NL +:+ "text"));
    reflexivity.
Defined.

(** ** The items of the chapter batch *)

Lemma in_range_spec idx n : in_range idx n = true ↔ 0 ≤ idx < Z.of_nat n.
Proof.
  unfold in_range. rewrite andb_true_iff, Z.leb_le, Z.ltb_lt. done.
Qed.

Lemma prep_all_chapters_untouched abstractions order : ∀ i acc m idx,
  idx ∉ order →
  (prep_all_chapters abstractions i order acc m).2 !! idx = m !! idx.
Proof.
  induction order as [|idx' rest IH]; intros i acc m idx Hnot; [done|].
  apply not_elem_of_cons in Hnot as [Hne Hnot]. simpl.
  destruct (if in_range idx' (length abstractions) then _ else _).
  - rewrite IH by done. by rewrite lookup_insert_ne.
  - by apply IH.
Qed.

Lemma prep_all_chapters_keys abstractions order : ∀ i acc m idx,
  is_Some ((prep_all_chapters abstractions i order acc m).2 !! idx) →
  is_Some (m !! idx) ∨ in_range idx (length abstractions) = true.
Proof.
  induction order as [|idx' rest IH]; intros i acc m idx; [by left|].
  simpl. destruct (in_range idx' (length abstractions)) eqn:Hr;
    [destruct (abstractions !! Z.to_nat idx')|].
  - intros [H|H]%IH; [|by right].
    destruct (decide (idx' = idx)) as [<-|Hne]; [by right|].
    rewrite lookup_insert_ne in H by done. by left.
  - apply IH.
  - apply IH.
Qed.

Lemma prep_all_chapters_lookup abstractions order : ∀ i0 acc m j idx a,
  NoDup order → order !! j = Some idx →
  in_range idx (length abstractions) = true →
  abstractions !! Z.to_nat idx = Some a →
  (prep_all_chapters abstractions i0 order acc m).2 !! idx
  = Some {| ci_num := i0 + j + 1; ci_name := name a;
            ci_filename := spec_filename 2 (i0 + j + 1) (name a) |}.
Proof.
  induction order as [|idx' rest IH]; intros i0 acc m j idx a Hnd Hj Hr Ha;
    [done|].
  apply NoDup_cons in Hnd as [Hnot Hnd]. destruct j as [|j]; simpl in Hj.
  - injection Hj as ->. simpl. rewrite Hr, Ha.
    rewrite prep_all_chapters_untouched by done.
    rewrite lookup_insert_eq, Nat.add_0_r. by rewrite code_filename.
  - simpl. replace (i0 + S j + 1)%nat with (S i0 + j + 1)%nat by lia.
    destruct (if in_range idx' (length abstractions) then _ else _);
      by apply IH.
Qed.

Lemma py_index_lookup {A} (l : list A) (p : nat) x :
  l !! p = Some x → py_index l (Z.of_nat p) = Ok x.
Proof.
  intros Hp. unfold py_index. pose proof (lookup_lt_Some _ _ _ Hp).
  destruct (Z.of_nat p <? 0) eqn:E; [apply Z.ltb_lt in E; lia|].
  replace (0 <=? Z.of_nat p) with true by (symmetry; apply Z.leb_le; lia).
  replace (Z.of_nat p <? Z.of_nat (length l)) with true
    by (symmetry; apply Z.ltb_lt; lia).
  simpl. by rewrite Nat2Z.id, Hp.
Qed.

(** [prep] gives up when an index out of range stands next to one in range:
    the neighbour's entry is missing from [chapter_filenames]. *)
Lemma prep_items_bad_neighbour abstractions files_data project_name language
    use_cache api_call_analysis listing whole j good bad :
  let filenames := (prep_all_chapters abstractions 0 whole [] ∅).2 in
  whole !! j = Some good → in_range good (length abstractions) = true →
  in_range bad (length abstractions) = false →
  ((0 < j)%nat ∧ whole !! (j - 1)%nat = Some bad) ∨ whole !! (S j) = Some bad →
  ∀ rest i acc,
    rest = drop i whole → (i ≤ j)%nat →
    ∃ e,
      prep_items abstractions files_data project_name language use_cache
        api_call_analysis listing filenames whole i rest acc = Raise e.
Proof.
  intros filenames Hgood Hr Hbad Hnb.
  assert (filenames_lookup filenames bad = Raise KeyError) as Hkey.
  { unfold filenames_lookup.
    destruct (filenames !! bad) eqn:E; [|done].
    destruct (prep_all_chapters_keys abstractions whole 0 [] ∅ bad) as [H|H].
    - unfold filenames in E. by rewrite E.
    - by rewrite lookup_empty in H; destruct H.
    - congruence. }
  induction rest as [|idx rest IH]; intros i acc Hdrop Hij.
  { apply lookup_lt_Some in Hgood.
    assert (length (drop i whole) = 0%nat) as Hlen by by rewrite <-Hdrop.
    rewrite length_drop in Hlen. lia. }
  assert (whole !! i = Some idx) as Hi.
  { pose proof (lookup_drop whole i 0) as H0.
    rewrite Nat.add_0_r, <-Hdrop in H0. done. }
  assert (rest = drop (S i) whole) as Hrest.
  { pose proof (drop_drop whole 1 i) as H1.
    rewrite <-Hdrop in H1. change (rest = drop (i + 1) whole) in H1.
    rewrite H1. f_equal. lia. }
  simpl. destruct (decide (i = j)) as [->|Hne].
  - rewrite Hgood in Hi. injection Hi as <-.
    rewrite Hr. apply in_range_spec in Hr.
    destruct (abstractions !! Z.to_nat good) as [a|] eqn:Ha.
    2:{ apply lookup_ge_None in Ha. lia. }
    result_unfold.
    destruct (mapM_result _ _) as [paths|]; [|by eexists].
    destruct Hnb as [[Hj Hprev]|Hnext].
    + replace (0 <? j)%nat with true by (symmetry; apply Nat.ltb_lt; lia).
      replace (Z.of_nat j - 1) with (Z.of_nat (j - 1)) by lia.
      rewrite (py_index_lookup _ _ _ Hprev), Hkey. by eexists.
    + destruct (if (0 <? j)%nat then _ else _) as [prev|]; [|by eexists].
      apply lookup_lt_Some in Hnext as Hlen.
      replace (Z.of_nat j <? Z.of_nat (length whole) - 1) with true
        by (symmetry; apply Z.ltb_lt; lia).
      replace (Z.of_nat j + 1) with (Z.of_nat (S j)) by lia.
      rewrite (py_index_lookup _ _ _ Hnext), Hkey. by eexists.
  - assert (S i ≤ j)%nat as Hle by lia.
    destruct (if in_range idx (length abstractions) then _ else _) as [a|].
    + result_unfold.
      destruct (mapM_result _ _) as [paths|]; [|by eexists].
      destruct (if (0 <? i)%nat then _ else _) as [prev|]; [|by eexists].
      destruct (if Z.of_nat i <? _ then _ else _) as [next|]; [|by eexists].
      by apply IH.
    + by apply IH.
Qed.

(** X10. [WriteChapters.prep] does not survive a chapter order in which an
    index out of range stands directly before or after one in range: the
    entry is skipped when the table of contents is built, so the look-up of
    the neighbouring chapter fails and [prep] raises instead of returning
    items. *)
Theorem WriteChapters_prep_bad_neighbour (shared : write_shared) (w : world)
    (j : nat) (good bad : Z) :
  ws_chapter_order shared !! j = Some good →
  in_range good (length (ws_abstractions shared)) = true →
  in_range bad (length (ws_abstractions shared)) = false →
  ((0 < j)%nat ∧ ws_chapter_order shared !! (j - 1)%nat = Some bad)
  ∨ ws_chapter_order shared !! (S j) = Some bad →
  ∃ e, (WriteChapters_prep shared w).2 = Raise e.
Proof.
  intros Hgood Hr Hbad Hnb. unfold WriteChapters_prep.
  pose proof (prep_items_bad_neighbour (ws_abstractions shared) (ws_files shared)
                (ws_project_name shared) (ws_language shared)
                (ws_use_cache shared) (ws_api_call_analysis shared)) as H.
  destruct (prep_all_chapters _ _ _ _ _) as [all_chapters filenames] eqn:Hprep.
  simpl.
  specialize (H (PyStr.join NL all_chapters) (ws_chapter_order shared) j good bad
                Hgood Hr Hbad Hnb (ws_chapter_order shared) 0%nat []).
  rewrite Hprep in H. simpl in H. apply H; [done|lia].
Qed.

Lemma mapM_result_paths (files_data : list (string * string)) (indices : list Z) :
  Forall (λ idx, 0 ≤ idx < Z.of_nat (length files_data)) indices →
  ∃ paths, mapM_result (λ idx, fst <$> py_index files_data idx) indices = Ok paths.
Proof.
  induction 1 as [|idx rest Hidx _ [paths IH]]; [by eexists|].
  simpl. result_unfold.
  destruct (lookup_lt_is_Some_2 files_data (Z.to_nat idx)) as [x Hx]; [lia|].
  pose proof (py_index_lookup _ _ _ Hx) as Hpy.
  rewrite Z2Nat.id in Hpy by lia. rewrite Hpy, IH. by eexists.
Qed.

Lemma chapter_info_at_lookup abstractions whole p idx :
  NoDup whole →
  Forall (λ idx, 0 ≤ idx < Z.of_nat (length abstractions)) whole →
  whole !! p = Some idx →
  filenames_lookup (prep_all_chapters abstractions 0 whole [] ∅).2 idx
  = match chapter_info_at abstractions whole p with
    | Some info => Ok info
    | None => Raise KeyError
    end.
Proof.
  intros Hnd Hvalid Hp. unfold chapter_info_at, filenames_lookup. rewrite Hp. simpl.
  rewrite Forall_forall in Hvalid.
  assert (0 ≤ idx < Z.of_nat (length abstractions)) as Hidx.
  { apply Hvalid. by eapply list_elem_of_lookup_2. }
  destruct (lookup_lt_is_Some_2 abstractions (Z.to_nat idx)) as [a Ha]; [lia|].
  rewrite Ha. simpl.
  rewrite (prep_all_chapters_lookup abstractions whole 0 [] ∅ p idx a); try done.
  by apply in_range_spec.
Qed.

Lemma prep_items_ok abstractions files_data project_name language use_cache
    api_call_analysis listing whole :
  let filenames := (prep_all_chapters abstractions 0 whole [] ∅).2 in
  NoDup whole →
  Forall (λ idx, 0 ≤ idx < Z.of_nat (length abstractions)) whole →
  Forall (λ a, Forall (λ idx, 0 ≤ idx < Z.of_nat (length files_data)) (files a))
    abstractions →
  ∀ rest i acc,
    rest = drop i whole →
    ∃ new,
      prep_items abstractions files_data project_name language use_cache
        api_call_analysis listing filenames whole i rest acc = Ok (acc ++ new)
      ∧ length new = length rest
      ∧ ∀ j item, new !! j = Some item →
                  item_for abstractions whole (i + j) item.
Proof.
  intros filenames Hnd Hvalid Hfiles.
  induction rest as [|idx rest IH]; intros i acc Hdrop.
  { exists []. rewrite app_nil_r. done. }
  assert (whole !! i = Some idx) as Hi.
  { pose proof (lookup_drop whole i 0) as H0.
    rewrite Nat.add_0_r, <-Hdrop in H0. done. }
  assert (rest = drop (S i) whole) as Hrest.
  { pose proof (drop_drop whole 1 i) as H1.
    rewrite <-Hdrop in H1. change (rest = drop (i + 1) whole) in H1.
    rewrite H1. f_equal. lia. }
  assert (0 ≤ idx < Z.of_nat (length abstractions)) as Hidx.
  { rewrite Forall_forall in Hvalid. apply Hvalid.
    by eapply list_elem_of_lookup_2. }
  destruct (lookup_lt_is_Some_2 abstractions (Z.to_nat idx)) as [a Ha]; [lia|].
  simpl. rewrite (proj2 (in_range_spec idx _) Hidx), Ha.
  destruct (mapM_result_paths files_data (files a)) as [paths ->].
  { rewrite Forall_forall in Hfiles. apply Hfiles.
    by eapply list_elem_of_lookup_2. }
  result_unfold.
  assert ((if (0 <? i)%nat
           then match py_index whole (Z.of_nat i - 1) with
                | Ok prev_idx =>
                    match filenames_lookup filenames prev_idx with
                    | Ok c => Ok (Some c)
                    | Raise e => Raise e
                    end
                | Raise e => Raise e
                end
           else Ok None)
          = Ok (match i with
                | O => None
                | S p => chapter_info_at abstractions whole p
                end)) as ->.
  { destruct i as [|p]; [done|].
    replace (0 <? S p)%nat with true by done.
    replace (Z.of_nat (S p) - 1) with (Z.of_nat p) by lia.
    destruct (lookup_lt_is_Some_2 whole p) as [pidx Hp].
    { apply lookup_lt_Some in Hi. lia. }
    rewrite (py_index_lookup _ _ _ Hp).
    unfold filenames. rewrite (chapter_info_at_lookup _ _ p) by done.
    destruct (chapter_info_at abstractions whole p) eqn:E; [done|].
    exfalso. unfold chapter_info_at in E. rewrite Hp in E. simpl in E.
    rewrite Forall_forall in Hvalid.
    assert (0 ≤ pidx < Z.of_nat (length abstractions)) as Hpidx.
    { apply Hvalid. by eapply list_elem_of_lookup_2. }
    destruct (lookup_lt_is_Some_2 abstractions (Z.to_nat pidx)) as [pa Hpa];
      [lia|]. by rewrite Hpa in E. }
  assert ((if Z.of_nat i <? Z.of_nat (length whole) - 1
           then match py_index whole (Z.of_nat i + 1) with
                | Ok next_idx =>
                    match filenames_lookup filenames next_idx with
                    | Ok c => Ok (Some c)
                    | Raise e => Raise e
                    end
                | Raise e => Raise e
                end
           else Ok None)
          = Ok (chapter_info_at abstractions whole (S i))) as ->.
  { destruct (Z.of_nat i <? Z.of_nat (length whole) - 1) eqn:E.
    - apply Z.ltb_lt in E.
      destruct (lookup_lt_is_Some_2 whole (S i)) as [nidx Hn]; [lia|].
      replace (Z.of_nat i + 1) with (Z.of_nat (S i)) by lia.
      rewrite (py_index_lookup _ _ _ Hn).
      unfold filenames. rewrite (chapter_info_at_lookup _ _ (S i)) by done.
      destruct (chapter_info_at abstractions whole (S i)) eqn:E'; [done|].
      exfalso. unfold chapter_info_at in E'. rewrite Hn in E'. simpl in E'.
      rewrite Forall_forall in Hvalid.
      assert (0 ≤ nidx < Z.of_nat (length abstractions)) as Hnidx.
      { apply Hvalid. by eapply list_elem_of_lookup_2. }
      destruct (lookup_lt_is_Some_2 abstractions (Z.to_nat nidx)) as [na Hna];
        [lia|]. by rewrite Hna in E'.
    - apply Z.ltb_ge in E. unfold chapter_info_at.
      rewrite (lookup_ge_None_2 whole (S i)) by lia. done. }
  match goal with
  | |- context [prep_items _ _ _ _ _ _ _ _ _ (S i) rest (acc ++ [?it])] =>
      destruct (IH (S i) (acc ++ [it]) Hrest) as (new & -> & Hlen & Hnew);
      exists (it :: new)
  end.
  rewrite <-app_assoc. split_and!; [done|by simpl; rewrite Hlen|].
  intros [|j] item Hj; simpl in Hj.
  - injection Hj as <-. rewrite Nat.add_0_r. by exists idx, a.
  - replace (i + S j)%nat with (S i + j)%nat by lia. by apply Hnew.
Qed.

(** X11. With a chapter order that lists distinct indices in range, and
    abstractions whose file indices are in range, [WriteChapters.prep]
    returns one item per entry of the order, in order.  The item at position
    [pos] has chapter number [pos + 1] and the abstraction the order names
    there; its previous chapter is absent for the first item and otherwise the
    number, name and filename of the chapter before it, and its next chapter
    is absent for the last item and otherwise those of the chapter after
    it. *)
Theorem WriteChapters_prep_items (shared : write_shared) (w : world) :
  NoDup (ws_chapter_order shared) →
  Forall (λ idx, 0 ≤ idx < Z.of_nat (length (ws_abstractions shared)))
    (ws_chapter_order shared) →
  Forall (λ a, Forall (λ idx, 0 ≤ idx < Z.of_nat (length (ws_files shared)))
                 (files a))
    (ws_abstractions shared) →
  ∃ items,
    (WriteChapters_prep shared w).2 = Ok items
    ∧ length items = length (ws_chapter_order shared)
    ∧ ∀ pos item,
        items !! pos = Some item →
        item_for (ws_abstractions shared) (ws_chapter_order shared) pos item.
Proof.
  intros Hnd Hvalid Hfiles. unfold WriteChapters_prep.
  pose proof (prep_items_ok (ws_abstractions shared) (ws_files shared)
                (ws_project_name shared) (ws_language shared)
                (ws_use_cache shared) (ws_api_call_analysis shared)) as H.
  destruct (prep_all_chapters _ _ _ _ _) as [all_chapters filenames] eqn:Hprep.
  simpl.
  specialize (H (PyStr.join NL all_chapters) (ws_chapter_order shared)
                Hnd Hvalid Hfiles (ws_chapter_order shared) 0%nat [] eq_refl).
  rewrite Hprep in H. simpl in H. destruct H as (new & -> & Hlen & Hnew).
  exists new. done.
Qed.

(** ** The chapter files *)

Lemma sep_inj (P : ascii → bool) c a b x y :
  P c = false →
  forall_chars P a = true → forall_chars P b = true →
  a +:+ String c x = b +:+ String c y → a = b ∧ x = y.
Proof.
  intros Hc. revert b. induction a as [|c1 a IH]; intros [|c2 b] Ha Hb Heq.
  - by injection Heq.
  - rewrite str_app_cons in Heq. injection Heq as <- _. simpl in Hb.
    apply andb_prop in Hb as [Hb _]. congruence.
  - rewrite str_app_cons in Heq. injection Heq as -> _. simpl in Ha.
    apply andb_prop in Ha as [Ha _]. congruence.
  - rewrite !str_app_cons in Heq. injection Heq as -> Heq.
    simpl in Ha, Hb. apply andb_prop in Ha as [_ Ha]. apply andb_prop in Hb as [_ Hb].
    destruct (IH b Ha Hb Heq) as [-> ->]. done.
Qed.

Lemma digits_format_02d n : forall_chars PyStr.isdigit (PyStr.format_02d n) = true.
Proof.
  unfold PyStr.format_02d. pose proof (digits_of_nat n).
  destruct (String.length _ <? 2)%nat; [|done]. by apply forall_chars_app.
Qed.

Lemma int_format_02d n : PyStr.int (PyStr.format_02d n) = Some (Z.of_nat n).
Proof.
  rewrite int_of_digits by apply digits_format_02d.
  pose proof (int_str_of_nat n) as Hn.
  rewrite int_of_digits in Hn by apply digits_of_nat.
  unfold PyStr.format_02d. destruct (String.length _ <? 2)%nat; [|done].
  pose proof (str_of_nat_nonempty n) as Hne. pose proof (digits_of_nat n) as Hd.
  destruct (PyStr.str_of_nat n) as [|c s]; [done|].
  rewrite str_app_cons, str_app_nil_l.
  change (PyStr.int_digits 0 false (String "0" (String c s)))
    with (PyStr.int_digits 0 true (String c s)).
  simpl in Hd. apply andb_prop in Hd as [Hc _].
  simpl in *. unfold PyStr.digit_of in *. by rewrite Hc in *.
Qed.

(** Files of different positions have different names. *)
Lemma code_filename_at_inj i j s t :
  code_filename_at i s = code_filename_at j t → i = j.
Proof.
  unfold code_filename_at. intros Heq.
  apply (sep_inj PyStr.isdigit) in Heq as [Heq _];
    [|done|apply digits_format_02d..].
  assert (Some (Z.of_nat (i + 1)) = Some (Z.of_nat (j + 1))) as [=]; [|lia].
  by rewrite <-!int_format_02d, Heq.
Qed.

Lemma code_filename_at_head i s :
  ∃ c rest, code_filename_at i s = String c rest ∧ PyStr.isdigit c = true.
Proof.
  unfold code_filename_at. pose proof (digits_format_02d (i + 1)) as Hd.
  assert (PyStr.format_02d (i + 1) ≠ "") as Hne.
  { unfold PyStr.format_02d. pose proof (str_of_nat_nonempty (i + 1)).
    destruct (String.length _ <? 2)%nat; [|done].
    intros [? _]%str_app_eq_nil. done. }
  destruct (PyStr.format_02d (i + 1)) as [|c rest]; [done|].
  simpl in Hd. apply andb_prop in Hd as [Hc _].
  exists c. eexists. by rewrite str_app_cons.
Qed.

(** No slash in a filename, as long as the tables do not bring one in. *)
Lemma code_filename_at_no_slash i s :
  str_isalnum "/" = false →
  (∀ t, lacks "/" t → lacks "/" (str_lower t)) →
  lacks "/" (code_filename_at i s).
Proof.
  intros Halnum Hlower. unfold code_filename_at.
  apply lacks_app; [|apply lacks_app; [done|apply lacks_app; [|done]]].
  - apply (forall_chars_lacks PyStr.isdigit); [done|apply digits_format_02d].
  - apply Hlower. induction s as [|c s IH]; [done|].
    simpl. apply lacks_cons. split; [|done].
    destruct (str_isalnum c) eqn:Hc; [|done]. intros <-. congruence.
Qed.

Lemma combine_chapters_names abstractions contents order : ∀ i0 index acc,
  ∃ ps : list (nat * string),
    cf_filename <$> (combine_chapters abstractions contents i0 order index acc).2
    = (cf_filename <$> acc) ++ ((λ p, code_filename_at p.1 p.2) <$> ps)
    ∧ Forall (λ p, i0 ≤ p.1)%nat ps
    ∧ NoDup ((λ p, code_filename_at p.1 p.2) <$> ps).
Proof.
  induction order as [|idx rest IH]; intros i0 index acc.
  { exists []. simpl. rewrite app_nil_r. split_and!; [done|constructor..]. }
  simpl.
  destruct (if in_range idx (length abstractions) then _ else _) as [a|];
    [destruct (contents !! i0) as [body|]|].
  - match goal with
    | |- context [combine_chapters _ _ (S i0) rest ?ix (acc ++ [?f])] =>
        destruct (IH (S i0) ix (acc ++ [f])) as (ps & -> & Hge & Hnd)
    end.
    exists ((i0, name a) :: ps). rewrite fmap_app, <-app_assoc. simpl.
    split_and!; [done| |].
    + constructor; [simpl; lia|]. eapply Forall_impl; [done|]. simpl. lia.
    + constructor; [|done]. intros (p & Heq & Hp)%list_elem_of_fmap.
      apply code_filename_at_inj in Heq. rewrite Forall_forall in Hge.
      specialize (Hge p Hp). simpl in *. lia.
  - destruct (IH (S i0) index acc) as (ps & -> & Hge & Hnd).
    exists ps. split_and!; [done| |done].
    eapply Forall_impl; [done|]. simpl. lia.
  - destruct (IH (S i0) index acc) as (ps & -> & Hge & Hnd).
    exists ps. split_and!; [done| |done].
    eapply Forall_impl; [done|]. simpl. lia.
Qed.

(** X12. Whatever the names of the abstractions and whatever the Unicode
    tables, no two chapter files prepared by [CombineTutorial.prep] share a
    filename, and every filename starts with a digit, the first of its
    position.  Provided the slash is not alphanumeric and lower-casing brings
    no slash into a text, no filename holds a path separator. *)
Theorem chapter_filenames_distinct (shared : combine_shared) :
  NoDup (cf_filename <$> chapter_files (CombineTutorial_prep shared))
  ∧ Forall (λ f, ∃ c rest, cf_filename f = String c rest
                           ∧ PyStr.isdigit c = true)
      (chapter_files (CombineTutorial_prep shared))
  ∧ (str_isalnum "/" = false →
     (∀ t, lacks "/" t → lacks "/" (str_lower t)) →
     Forall (λ f, lacks "/" (cf_filename f))
       (chapter_files (CombineTutorial_prep shared))).
Proof.
  unfold CombineTutorial_prep.
  match goal with
  | |- context [combine_chapters ?ab ?co 0 ?or ?ix []] =>
      destruct (combine_chapters_names ab co or 0 ix []) as (ps & Heq & _ & Hnd);
      destruct (combine_chapters ab co 0 or ix []) as [ic fs]
  end.
  simpl in *.
  assert (∀ f, f ∈ fs → ∃ i s, cf_filename f = code_filename_at i s) as Hcode.
  { intros f Hf.
    assert (cf_filename f ∈ cf_filename <$> fs) as Hin.
    { apply list_elem_of_fmap. by exists f. }
    rewrite Heq in Hin. apply list_elem_of_fmap in Hin as (p & -> & _). eauto. }
  split_and!; [by rewrite Heq| |].
  - apply Forall_forall. intros f (i & s & ->)%Hcode.
    apply code_filename_at_head.
  - intros Halnum Hlower. apply Forall_forall. intros f (i & s & ->)%Hcode.
    by apply code_filename_at_no_slash.
Qed.

Lemma combine_chapters_filenames abstractions contents order :
  Forall (λ idx, 0 ≤ idx < Z.of_nat (length abstractions)) order →
  ∀ i0 index acc,
    cf_filename <$> (combine_chapters abstractions contents i0 order index acc).2
    = (cf_filename <$> acc)
      ++ imap (λ j idx, spec_filename 2 (i0 + j + 1) (abstraction_name_at abstractions idx))
           (take (length contents - i0) order).
Proof.
  induction 1 as [|idx rest Hidx _ IH]; intros i0 index acc.
  { simpl. rewrite take_nil. simpl. by rewrite app_nil_r. }
  simpl. rewrite (proj2 (in_range_spec idx _) Hidx).
  destruct (lookup_lt_is_Some_2 abstractions (Z.to_nat idx)) as [a Ha]; [lia|].
  rewrite Ha. destruct (contents !! i0) as [body|] eqn:Hbody.
  - apply lookup_lt_Some in Hbody as Hlt.
    rewrite IH, fmap_app, <-app_assoc. f_equal. simpl.
    replace (length contents - i0)%nat with (S (length contents - S i0)) by lia.
    simpl. f_equal.
    + unfold abstraction_name_at. rewrite Ha. simpl.
      rewrite Nat.add_0_r. by rewrite code_filename.
    + apply imap_ext. intros j x _. simpl. f_equal. lia.
  - apply lookup_ge_None in Hbody.
    rewrite IH. f_equal.
    replace (length contents - i0)%nat with 0%nat by lia.
    replace (length contents - S i0)%nat with 0%nat by lia. done.
Qed.

(** X13. With a chapter order whose indices are all in range,
    [CombineTutorial.prep] prepares one file for each position that has a
    generated body, in order and under the filename of that position: where
    the chapters are fewer than the entries of the order, the entries beyond
    them get no file. *)
Theorem CombineTutorial_prep_filenames (shared : combine_shared) :
  Forall (λ idx, 0 ≤ idx < Z.of_nat (length (cs_abstractions shared)))
    (cs_chapter_order shared) →
  cf_filename <$> chapter_files (CombineTutorial_prep shared)
  = imap (λ j idx,
            spec_filename 2 (j + 1) (abstraction_name_at (cs_abstractions shared) idx))
      (take (length (cs_chapters shared)) (cs_chapter_order shared)).
Proof.
  intros Hvalid. unfold CombineTutorial_prep.
  match goal with
  | |- context [combine_chapters ?ab ?co 0 ?or ?ix []] =>
      pose proof (combine_chapters_filenames ab co or Hvalid 0 ix []) as Heq;
      destruct (combine_chapters ab co 0 or ix []) as [ic fs]
  end.
  simpl in *. rewrite Heq, Nat.sub_0_r. done.
Qed.

(** ** The files the analyses look at *)

Lemma select_files_filter keep files_data : ∀ selected,
  select_files keep files_data selected
  = selected
    ++ ((λ pc : string * string, {| fi_path := pc.1; fi_content := pc.2 |})
        <$> filter (λ pc, Is_true (keep pc.1)) files_data).
Proof.
  induction files_data as [|[path content] rest IH]; intros selected.
  { simpl. by rewrite app_nil_r. }
  simpl. rewrite IH, filter_cons. simpl.
  destruct (keep path) eqn:Hkeep; simpl; [|done].
  by rewrite <-app_assoc.
Qed.

Lemma analysis_prep_calls mk keep cur_retry shared p :
  analysis_prep keep shared = Some p →
  analysis_call mk cur_retry p <$> an_files p
  = expected_calls mk keep cur_retry shared.
Proof.
  unfold analysis_prep, expected_calls. rewrite select_files_filter. simpl.
  destruct (_ <$> filter _ _) as [|f fs] eqn:Hsel; [done|].
  intros [= <-]. simpl an_files. rewrite <-Hsel, <-list_fmap_compose. done.
Qed.

Lemma analysis_prep_no_calls mk keep cur_retry shared :
  analysis_prep keep shared = None →
  expected_calls mk keep cur_retry shared = [].
Proof.
  unfold analysis_prep, expected_calls. rewrite select_files_filter. simpl.
  destruct (filter _ _); [done|]. done.
Qed.

Lemma analysis_loop_calls E call files w :
  ∃ k,
    llm_log (analysis_loop E call files [] None w).1
    = llm_log w ++ take k (call <$> files)
    ∧ match (analysis_loop E call files [] None w).2 with
      | Ok _ => k = length (call <$> files)
      | Raise _ => (0 < k ≤ length (call <$> files))%nat
      end.
Proof.
  destruct (analysis_loop_spec E call files [] None w) as (k & Hlog & Hres).
  exists k. split; [done|]. rewrite length_fmap.
  destruct (analysis_loop E call files [] None w).2; [|by destruct Hres].
  by destruct Hres.
Qed.

(** X14. Run on what its [prep] returns, [AnalyzeAPICalls.exec] asks the
    generator once for each file of the store whose path ends in .js, .jsx,
    .ts or .tsx, in the order of the store, and [AnalyzeFastAPIEndpoints.exec]
    once for each file whose path ends in .py.  Whenever [exec] returns it has
    made all of these calls, also when calls or parses failed on the way, and
    none when no path matches; when it raises it has made the first of them
    up to the call it stopped at, and no other.  Each call is eligible for
    the cache only where the store allows it and the attempt is the first. *)
Theorem analyses_call_once_per_file (E : Env) (cur_retry : nat)
    (shared : analysis_shared) (w : world) :
  (∃ k,
     llm_log (AnalyzeAPICalls_exec E cur_retry (AnalyzeAPICalls_prep shared) w).1
     = llm_log w
       ++ take k (expected_calls AnalyzeAPICallsPrompt is_frontend_path
                    cur_retry shared)
     ∧ match (AnalyzeAPICalls_exec E cur_retry (AnalyzeAPICalls_prep shared)
                w).2 with
       | Ok _ =>
           k = length (expected_calls AnalyzeAPICallsPrompt is_frontend_path
                         cur_retry shared)
       | Raise _ =>
           (0 < k ≤ length (expected_calls AnalyzeAPICallsPrompt
                              is_frontend_path cur_retry shared))%nat
       end)
  ∧ (∃ k,
       llm_log
         (AnalyzeFastAPIEndpoints_exec E cur_retry
            (AnalyzeFastAPIEndpoints_prep shared) w).1
       = llm_log w
         ++ take k (expected_calls AnalyzeFastAPIEndpointsPrompt is_python_path
                      cur_retry shared)
       ∧ match (AnalyzeFastAPIEndpoints_exec E cur_retry
                  (AnalyzeFastAPIEndpoints_prep shared) w).2 with
         | Ok _ =>
             k = length (expected_calls AnalyzeFastAPIEndpointsPrompt
                           is_python_path cur_retry shared)
         | Raise _ =>
             (0 < k ≤ length (expected_calls AnalyzeFastAPIEndpointsPrompt
                                is_python_path cur_retry shared))%nat
         end).
Proof.
  split.
  - unfold AnalyzeAPICalls_prep.
    destruct (analysis_prep is_frontend_path shared) as [p|] eqn:Hp; simpl.
    + rewrite AnalyzeAPICalls_loop_eq.
      rewrite <-(analysis_prep_calls AnalyzeAPICallsPrompt _ cur_retry _ _ Hp).
      apply analysis_loop_calls.
    + rewrite (analysis_prep_no_calls _ _ _ _ Hp). exists 0%nat.
      by rewrite app_nil_r.
  - unfold AnalyzeFastAPIEndpoints_prep.
    destruct (analysis_prep is_python_path shared) as [p|] eqn:Hp; simpl.
    + rewrite AnalyzeFastAPIEndpoints_loop_eq.
      rewrite <-(analysis_prep_calls AnalyzeFastAPIEndpointsPrompt _ cur_retry
                   _ _ Hp).
      apply analysis_loop_calls.
    + rewrite (analysis_prep_no_calls _ _ _ _ Hp). exists 0%nat.
      by rewrite app_nil_r.
Qed.

(** ** The prompts of the relationship and ordering stages *)

Lemma py_index_inside {A} (l : list A) i :
  subscript (length l) i → ∃ x, py_index l i = Ok x.
Proof.
  unfold subscript, py_index. intros Hi.
  destruct (i <? 0) eqn:Hneg; [apply Z.ltb_lt in Hneg|apply Z.ltb_ge in Hneg].
  - replace (0 <=? i + Z.of_nat (length l)) with true
      by (symmetry; apply Z.leb_le; lia).
    replace (i + Z.of_nat (length l) <? Z.of_nat (length l)) with true
      by (symmetry; apply Z.ltb_lt; lia).
    simpl.
    destruct (lookup_lt_is_Some_2 l (Z.to_nat (i + Z.of_nat (length l))))
      as [x ->]; [lia|]. by exists x.
  - replace (0 <=? i) with true by (symmetry; apply Z.leb_le; lia).
    replace (i <? Z.of_nat (length l)) with true
      by (symmetry; apply Z.ltb_lt; lia).
    simpl. destruct (lookup_lt_is_Some_2 l (Z.to_nat i)) as [x ->]; [lia|].
    by exists x.
Qed.

Lemma py_index_outside {A} (l : list A) i :
  ¬ subscript (length l) i → py_index l i = Raise IndexError.
Proof.
  unfold subscript, py_index. intros Hi.
  destruct (i <? 0) eqn:Hneg; [apply Z.ltb_lt in Hneg|apply Z.ltb_ge in Hneg].
  - destruct (0 <=? i + Z.of_nat (length l)) eqn:H1; [|done].
    apply Z.leb_le in H1. lia.
  - replace (0 <=? i) with true by (symmetry; apply Z.leb_le; lia).
    destruct (i <? Z.of_nat (length l)) eqn:H2; [|done].
    apply Z.ltb_lt in H2. lia.
Qed.

Lemma py_index_in_range (abstractions : list abstraction) i :
  0 ≤ i < Z.of_nat (length abstractions) →
  ∃ a, py_index abstractions i = Ok a
       ∧ name a = abstraction_name_at abstractions i.
Proof.
  intros Hi. destruct (lookup_lt_is_Some_2 abstractions (Z.to_nat i)) as [a Ha];
    [lia|].
  exists a. split.
  - rewrite <-(Z2Nat.id i) by lia. by apply py_index_lookup.
  - unfold abstraction_name_at. by rewrite Ha.
Qed.

Lemma order_context_loop_inside abstractions rels : ∀ context,
  Forall (λ r, subscript (length abstractions) (rel_from r)
               ∧ subscript (length abstractions) (rel_to r)) rels →
  ∃ c, order_context_loop abstractions rels context = Ok c.
Proof.
  induction rels as [|r rest IH]; intros context Hall; [by eexists|].
  apply Forall_cons in Hall as [[Hf Ht] Hrest]. simpl.
  destruct (py_index_inside abstractions _ Hf) as [a ->].
  destruct (py_index_inside abstractions _ Ht) as [b ->].
  result_unfold. by apply IH.
Qed.

Lemma order_context_loop_outside abstractions rels : ∀ context,
  ¬ Forall (λ r, subscript (length abstractions) (rel_from r)
                 ∧ subscript (length abstractions) (rel_to r)) rels →
  order_context_loop abstractions rels context = Raise IndexError.
Proof.
  induction rels as [|r rest IH]; intros context Hall.
  { destruct Hall. constructor. }
  simpl. result_unfold.
  destruct (decide (subscript (length abstractions) (rel_from r))) as [Hf|Hf].
  2:{ by rewrite (py_index_outside _ _ Hf). }
  destruct (py_index_inside abstractions _ Hf) as [a ->].
  destruct (decide (subscript (length abstractions) (rel_to r))) as [Ht|Ht].
  2:{ by rewrite (py_index_outside _ _ Ht). }
  destruct (py_index_inside abstractions _ Ht) as [b ->].
  apply IH. intros Hrest. apply Hall. by constructor.
Qed.

(** X15. [OrderChapters.prep] returns exactly when both indices of every
    relationship are subscripts Python accepts for the list of abstractions,
    that is, lie between minus its length and its length: a negative index in
    that interval is not rejected but names an abstraction counted from the end.
    With any other index the stage raises [IndexError] before a prompt is
    made. *)
Theorem OrderChapters_prep_subscripts (shared : order_shared) :
  (Forall (λ r, subscript (length (os_abstractions shared)) (rel_from r)
                ∧ subscript (length (os_abstractions shared)) (rel_to r))
     (details (os_relationships shared))
   ↔ ∃ p, OrderChapters_prep shared = Ok p)
  ∧ (¬ Forall (λ r, subscript (length (os_abstractions shared)) (rel_from r)
                    ∧ subscript (length (os_abstractions shared)) (rel_to r))
         (details (os_relationships shared))
     ↔ OrderChapters_prep shared = Raise IndexError).
Proof.
  unfold OrderChapters_prep. result_unfold.
  destruct (decide (Forall (λ r, subscript (length (os_abstractions shared))
                                   (rel_from r)
                                 ∧ subscript (length (os_abstractions shared))
                                     (rel_to r))
                      (details (os_relationships shared)))) as [Hall|Hall].
  - destruct (order_context_loop_inside _ _
                (order_context_head (os_language shared)
                   (summary (os_relationships shared))) Hall) as [c ->].
    split; split; try done. by eexists.
  - rewrite (order_context_loop_outside _ _ _ Hall).
    split; split; try done. by intros [p [=]].
Qed.

Lemma concat_empty_cons (x : string) (l : list string) :
  String.concat "" (x :: l) = x +:+ String.concat "" l.
Proof. destruct l; simpl; [by rewrite str_app_nil_r|done]. Qed.

Lemma order_context_loop_lines abstractions rels : ∀ context,
  Forall (λ r, (0 ≤ rel_from r < Z.of_nat (length abstractions))
               ∧ (0 ≤ rel_to r < Z.of_nat (length abstractions))) rels →
  order_context_loop abstractions rels context
  = Ok (context +:+ String.concat "" (relationship_line abstractions <$> rels)).
Proof.
  induction rels as [|r rest IH]; intros context Hall.
  { simpl. by rewrite str_app_nil_r. }
  apply Forall_cons in Hall as [[Hf Ht] Hrest]. cbn [order_context_loop].
  destruct (py_index_in_range abstractions _ Hf) as (a & -> & Ha).
  destruct (py_index_in_range abstractions _ Ht) as (b & -> & Hb).
  result_unfold. rewrite IH by done. f_equal.
  rewrite Ha, Hb, fmap_cons, concat_empty_cons. unfold relationship_line.
  by rewrite !str_app_assoc.
Qed.

(** X16. The relationships [AnalyzeRelationships.exec] returns, when it is run
    on what its [prep] made of a list of abstractions, are accepted by
    [OrderChapters.prep] for the same abstractions: it does not raise, it
    passes on the number of abstractions, and its context holds, after the
    summary, one line for each relationship in order, with the names of the
    abstractions at its two indices. *)
Theorem OrderChapters_prep_after_relationships (E : Env) (cur_retry : nat)
    (shared : relationships_shared) (w : world) (rels : relationships_data) :
  (AnalyzeRelationships_exec E cur_retry (AnalyzeRelationships_prep shared) w).2
  = Ok rels →
  ∃ p,
    OrderChapters_prep
      {| os_abstractions := rs_abstractions shared;
         os_relationships := rels;
         os_project_name := rs_project_name shared;
         os_language := rs_language shared;
         os_use_cache := rs_use_cache shared |} = Ok p
    ∧ oc_num_abstractions p = length (rs_abstractions shared)
    ∧ oc_context p
      = order_context_head (rs_language shared) (summary rels)
        +:+ String.concat ""
              (relationship_line (rs_abstractions shared) <$> details rels).
Proof.
  assert (ar_num_abstractions (AnalyzeRelationships_prep shared)
          = length (rs_abstractions shared)) as Hn.
  { unfold AnalyzeRelationships_prep.
    by destruct (relationships_context_loop _ _ _ _ _) as [[? ?] ?]. }
  unfold AnalyzeRelationships_exec, call_llm, lift, mbind, M_bind. simpl.
  destruct (generator E _ _) as [response|what|what]; simpl; [|done..].
  rewrite Hn. unfold AnalyzeRelationships_validate. result_unfold.
  destruct (fenced_yaml response) as [yaml_str|]; [|done].
  destruct (safe_load E yaml_str) as [[| | | | | |d]|]; try done.
  destruct (has_keys d _); simpl; [|done].
  destruct (dict_get d "summary") as [[| | | |s| |]|]; try done;
    destruct (dict_get d "relationships") as [[| | | | |entries|]|]; try done.
  destruct (validate_relationships _ entries []) as [validated|] eqn:Hv; [|done].
  intros [= <-]. simpl.
  apply validate_relationships_spec in Hv as (new & -> & Hnew). simpl.
  assert (Forall (λ r, (0 ≤ rel_from r < Z.of_nat (length (rs_abstractions shared)))
                       ∧ (0 ≤ rel_to r < Z.of_nat (length (rs_abstractions shared))))
            new) as Hall.
  { clear -Hnew. induction Hnew as [|rel r rels new Hr _ IH]; constructor; [|done].
    apply validate_relationship_Ok in Hr as (? & ? & _). done. }
  unfold OrderChapters_prep. simpl. result_unfold.
  rewrite (order_context_loop_lines _ _ _ Hall). by eexists.
Qed.

(** ** Writing the tutorial *)

Lemma str_app_inv_l (p a b : string) : p +:+ a = p +:+ b → a = b.
Proof.
  induction p as [|c p IH]; [by rewrite !str_app_nil_l|].
  rewrite !str_app_cons. intros [= H]. by apply IH.
Qed.

Lemma os_path_join_relative a b :
  PyStr.startswith b "/" = false →
  os_path_join a b
  = (if String.eqb a "" || PyStr.endswith a "/" then a else a +:+ "/") +:+ b.
Proof.
  intros Hb. unfold os_path_join. rewrite Hb.
  destruct (_ || _); [done|]. by rewrite str_app_assoc.
Qed.

Lemma os_path_join_inj a b1 b2 :
  PyStr.startswith b1 "/" = false → PyStr.startswith b2 "/" = false →
  os_path_join a b1 = os_path_join a b2 → b1 = b2.
Proof.
  intros H1 H2. rewrite !os_path_join_relative by done. apply str_app_inv_l.
Qed.

Lemma chapter_files_code_names (shared : combine_shared) :
  NoDup (cf_filename <$> chapter_files (CombineTutorial_prep shared))
  ∧ Forall (λ f, ∃ i s, cf_filename f = code_filename_at i s)
      (chapter_files (CombineTutorial_prep shared)).
Proof.
  unfold CombineTutorial_prep.
  match goal with
  | |- context [combine_chapters ?ab ?co 0 ?or ?ix []] =>
      destruct (combine_chapters_names ab co or 0 ix []) as (ps & Heq & _ & Hnd);
      destruct (combine_chapters ab co 0 or ix []) as [ic fs]
  end.
  simpl in *. split; [by rewrite Heq|].
  apply Forall_forall. intros f Hf.
  assert (cf_filename f ∈ cf_filename <$> fs) as Hin.
  { apply list_elem_of_fmap. by exists f. }
  rewrite Heq in Hin. apply list_elem_of_fmap in Hin as (p & -> & _). eauto.
Qed.

Lemma foldl_write_other (key : chapter_file → string) (fl : list chapter_file) :
  ∀ fs path,
    path ∉ key <$> fl →
    foldl (λ fs f, write_text fs (key f) (cf_content f)) fs fl !! path
    = fs !! path.
Proof.
  induction fl as [|f0 fl IH]; intros fs path Hpath; [done|].
  simpl. rewrite fmap_cons, not_elem_of_cons in Hpath. destruct Hpath as [Hne Hpath].
  rewrite IH by done. unfold write_text. by rewrite lookup_insert_ne.
Qed.

Lemma foldl_write_lookup (key : chapter_file → string) (fl : list chapter_file) :
  ∀ fs f,
    NoDup (key <$> fl) → f ∈ fl →
    foldl (λ fs f, write_text fs (key f) (cf_content f)) fs fl !! key f
    = Some (cf_content f).
Proof.
  induction fl as [|f0 fl IH]; intros fs f Hnd Hf; [by apply elem_of_nil in Hf|].
  rewrite fmap_cons in Hnd. apply NoDup_cons in Hnd as [Hnew Hnd]. simpl.
  apply elem_of_cons in Hf as [->|Hf]; [|by apply IH].
  rewrite foldl_write_other by done. unfold write_text. by rewrite lookup_insert_eq.
Qed.

Lemma foldl_write_changed (key : chapter_file → string) (fl : list chapter_file) :
  ∀ fs path,
    foldl (λ fs f, write_text fs (key f) (cf_content f)) fs fl !! path
    ≠ fs !! path →
    path ∈ key <$> fl.
Proof.
  intros fs path Hne. destruct (decide (path ∈ key <$> fl)) as [|Hout]; [done|].
  by rewrite foldl_write_other in Hne.
Qed.

(** X17. Run on what [CombineTutorial.prep] prepared, [CombineTutorial.exec]
    leaves every prepared file under the output directory with its own text:
    the index, the API reference when there is one, and each chapter.  No
    chapter replaces the index, the API reference or another chapter, and no
    path other than these is touched. *)
Theorem CombineTutorial_exec_writes (shared : combine_shared)
    (output_path : string) (fs : gmap string string) :
  (CombineTutorial_exec output_path (CombineTutorial_prep shared) fs).1
    !! os_path_join output_path "index.md"
  = Some (index_content (CombineTutorial_prep shared))
  ∧ (∀ name, api_doc_filename (CombineTutorial_prep shared) = Some name →
       (CombineTutorial_exec output_path (CombineTutorial_prep shared) fs).1
         !! os_path_join output_path name
       = Some (cs_api_documentation_md shared))
  ∧ (∀ f, f ∈ chapter_files (CombineTutorial_prep shared) →
       (CombineTutorial_exec output_path (CombineTutorial_prep shared) fs).1
         !! os_path_join output_path (cf_filename f)
       = Some (cf_content f))
  ∧ (∀ path,
       (CombineTutorial_exec output_path (CombineTutorial_prep shared) fs).1
         !! path ≠ fs !! path →
       path = os_path_join output_path "index.md"
       ∨ path = os_path_join output_path "api_reference.md"
       ∨ ∃ f, f ∈ chapter_files (CombineTutorial_prep shared)
              ∧ path = os_path_join output_path (cf_filename f)).
Proof.
  destruct (chapter_files_code_names shared) as [Hnd Hcode].
  assert (api_documentation_md (CombineTutorial_prep shared)
          = cs_api_documentation_md shared) as Hmd.
  { unfold CombineTutorial_prep. by destruct (combine_chapters _ _ _ _ _ _). }
  assert (∀ name, api_doc_filename (CombineTutorial_prep shared) = Some name →
            name = "api_reference.md" ∧ cs_api_documentation_md shared ≠ "")
    as Hapi.
  { unfold CombineTutorial_prep. destruct (combine_chapters _ _ _ _ _ _). simpl.
    intros name.
    destruct (String.eqb (cs_api_documentation_md shared) "") eqn:He; [done|].
    apply String.eqb_neq in He.
    destruct (negb (String.eqb (PyStr.strip _) "")); simpl; [|done].
    by intros [= <-]. }
  set (key := λ f, os_path_join output_path (cf_filename f)).
  assert (∀ f, f ∈ chapter_files (CombineTutorial_prep shared) →
            PyStr.startswith (cf_filename f) "/" = false
            ∧ cf_filename f ≠ "index.md" ∧ cf_filename f ≠ "api_reference.md")
    as Hhead.
  { intros f Hf. rewrite Forall_forall in Hcode.
    destruct (Hcode f Hf) as (i & s & ->).
    destruct (code_filename_at_head i s) as (c & rest & -> & Hc).
    split_and!; [|intros [= -> _]; done..].
    unfold PyStr.startswith. clear -Hc.
    destruct c as [[] [] [] [] [] [] [] []]; done. }
  assert (∀ name, PyStr.startswith name "/" = false →
            (∀ f, f ∈ chapter_files (CombineTutorial_prep shared) →
                  cf_filename f ≠ name) →
            os_path_join output_path name
            ∉ key <$> chapter_files (CombineTutorial_prep shared)) as Hfresh.
  { intros name Hname Hother (f & Heq & Hf)%list_elem_of_fmap.
    apply os_path_join_inj in Heq; [|done|by apply Hhead].
    by apply (Hother f). }
  assert (NoDup (key <$> chapter_files (CombineTutorial_prep shared))) as Hkeys.
  { apply NoDup_fmap_1 in Hnd as Hfiles.
    apply NoDup_fmap_2_strong; [|done].
    intros f g Hf Hg Heq. apply os_path_join_inj in Heq; [|by apply Hhead..].
    apply list_elem_of_lookup in Hf as [i Hi]. apply list_elem_of_lookup in Hg as [j Hj].
    assert (i = j) as ->; [|congruence].
    apply (NoDup_lookup (cf_filename <$> chapter_files (CombineTutorial_prep shared))
             i j (cf_filename f)).
    - done.
    - by rewrite list_lookup_fmap, Hi.
    - by rewrite list_lookup_fmap, Hj, Heq. }
  unfold CombineTutorial_exec. simpl. fold key.
  split_and!.
  - rewrite foldl_write_other.
    2:{ apply Hfresh; [done|]. intros f Hf. by apply Hhead. }
    destruct (api_doc_filename _) as [name|] eqn:Hname.
    + destruct (Hapi name eq_refl) as [-> Hne]. rewrite Hmd.
      apply String.eqb_neq in Hne as ->. simpl. unfold write_text.
      rewrite lookup_insert_ne; [by rewrite lookup_insert_eq|].
      intros Heq. by apply os_path_join_inj in Heq.
    + unfold write_text. by rewrite lookup_insert_eq.
  - intros name Hname. destruct (Hapi name Hname) as [-> Hne].
    rewrite foldl_write_other.
    2:{ apply Hfresh; [done|]. intros f Hf. by apply Hhead. }
    rewrite Hname, Hmd. apply String.eqb_neq in Hne as ->. simpl.
    unfold write_text. by rewrite lookup_insert_eq.
  - intros f Hf. by apply (foldl_write_lookup key).
  - intros path Hpath.
    destruct (decide (path ∈ key <$> chapter_files (CombineTutorial_prep shared)))
      as [(f & -> & Hf)%list_elem_of_fmap|Hout].
    { right. right. by exists f. }
    rewrite foldl_write_other in Hpath by done.
    destruct (decide (path = os_path_join output_path "index.md")) as [|Hi];
      [by left|].
    right. left.
    destruct (api_doc_filename _) as [name|] eqn:Hname.
    + destruct (Hapi name eq_refl) as [-> Hne]. rewrite Hmd in Hpath.
      apply String.eqb_neq in Hne. rewrite Hne in Hpath. simpl in Hpath.
      unfold write_text in Hpath.
      destruct (decide (path = os_path_join output_path "api_reference.md"));
        [done|].
      by rewrite !lookup_insert_ne in Hpath.
    + unfold write_text in Hpath. by rewrite lookup_insert_ne in Hpath.
Qed.

(** ** From the files to the chapters *)

Lemma IdentifyAbstractions_prep_file_count shared :
  ia_file_count (IdentifyAbstractions_prep shared) = length (is_files shared).
Proof.
  unfold IdentifyAbstractions_prep. by destruct (create_llm_context _ _ _ _).
Qed.

Lemma abstraction_files_in_range n item a :
  abstraction_of_item n item a → Forall (λ idx, 0 ≤ idx < Z.of_nat n) (files a).
Proof.
  intros (d & entries & idxs & _ & _ & _ & _ & Hparsed & _ & Hmem).
  apply Forall_forall. intros z Hz. apply Hmem in Hz.
  clear -Hparsed Hz. induction Hparsed as [|e i es idxs [_ Hi] _ IH].
  - by apply elem_of_nil in Hz.
  - apply elem_of_cons in Hz as [->|Hz]; [done|by apply IH].
Qed.

Lemma IdentifyAbstractions_exec_in_range E cur_retry prep_res w abstractions :
  (IdentifyAbstractions_exec E cur_retry prep_res w).2 = Ok abstractions →
  Forall (λ a, Forall (λ idx, 0 ≤ idx < Z.of_nat (ia_file_count prep_res))
                 (files a)) abstractions.
Proof.
  unfold IdentifyAbstractions_exec, call_llm, lift, mbind, M_bind. simpl.
  destruct (generator E _ _) as [response|what|what]; simpl; [|done..].
  unfold IdentifyAbstractions_validate. result_unfold.
  destruct (fenced_yaml response) as [yaml_str|]; [|done].
  destruct (safe_load E yaml_str) as [[| | | | |items|]|]; try done.
  intros (new & -> & Hnew)%validate_abstractions_spec. simpl.
  induction Hnew as [|item a items new Ha _ IH]; constructor; [|done].
  by eapply abstraction_files_in_range.
Qed.

Lemma OrderChapters_exec_order E cur_retry prep_res w order :
  (OrderChapters_exec E cur_retry prep_res w).2 = Ok order →
  order ≡ₚ seqZ 0 (Z.of_nat (oc_num_abstractions prep_res))
  ∧ NoDup order
  ∧ length order = oc_num_abstractions prep_res
  ∧ Forall (λ i, 0 ≤ i < Z.of_nat (oc_num_abstractions prep_res)) order.
Proof.
  unfold OrderChapters_exec, call_llm, lift, mbind, M_bind. simpl.
  destruct (generator E _ _) as [response|what|what]; simpl; [|done..].
  intros Hv.
  pose proof (OrderChapters_validate_spec E (oc_num_abstractions prep_res)
                response) as Hspec.
  rewrite Hv in Hspec. simpl in Hspec. by destruct Hspec as (? & ? & ? & ? & _).
Qed.

(** X18. From the files to the chapters.  When [IdentifyAbstractions.exec],
    run on what its [prep] made of the files, returns a list of abstractions,
    and [OrderChapters.exec], run on what its [prep] made of these
    abstractions, returns an order, then [WriteChapters.prep] does not raise on
    them: it returns one item per abstraction, every abstraction is the
    subject of an item whose chapter number is the place of its index in the
    order, and [CombineTutorial.prep], given as many chapter texts, prepares
    one file per abstraction. *)
Theorem chapters_for_every_abstraction (E : Env) (r1 r2 : nat)
    (shared : identify_shared) (w1 w2 w3 : world)
    (abstractions : list abstraction) (rels : relationships_data)
    (p : order_prep_res) (order : list Z) (api : list analysis_entry)
    (chapters : list string) (repo_url : option string) (api_doc : string) :
  (IdentifyAbstractions_exec E r1 (IdentifyAbstractions_prep shared) w1).2
  = Ok abstractions →
  OrderChapters_prep
    {| os_abstractions := abstractions;
       os_relationships := rels;
       os_project_name := is_project_name shared;
       os_language := is_language shared;
       os_use_cache := is_use_cache shared |} = Ok p →
  (OrderChapters_exec E r2 p w2).2 = Ok order →
  length chapters = length abstractions →
  (∃ items,
     (WriteChapters_prep
        {| ws_chapter_order := order;
           ws_abstractions := abstractions;
           ws_files := is_files shared;
           ws_project_name := is_project_name shared;
           ws_language := is_language shared;
           ws_use_cache := is_use_cache shared;
           ws_api_call_analysis := api |} w3).2 = Ok items
     ∧ length items = length abstractions
     ∧ ∀ k a,
         abstractions !! k = Some a →
         ∃ pos item,
           order !! pos = Some (Z.of_nat k)
           ∧ items !! pos = Some item
           ∧ item_chapter_num item = (pos + 1)%nat
           ∧ item_abstraction_details item = a)
  ∧ length
      (chapter_files
         (CombineTutorial_prep
            {| cs_project_name := is_project_name shared;
               cs_repo_url := repo_url;
               cs_api_documentation_md := api_doc;
               cs_relationships := rels;
               cs_chapter_order := order;
               cs_abstractions := abstractions;
               cs_chapters := chapters |}))
    = length abstractions.
Proof.
  intros Hid Hprep Hord Hchapters.
  apply IdentifyAbstractions_exec_in_range in Hid as Hfiles.
  rewrite IdentifyAbstractions_prep_file_count in Hfiles.
  assert (oc_num_abstractions p = length abstractions) as Hn.
  { unfold OrderChapters_prep in Hprep. result_unfold. simpl in Hprep.
    destruct (order_context_loop _ _ _); [|done]. by injection Hprep as <-. }
  apply OrderChapters_exec_order in Hord as (Hperm & Hnd & Hlen & Hvalid).
  rewrite Hn in Hperm, Hlen, Hvalid.
  split.
  - unfold WriteChapters_prep. simpl.
    pose proof (prep_items_ok abstractions (is_files shared)
                  (is_project_name shared) (is_language shared)
                  (is_use_cache shared) api) as H.
    destruct (prep_all_chapters _ _ _ _ _) as [all_chapters filenames] eqn:Hall.
    simpl.
    specialize (H (PyStr.join NL all_chapters) order Hnd Hvalid Hfiles order
                  0%nat [] eq_refl).
    rewrite Hall in H. simpl in H. destruct H as (new & -> & Hnew & Hitems).
    exists new. split_and!; [done|lia|].
    intros k a Ha. apply lookup_lt_Some in Ha as Hk.
    assert (Z.of_nat k ∈ order) as Hin.
    { rewrite Hperm. apply elem_of_seqZ. lia. }
    apply list_elem_of_lookup in Hin as [pos Hpos].
    destruct (lookup_lt_is_Some_2 new pos) as [item Hitem].
    { apply lookup_lt_Some in Hpos. lia. }
    exists pos, item. split_and!; [done..| |].
    + by destruct (Hitems pos item Hitem) as (idx & b & _ & _ & ? & _).
    + destruct (Hitems pos item Hitem) as (idx & b & Hidx & Hb & _ & _ & <- & _).
      simpl in *. rewrite Hpos in Hidx. injection Hidx as <-.
      rewrite Nat2Z.id in Hb. congruence.
  - assert (length (cf_filename
                      <$> chapter_files
                            (CombineTutorial_prep
                               {| cs_project_name := is_project_name shared;
                                  cs_repo_url := repo_url;
                                  cs_api_documentation_md := api_doc;
                                  cs_relationships := rels;
                                  cs_chapter_order := order;
                                  cs_abstractions := abstractions;
                                  cs_chapters := chapters |}))
            = length abstractions) as Hfl; [|by rewrite length_fmap in Hfl].
    unfold CombineTutorial_prep. simpl.
    match goal with
    | |- context [combine_chapters ?ab ?co 0 ?or ?ix []] =>
        pose proof (combine_chapters_filenames ab co or Hvalid 0 ix []) as Heq;
        destruct (combine_chapters ab co 0 or ix []) as [ic fs]
    end.
    simpl in *. rewrite Heq, length_imap, length_take. lia.
Qed.

(** ** The name of the project *)

Lemma split_char_step c a s :
  PyStr.split (String c "") (String a s)
  = if Ascii.eqb c a then "" :: PyStr.split (String c "") s
    else match PyStr.split (String c "") s with
         | p :: ps => String a p :: ps
         | [] => [String a ""]
         end.
Proof. by rewrite split_cons, prefix_cons, prefix_nil, andb_true_r. Qed.

Lemma py_index_last {A} (init : list A) (x : A) :
  py_index (init ++ [x]) (-1) = Ok x.
Proof.
  unfold py_index. rewrite length_app. simpl.
  replace (-1 + Z.of_nat (length init + 1)) with (Z.of_nat (length init)) by lia.
  replace (0 <=? Z.of_nat (length init)) with true
    by (symmetry; apply Z.leb_le; lia).
  replace (Z.of_nat (length init) <? Z.of_nat (length init + 1)) with true
    by (symmetry; apply Z.ltb_lt; lia).
  simpl. rewrite Nat2Z.id. by rewrite lookup_app_r, Nat.sub_diag.
Qed.

Lemma replace_aux_cons old new skip c s :
  PyStr.replace_aux old new skip (String c s)
  = match skip with
    | S k => PyStr.replace_aux old new k s
    | O =>
        if String.prefix old (String c s)
        then new +:+ PyStr.replace_aux old new (String.length old - 1) s
        else String c (PyStr.replace_aux old new 0 s)
    end.
Proof. reflexivity. Qed.

Lemma replace_without old new s :
  PyStr.contains old s = false → PyStr.replace old new s = s.
Proof.
  unfold PyStr.replace. induction s as [|c s IH]; [done|].
  rewrite contains_cons, replace_aux_cons.
  intros [-> Hs]%orb_false_elim. by rewrite IH.
Qed.

Lemma replace_removes_suffix name :
  lacks "." name → PyStr.replace ".git" "" (name +:+ ".git") = name.
Proof.
  unfold PyStr.replace. induction name as [|c name IH]; [done|].
  intros [Hc Hname]%lacks_cons. rewrite str_app_cons, replace_aux_cons.
  rewrite prefix_cons. apply Ascii.eqb_neq in Hc as ->. simpl.
  by rewrite IH.
Qed.

Lemma replace_aux_lacks c old s : ∀ skip,
  lacks c s → lacks c (PyStr.replace_aux old "" skip s).
Proof.
  induction s as [|a s IH]; intros skip; [done|].
  intros [Ha Hs]%lacks_cons. rewrite replace_aux_cons.
  destruct skip; [|by apply IH].
  destruct (String.prefix old (String a s)).
  - rewrite str_app_nil_l. by apply IH.
  - apply lacks_cons. split; [done|by apply IH].
Qed.

Lemma after_last_slash_cons c s :
  after_last_slash (String c s)
  = if PyStr.contains "/" s then after_last_slash s
    else if Ascii.eqb c "/" then s else String c s.
Proof. reflexivity. Qed.

Lemma after_last_slash_without s : lacks "/" s → after_last_slash s = s.
Proof.
  destruct s as [|c s]; [done|]. intros [Hc Hs]%lacks_cons.
  rewrite after_last_slash_cons, Hs, Ascii.eqb_sym.
  by apply Ascii.eqb_neq in Hc as ->.
Qed.

Lemma after_last_slash_lacks s : lacks "/" (after_last_slash s).
Proof.
  induction s as [|c s IH]; [done|]. rewrite after_last_slash_cons.
  destruct (PyStr.contains "/" s) eqn:Hs; [done|].
  destruct (Ascii.eqb_spec c "/") as [->|Hc]; [done|].
  apply lacks_cons. split; [congruence|done].
Qed.

Lemma contains_after_sep c s t :
  PyStr.contains (String c "") (s +:+ String c t) = true.
Proof.
  induction s as [|b s IH].
  - by rewrite str_app_nil_l, contains_char_cons, Ascii.eqb_refl.
  - by rewrite str_app_cons, contains_char_cons, IH, orb_true_r.
Qed.

Lemma after_last_slash_app base name :
  lacks "/" name → after_last_slash (base +:+ String "/" name) = name.
Proof.
  intros Hname. induction base as [|c base IH].
  - by rewrite str_app_nil_l, after_last_slash_cons, Hname.
  - by rewrite str_app_cons, after_last_slash_cons, contains_after_sep.
Qed.

(** [s.split("/")[-1]] is the text after the last slash. *)
Lemma split_last_segment s : last (PyStr.split "/" s) = Some (after_last_slash s).
Proof.
  induction s as [|c s IH]; [done|].
  rewrite split_char_step, after_last_slash_cons.
  destruct (PyStr.contains "/" s) eqn:Hs.
  - destruct (split_with "/" s) as (a & b & rest & Hsplit); [done..|].
    rewrite Hsplit in IH |- *.
    destruct (Ascii.eqb "/" c); by rewrite <-IH.
  - rewrite (split_without "/" s Hs).
    rewrite Ascii.eqb_sym. by destruct (Ascii.eqb c "/").
Qed.

Lemma py_index_minus_one {A} (l : list A) x :
  last l = Some x → py_index l (-1) = Ok x.
Proof. intros [init ->]%last_Some. apply py_index_last. Qed.

(** X19. When the store names no project, the name [FetchRepo.prep] derives
    from a non-empty repository URL is the text after the last slash of the
    URL with every [.git] taken out of it, as [str.replace] does.  This text
    never holds a slash, and a URL that ends in a slash gives the empty name.
    A last segment without [.git] is returned as it is, and a segment without
    a dot that is followed by [.git] loses that suffix. *)
Theorem FetchRepo_project_name_from_url (abspath : string → string)
    (local_dir : option string) (c : ascii) (url : string) :
  FetchRepo_project_name abspath
    {| fs_repo_url := Some (String c url);
       fs_local_dir := local_dir; fs_project_name := None |}
  = Ok (PyStr.replace ".git" "" (after_last_slash (String c url)))
  ∧ FetchRepo_project_name abspath
      {| fs_repo_url := Some (String c url);
         fs_local_dir := local_dir; fs_project_name := Some "" |}
    = Ok (PyStr.replace ".git" "" (after_last_slash (String c url)))
  ∧ lacks "/" (PyStr.replace ".git" "" (after_last_slash (String c url)))
  ∧ (∀ base name,
       lacks "/" name → after_last_slash (base +:+ String "/" name) = name)
  ∧ (∀ name, lacks "/" name → after_last_slash name = name)
  ∧ (∀ name,
       PyStr.contains ".git" name = false → PyStr.replace ".git" "" name = name)
  ∧ (∀ name,
       lacks "." name → PyStr.replace ".git" "" (name +:+ ".git") = name).
Proof.
  assert (py_index (PyStr.split "/" (String c url)) (-1)
          = Ok (after_last_slash (String c url))) as Hlast.
  { apply py_index_minus_one, split_last_segment. }
  unfold FetchRepo_project_name.
  cbn [fs_repo_url fs_project_name fs_local_dir]. rewrite Hlast. result_unfold.
  split_and!; try done.
  - unfold PyStr.replace. apply replace_aux_lacks, after_last_slash_lacks.
  - apply after_last_slash_app.
  - apply after_last_slash_without.
  - apply replace_without.
  - apply replace_removes_suffix.
Qed.

(** A name that holds [.git] elsewhere loses it there too. *)
Example FetchRepo_project_name_ex :
  FetchRepo_project_name (λ p, p)
    {| fs_repo_url := Some "https://github.com/me/my.github.io.git";
       fs_local_dir := None; fs_project_name := None |} = Ok "myhub.io"
  ∧ FetchRepo_project_name (λ p, p)
      {| fs_repo_url := Some "https://github.com/owner/repo/";
         fs_local_dir := None; fs_project_name := None |} = Ok "".
Proof. split; reflexivity. Qed.

End properties.

(** * The stages on ASCII names *)

#[local] Existing Instance ascii_tables.

(** C6 fails as stated: with a single chapter the position counter has one
    digit, yet both the table of contents and the written file are named with
    two (the name is an ASCII one). *)
Lemma single_chapter_filename_has_two_digits :
  (prep_all_chapters (cs_abstractions one_chapter) 0
     (cs_chapter_order one_chapter) [] ∅).1 = ["1. [A](01_a.md)"]
  ∧ cf_filename <$> chapter_files (CombineTutorial_prep one_chapter) = ["01_a.md"]
  ∧ spec_filename (digit_width (length (cs_chapter_order one_chapter))) 1 "A"
    = "1_a.md"
  ∧ cf_filename <$> chapter_files (CombineTutorial_prep one_chapter)
    ≠ [spec_filename (digit_width (length (cs_chapter_order one_chapter))) 1 "A"].
Proof. split_and!; by vm_compute. Qed.

Lemma chapter_filenames_agree_witness :
  toc_entry 2 1 "A"
  ∈ (prep_all_chapters (cs_abstractions one_chapter) 0
       (cs_chapter_order one_chapter) [] ∅).1
  ∧ ∃ content,
      {| cf_filename := spec_filename 2 1 "A"; cf_content := content |}
      ∈ chapter_files (CombineTutorial_prep one_chapter).
Proof.
  apply (chapter_filenames_agree one_chapter 0 0 abstraction_A "# Chapter 1: A");
    [reflexivity | simpl; lia | reflexivity | reflexivity].
Defined.

Lemma WriteChapters_prep_bad_neighbour_witness :
  ∃ e, (WriteChapters_prep skipped_first empty_world).2 = Raise e.
Proof.
  apply (WriteChapters_prep_bad_neighbour skipped_first empty_world 1 0 5);
    [reflexivity | reflexivity | reflexivity | left; split; [lia | reflexivity]].
Defined.

Lemma WriteChapters_prep_items_witness :
  ∃ items,
    (WriteChapters_prep two_chapters empty_world).2 = Ok items
    ∧ length items = length (ws_chapter_order two_chapters)
    ∧ ∀ pos item,
        items !! pos = Some item →
        item_for (ws_abstractions two_chapters) (ws_chapter_order two_chapters)
          pos item.
Proof.
  apply (WriteChapters_prep_items two_chapters empty_world).
  - simpl. apply NoDup_cons_2; [|apply NoDup_singleton].
    intros Hin%list_elem_of_singleton. discriminate Hin.
  - simpl. repeat (apply Forall_cons_2; [lia|]). apply Forall_nil_2.
  - simpl.
    repeat (apply Forall_cons_2;
              [repeat (apply Forall_cons_2; [lia|]); apply Forall_nil_2|]).
    apply Forall_nil_2.
Defined.

Lemma CombineTutorial_prep_filenames_witness :
  cf_filename <$> chapter_files (CombineTutorial_prep one_chapter)
  = imap (λ j idx,
            spec_filename 2 (j + 1)
              (abstraction_name_at (cs_abstractions one_chapter) idx))
      (take (length (cs_chapters one_chapter)) (cs_chapter_order one_chapter)).
Proof.
  apply (CombineTutorial_prep_filenames one_chapter).
  simpl. repeat (apply Forall_cons_2; [lia|]). apply Forall_nil_2.
Defined.

Lemma OrderChapters_prep_after_relationships_witness :
  ∃ p,
    OrderChapters_prep
      {| os_abstractions := rs_abstractions two_abstractions;
         os_relationships :=
           {| summary := "Cache serves Flow.";
              details := [{| rel_from := 0; rel_to := 1; rel_label := "serves" |}] |};
         os_project_name := rs_project_name two_abstractions;
         os_language := rs_language two_abstractions;
         os_use_cache := rs_use_cache two_abstractions |} = Ok p
    ∧ oc_num_abstractions p = length (rs_abstractions two_abstractions)
    ∧ oc_context p
      = order_context_head (rs_language two_abstractions) "Cache serves Flow."
        +:+ String.concat ""
              (relationship_line (rs_abstractions two_abstractions)
               <$> [{| rel_from := 0; rel_to := 1; rel_label := "serves" |}]).
Proof.
  apply (OrderChapters_prep_after_relationships
           (scripted relationships_reply relationships_document
              relationships_value)
           0 two_abstractions empty_world
           {| summary := "Cache serves Flow.";
              details := [{| rel_from := 0; rel_to := 1; rel_label := "serves" |}] |}).
  vm_compute. reflexivity.
Defined.

Lemma chapters_for_every_abstraction_witness :
  (∃ items,
     (WriteChapters_prep
        {| ws_chapter_order := [1; 0];
           ws_abstractions := ws_abstractions two_chapters;
           ws_files := is_files demo_store;
           ws_project_name := is_project_name demo_store;
           ws_language := is_language demo_store;
           ws_use_cache := is_use_cache demo_store;
           ws_api_call_analysis := [] |} empty_world).2 = Ok items
     ∧ length items = length (ws_abstractions two_chapters)
     ∧ ∀ k a,
         ws_abstractions two_chapters !! k = Some a →
         ∃ pos item,
           [1; 0] !! pos = Some (Z.of_nat k)
           ∧ items !! pos = Some item
           ∧ item_chapter_num item = (pos + 1)%nat
           ∧ item_abstraction_details item = a)
  ∧ length
      (chapter_files
         (CombineTutorial_prep
            {| cs_project_name := is_project_name demo_store;
               cs_repo_url := None;
               cs_api_documentation_md := "";
               cs_relationships := demo_relationships;
               cs_chapter_order := [1; 0];
               cs_abstractions := ws_abstractions two_chapters;
               cs_chapters := ["# Chapter 1: Flow"; "# Chapter 2: Cache"] |}))
    = length (ws_abstractions two_chapters).
Proof.
  apply (chapters_for_every_abstraction demo_env 0 0 demo_store
           empty_world empty_world empty_world (ws_abstractions two_chapters)
           demo_relationships
           {| oc_abstraction_listing := "- 0 # Cache
- 1 # Flow";
              oc_context :=
                order_context_head "english" "Cache serves Flow."
                +:+ relationship_line (ws_abstractions two_chapters)
                      {| rel_from := 0; rel_to := 1; rel_label := "serves" |};
              oc_num_abstractions := 2;
              oc_project_name := "demo";
              oc_list_lang_note := "";
              oc_use_cache := true |}
           [1; 0] [] ["# Chapter 1: Flow"; "# Chapter 2: Cache"] None "").
  - vm_compute. reflexivity.
  - vm_compute. reflexivity.
  - vm_compute. reflexivity.
  - reflexivity.
Defined.
